(** * OPAQUE server core: configuration, key material and the 3DH response

    A shallow embedding of the server side of the OPAQUE implementation:
    the public [opaque] package (configuration and server objects), the
    [internal/ake] package (3DH key schedule and server session state) and
    the [internal/keyrecovery] package (client long-term key derivation).

    Byte strings are [list byte] (a nil slice and an empty slice are both
    [[]]); Go's [int] lengths are [Z]; functions returning [(value, error)]
    return a [result]; a Go panic is [None] in an [option]; a method that
    mutates its receiver returns the receiver afterwards, and the CSPRNG is
    threaded explicitly. Cryptographic primitives (group arithmetic, HKDF, HMAC,
    hash) belong to external libraries and are taken through the
    [Primitives] interface. *)

From Stdlib Require Import String List ZArith NArith Lia Bool.
From Stdlib Require Import Init.Byte Strings.Byte.
Import ListNotations.

Local Open Scope Z_scope.

Definition bytes := list byte.

(** Go's [len] on a byte slice. *)
Definition len (b : bytes) : Z := Z.of_nat (length b).

(** The numeric value of a byte, and Go's [byte(x)] conversion of an
    unsigned integer (truncation to the low eight bits). *)
Definition unsigned (b : byte) : Z := Z.of_N (Byte.to_N b).

Definition byte_of_Z (z : Z) : byte :=
  match Byte.of_N (Z.to_N (z mod 256)) with
  | Some b => b
  | None => x00
  end.

(** [[]byte(s)] for an ASCII string constant. *)
Definition bytes_of_string (s : string) : bytes := list_byte_of_string s.

(** Go slice expressions [b[:n]] and [b[n:]] for in-range [n]. *)
Definition slice_to (b : bytes) (n : Z) : bytes := firstn (Z.to_nat n) b.
Definition slice_from (b : bytes) (n : Z) : bytes := skipn (Z.to_nat n) b.

(** ** Errors *)

Inductive error : Type :=
  (* package opaque, configuration *)
  | errInvalidOPRFid
  | errInvalidKDFid
  | errInvalidMACid
  | errInvalidHASHid
  | errInvalidKSFid
  | errInvalidAKEid
  (* package opaque, server *)
  | ErrNoServerKeyMaterial
  | ErrAkeInvalidClientMac
  | ErrInvalidState
  | ErrInvalidEnvelopeLength
  | ErrInvalidPksLength
  | ErrInvalidOPRFSeedLength
  | ErrZeroSKS
  (* package ake *)
  | errStateNotEmpty
  (* package internal *)
  | ErrConfigurationInvalidLength
  (* package encoding *)
  | errHeaderLength
  | errTotalLength
  (* an error value produced by an external library *)
  | ErrExternal (msg : string)
  (* fmt.Errorf("<msg>: %w", err) *)
  | Wrapped (msg : string) (err : error).

Inductive result (A : Type) : Type :=
  | Ok (a : A)
  | Err (e : error).
Arguments Ok {A} a.
Arguments Err {A} e.

Definition is_ok {A} (r : result A) : bool :=
  match r with Ok _ => true | Err _ => false end.

(** Sequencing of computations that may panic. *)
Definition bind {A B} (m : option A) (f : A -> option B) : option B :=
  match m with Some a => f a | None => None end.

Notation "x <- m ;; k" := (bind m (fun x => k))
  (at level 61, m at next level, right associativity).
Notation "' p <- m ;; k" := (bind m (fun p => k))
  (at level 61, p pattern, m at next level, right associativity).

(** Go's [make([]byte, n)]: [n] zero bytes. *)
Definition make (n : Z) : bytes := repeat x00 (Z.to_nat n).

(** Go's [copy(dst, src)]: the first [min(len(dst), len(src))] bytes of
    [dst] are overwritten by those of [src]; the result is the updated [dst]
    and the number of bytes copied. *)
Definition copy (dst src : bytes) : bytes * Z :=
  (firstn (length dst) src ++ skipn (length src) dst,
   Z.min (len dst) (len src)).

(** ** Package [internal/encoding] *)

Module Encoding.

(** The [L] low-order base-256 digits of [n], most significant first. *)
Fixpoint be_bytes (L : nat) (n : Z) : bytes :=
  match L with
  | O => []
  | S k => be_bytes k (n / 256) ++ [byte_of_Z (n mod 256)]
  end.

(** Modelled from the spec: [I2OSP] of the encoding package, which is not
    among the sources. The big-endian [L]-byte encoding of a non-negative
    integer [n < 256^L]; it fails (panics) when [n] is out of range. *)
Definition I2OSP (n : Z) (L : nat) : option bytes :=
  if (0 <=? n) && (n <? 256 ^ Z.of_nat L) then Some (be_bytes L n) else None.

(** Modelled from the spec: [OS2IP], the inverse of [I2OSP]. *)
Definition OS2IP (b : bytes) : Z :=
  fold_left (fun acc x => acc * 256 + unsigned x) b 0.

(** Modelled from the spec: [EncodeVectorLen(v, L)] is
    [I2OSP(len(v), L) ‖ v]. *)
Definition EncodeVectorLen (v : bytes) (L : nat) : option bytes :=
  h <- I2OSP (len v) L ;; Some (h ++ v).

(** Modelled from the spec: [EncodeVector(v) = I2OSP(len(v), 2) ‖ v],
    maximum length 65,535. *)
Definition EncodeVector (v : bytes) : option bytes := EncodeVectorLen v 2.

(** Modelled from the spec: [DecodeVector] reads a 2-byte length, then
    that many bytes, and fails on short input. It returns the vector and
    the offset of the first byte after it. *)
Definition decodeVectorLen (input : bytes) (size : Z) : result (bytes * Z) :=
  if len input <? size then Err errHeaderLength
  else
    let dataLen := OS2IP (slice_to input size) in
    let offset := size + dataLen in
    if len input <? offset then Err errTotalLength
    else Ok (slice_to (slice_from input size) dataLen, offset).

Definition DecodeVector (input : bytes) : result (bytes * Z) :=
  decodeVectorLen input 2.

(** Modelled from the spec: [Concatenate] joins its arguments byte-exactly,
    without padding. *)
Definition Concatenate (parts : list bytes) : bytes := concat parts.

(** Modelled from the spec: [Concat3] is the byte-exact concatenation of
    three byte strings. *)
Definition Concat3 (a b c : bytes) : bytes := a ++ b ++ c.

(** Modelled from the spec: [SuffixString(a, s)] is [a ‖ []byte(s)], the
    label concatenation of the encoding package. *)
Definition SuffixString (a : bytes) (s : string) : bytes :=
  a ++ bytes_of_string s.

End Encoding.

(** ** Package [internal/tag] *)

Module Tag.

(** Modelled from the spec: the tag package is not among the sources; the
    domain separation strings are those of the specification, verbatim. *)
Definition ExpandOPRF : string := "OprfKey".

(** Modelled from the spec: DST of the server's per-user OPRF key. *)
Definition DeriveKeyPair : string := "OPAQUE-DeriveKeyPair".

(** Modelled from the spec: KDF label of the client's private-key seed. *)
Definition ExpandPrivateKey : string := "PrivateKey".

(** Modelled from the spec: DST of the client's long-term key pair. *)
Definition DerivePrivateKey : string := "OPAQUE-DeriveAuthKeyPair".

(** Modelled from the spec: prefix of the 3DH transcript. *)
Definition VersionTag : string := "OPAQUEv1-".

(** Modelled from the spec: prefix of every key-schedule label. *)
Definition LabelPrefix : string := "OPAQUE-".

(** Modelled from the spec: key-schedule label of the handshake secret. *)
Definition Handshake : string := "HandshakeSecret".

(** Modelled from the spec: key-schedule label of the session key. *)
Definition SessionKey : string := "SessionKey".

(** Modelled from the spec: key-schedule label of the server MAC key. *)
Definition MacServer : string := "ServerMAC".

(** Modelled from the spec: key-schedule label of the client MAC key. *)
Definition MacClient : string := "ClientMAC".

(** Modelled from the spec: KDF label of the masking pad. *)
Definition CredentialResponsePad : string := "CredentialResponsePad".

(** Modelled from the spec: version prefix of the OPRF context string. *)
Definition OPRF : string := "OPRFV1-".

End Tag.

(** ** Randomness *)

(** The process-level CSPRNG, as the stream of bytes it will deliver and
    the number of bytes already consumed. *)
Record RNG : Type := mkRNG { stream : nat -> byte; consumed : nat }.

(** Modelled from the spec: [internal.RandomBytes(length)] returns [length]
    fresh bytes of the CSPRNG. *)
Definition RandomBytes (length : Z) (r : RNG) : bytes * RNG :=
  let n := Z.to_nat length in
  (map (stream r) (seq (consumed r) n),
   mkRNG (stream r) (consumed r + n)).

(** ** External primitives *)

(** What the sources use of the external libraries (ecc, hash, ksf), and the
    constants of the [internal] package whose values the sources do not
    show. Groups are identified by their [ecc.Group] byte, hash functions
    by their [crypto.Hash] number. *)
Class Primitives : Type := {
  Scalar : Type;
  Element : Type;
  (* ecc.Group *)
  GroupAvailable : byte -> bool;
  Base : byte -> Element;
  ElementLength : byte -> Z;
  HashToScalar : byte -> bytes -> bytes -> Scalar;
  ScalarRandom : byte -> RNG -> Scalar * RNG;
  ScalarDecode : byte -> bytes -> result Scalar;
  ElementDecode : byte -> bytes -> result Element;
  (* ecc.Scalar, ecc.Element *)
  IsZero : Scalar -> bool;
  Multiply : Element -> Scalar -> Element;
  SerializePoint : Element -> bytes;
  (* oprf.Identifier *)
  OPRFAvailable : byte -> bool;
  (* hash.Hash, ksf.Identifier *)
  HashAvailable : N -> bool;
  KSFAvailable : byte -> bool;
  HashSize : N -> Z;
  HashSum : N -> bytes -> bytes;
  (* HKDF and HMAC over a hash *)
  HKDFExtract : N -> bytes -> bytes -> bytes;
  HKDFExpand : N -> bytes -> bytes -> Z -> bytes;
  HMAC : N -> bytes -> bytes -> bytes;
  HMACEqual : bytes -> bytes -> bool;
  (* internal.SeedLength *)
  SeedLength : Z;
  (* derivation of an ephemeral scalar from a caller-supplied seed *)
  KeyShareFromSeed : byte -> bytes -> Scalar
}.

(** ** Package [internal] *)

Module Internal.

(** Modelled from the spec: [NonceLength], the default nonce length of 32
    bytes. *)
Definition NonceLength : Z := 32.

(** The streaming transcript hash: the hash function and the bytes written
    so far. *)
Record Hasher : Type := mkHasher { hashID : N; written : bytes }.

(** Modelled from the spec: [NewHash] gives a hasher with nothing written,
    [Write] appends to its input and [Sum] is the digest of everything
    written so far; [Sum] leaves the hasher as it is. *)
Definition NewHash (id : N) : Hasher := mkHasher id [].

(** Modelled from the spec: streaming [write(bytes)]. *)
Definition Write (h : Hasher) (b : bytes) : Hasher :=
  mkHasher (hashID h) (written h ++ b).

(** Modelled from the spec: [sum() -> digest]. *)
Definition Sum `{Primitives} (h : Hasher) : bytes :=
  HashSum (hashID h) (written h).

(** The internal configuration. The KDF, MAC and KSF adapters are
    represented by the identifier they were built from ([NewKDF(id)],
    [NewMac(id)], [NewKSF(id)]); their [Size()] is the output size of the
    underlying hash. *)
Record Configuration : Type := mkConfiguration {
  KDF : N;
  MAC : N;
  Hash : Hasher;
  KSF : byte;
  Context : bytes;
  NonceLen : Z;
  EnvelopeSize : Z;
  OPRF : byte;
  Group : byte
}.

(** [p.Hash.Write(b)] on the hasher the configuration holds. *)
Definition writeHash (p : Configuration) (b : bytes) : Configuration :=
  mkConfiguration (KDF p) (MAC p) (Write (Hash p) b) (KSF p) (Context p)
    (NonceLen p) (EnvelopeSize p) (OPRF p) (Group p).

End Internal.

(** ** Package [message] *)

Module Message.
Section Messages.
Context `{Primitives}.

Record RegistrationRequest : Type := { reqBlindedMessage : Element }.

Record RegistrationResponse : Type := {
  EvaluatedMessage : Element;
  Pks : Element
}.

Record RegistrationRecord : Type := {
  PublicKey : Element;
  MaskingKey : bytes;
  Envelope : bytes
}.

Record CredentialRequest : Type := { BlindedMessage : Element }.

Record CredentialResponse : Type := NewCredentialResponse {
  crEvaluatedMessage : Element;
  MaskingNonce : bytes;
  MaskedResponse : bytes
}.

Record KE1 : Type := {
  ke1CredentialRequest : CredentialRequest;
  ClientNonce : bytes;
  ClientPublicKeyshare : Element
}.

Record KE2 : Type := {
  ke2CredentialResponse : CredentialResponse;
  ServerNonce : bytes;
  ServerPublicKeyshare : Element;
  ServerMac : bytes
}.

Record KE3 : Type := { ClientMac : bytes }.

(** Modelled from the spec: the wire form of a credential request is its
    blinded element in compressed encoding. *)
Definition CredentialRequest_Serialize (r : CredentialRequest) : bytes :=
  SerializePoint (BlindedMessage r).

(** Modelled from the spec: serialized KE1 is
    [credential_request ‖ client_nonce ‖ client_keyshare]. *)
Definition KE1_Serialize (m : KE1) : bytes :=
  CredentialRequest_Serialize (ke1CredentialRequest m)
    ++ ClientNonce m ++ SerializePoint (ClientPublicKeyshare m).

(** Modelled from the spec: serialized CredentialResponse is
    [evaluated_message ‖ masking_nonce ‖ masked_response]. *)
Definition CredentialResponse_Serialize (r : CredentialResponse) : bytes :=
  SerializePoint (crEvaluatedMessage r) ++ MaskingNonce r ++ MaskedResponse r.

End Messages.
End Message.

(** ** Package [internal/oprf] *)

Module OPRF.
Section Oprf.
Context `{Primitives}.

(** [DeriveKey] returns a scalar mapped from the input: the hash-to-scalar
    map of the suite's group, applied to the input under the given DST. *)
Definition DeriveKey (c : byte) (input dst : bytes) : Scalar :=
  HashToScalar c input dst.

(** Modelled from the spec: [Evaluate(ku, blinded)] is [ku · blinded]. *)
Definition Evaluate (ku : Scalar) (blinded : Element) : Element :=
  Multiply blinded ku.

(** [base] identifies the OPRF non-verifiable, base mode. *)
Definition base : Z := 0.

(** [contextString] of a cipher suite: the version tag, then the mode on
    one byte and the suite identifier on two bytes. *)
Definition contextString (id : Z) : option bytes :=
  let v := bytes_of_string Tag.OPRF in
  m <- Encoding.I2OSP base 1 ;;
  i <- Encoding.I2OSP id 2 ;;
  Some ((v ++ m) ++ i).

(** [dst] of an OPRF instance with the given context string: the prefix
    followed by the context string. *)
Definition dst (contextString' : bytes) (prefix : string) : bytes :=
  bytes_of_string prefix ++ contextString'.

End Oprf.
End OPRF.

(** ** Package [internal/masking] *)

Module Masking.
Section Mask.
Context `{Primitives}.

Definition xor_byte (a b : byte) : byte :=
  byte_of_Z (Z.lxor (unsigned a) (unsigned b)).

(** Modelled from the spec: the masking package is not among the sources.
    [mask_pad = KDF.Expand(masking_key, masking_nonce ‖
    "CredentialResponsePad", ElementLen + EnvelopeLen)] and
    [masked_response = (server_public_key ‖ envelope) XOR mask_pad]. *)
Definition xorResponse (c : Internal.Configuration)
    (key nonce input : bytes) : bytes :=
  let pad := HKDFExpand (Internal.KDF c) key
               (Encoding.SuffixString nonce Tag.CredentialResponsePad)
               (ElementLength (Internal.Group c) + Internal.EnvelopeSize c) in
  map (fun '(r, x) => xor_byte r x) (combine pad input).

(** Modelled from the spec: the masking nonce is [NonceLen] random bytes
    per response, unless the caller supplies one. *)
Definition Mask (c : Internal.Configuration)
    (nonce maskingKey serverPublicKey envelope : bytes) (r : RNG)
    : bytes * bytes * RNG :=
  let '(nonce', r') :=
    if len nonce =? 0 then RandomBytes (Internal.NonceLen c) r
    else (nonce, r) in
  (nonce', xorResponse c maskingKey nonce' (serverPublicKey ++ envelope), r').

End Mask.
End Masking.

(** ** Package [internal/keyrecovery] *)

Module KeyRecovery.
Section KeyRec.
Context `{Primitives}.

Definition deriveAuthKeyPair (conf : Internal.Configuration)
    (randomizedPwd nonce : bytes) : Scalar * Element :=
  let seed := HKDFExpand (Internal.KDF conf) randomizedPwd
                (Encoding.SuffixString nonce Tag.ExpandPrivateKey)
                SeedLength in
  let sk := OPRF.DeriveKey (Internal.Group conf) seed
              (bytes_of_string Tag.DerivePrivateKey) in
  (sk, Multiply (Base (Internal.Group conf)) sk).

Definition getPubkey (conf : Internal.Configuration)
    (randomizedPwd nonce : bytes) : Element :=
  snd (deriveAuthKeyPair conf randomizedPwd nonce).

Definition recoverKeys (conf : Internal.Configuration)
    (randomizedPwd nonce : bytes) : Scalar * Element :=
  deriveAuthKeyPair conf randomizedPwd nonce.

End KeyRec.
End KeyRecovery.

(** ** Package [internal/ake] *)

Module AKE.
Section Ake.
Context `{Primitives}.

(** [setValues] - testing: integrated to support testing, to force values. *)
Definition setValues (g : byte) (scalar : option Scalar) (nonce : bytes)
    (nonceLen : Z) (r : RNG) : Scalar * bytes * RNG :=
  let '(s, r1) :=
    match scalar with
    | Some sc => (sc, r)
    | None => ScalarRandom g r
    end in
  let '(n, r2) :=
    if len nonce =? 0 then RandomBytes nonceLen r1 else (nonce, r1) in
  (s, n, r2).

Definition buildLabel (length : Z) (label context : bytes) : option bytes :=
  l <- Encoding.I2OSP length 2 ;;
  lab <- Encoding.EncodeVectorLen
           (bytes_of_string Tag.LabelPrefix ++ label) 1 ;;
  c <- Encoding.EncodeVectorLen context 1 ;;
  Some (Encoding.Concat3 l lab c).

Definition expand (h : N) (secret hkdfLabel : bytes) : bytes :=
  HKDFExpand h secret hkdfLabel (HashSize h).

Definition expandLabel (h : N) (secret label context : bytes)
    : option bytes :=
  hkdfLabel <- buildLabel (HashSize h) label context ;;
  Some (expand h secret hkdfLabel).

Definition deriveSecret (h : N) (secret label context : bytes)
    : option bytes :=
  expandLabel h secret label context.

(** [initTranscript] writes the transcript of the exchange to the hasher of
    the parameters. *)
Definition initTranscript (p : Internal.Configuration) (idc ids : bytes)
    (ke1 : Message.KE1) (ke2 : Message.KE2) : option Internal.Configuration :=
  sidc <- Encoding.EncodeVector idc ;;
  sids <- Encoding.EncodeVector ids ;;
  ctx <- Encoding.EncodeVector (Internal.Context p) ;;
  Some (Internal.writeHash p
          (Encoding.Concatenate
             [bytes_of_string Tag.VersionTag; ctx;
              sidc; Message.KE1_Serialize ke1;
              sids;
              Message.CredentialResponse_Serialize
                (Message.ke2CredentialResponse ke2);
              Message.ServerNonce ke2;
              SerializePoint (Message.ServerPublicKeyshare ke2)])).

Record macKeys : Type := { serverMacKey : bytes; clientMacKey : bytes }.

Definition deriveKeys (h : N) (ikm context : bytes)
    : option (macKeys * bytes) :=
  let prk := HKDFExtract h [] ikm in
  handshakeSecret <-
    deriveSecret h prk (bytes_of_string Tag.Handshake) context ;;
  sessionSecret <-
    deriveSecret h prk (bytes_of_string Tag.SessionKey) context ;;
  smk <- expandLabel h handshakeSecret (bytes_of_string Tag.MacServer) [] ;;
  cmk <- expandLabel h handshakeSecret (bytes_of_string Tag.MacClient) [] ;;
  Some ({| serverMacKey := smk; clientMacKey := cmk |}, sessionSecret).

Definition k3dh (p1 : Element) (s1 : Scalar) (p2 : Element) (s2 : Scalar)
    (p3 : Element) (s3 : Scalar) : bytes :=
  let e1 := SerializePoint (Multiply p1 s1) in
  let e2 := SerializePoint (Multiply p2 s2) in
  let e3 := SerializePoint (Multiply p3 s3) in
  Encoding.Concat3 e1 e2 e3.

(** [core3DH] returns the session secret, the server MAC and the client
    MAC; the hasher of the parameters [p] is left with everything written
    to it. *)
Definition core3DH (p : Internal.Configuration) (ikm idu ids : bytes)
    (ke1 : Message.KE1) (ke2 : Message.KE2)
    : option (Internal.Configuration * bytes * bytes * bytes) :=
  p1 <- initTranscript p idu ids ke1 ke2 ;;
  '(keys, sessionSecret) <-
    deriveKeys (Internal.KDF p1) ikm (Internal.Sum (Internal.Hash p1)) ;;
  let serverMac :=
    HMAC (Internal.MAC p1) (serverMacKey keys)
      (Internal.Sum (Internal.Hash p1)) in
  let p2 := Internal.writeHash p1 serverMac in
  let transcript3 := Internal.Sum (Internal.Hash p2) in
  let clientMac := HMAC (Internal.MAC p2) (clientMacKey keys) transcript3 in
  Some (p2, sessionSecret, serverMac, clientMac).

Record Identities : Type := {
  ClientIdentity : bytes;
  ServerIdentity : bytes
}.

(** Modelled from the spec: [SetIdentities] is not among the sources. An
    absent identity is replaced by the canonical encoding of the
    corresponding public key. *)
Definition SetIdentities (i : Identities) (clientPublicKey : Element)
    (serverPublicKey : bytes) : Identities :=
  {| ClientIdentity :=
       if len (ClientIdentity i) =? 0 then SerializePoint clientPublicKey
       else ClientIdentity i;
     ServerIdentity :=
       if len (ServerIdentity i) =? 0 then serverPublicKey
       else ServerIdentity i |}.

Record Options : Type := {
  KeyShareSeed : bytes;
  Nonce : bytes;
  NonceLength : Z
}.

Record values : Type := {
  ephemeralSecretKey : option Scalar;
  nonce : bytes
}.

(** Modelled from the spec: [setOptions] is not among the sources. The
    ephemeral scalar is derived from the caller's key-share seed or, when
    that is zero-valued, sampled from the CSPRNG; the nonce is the caller's
    or, when that is zero-valued, [NonceLength] (default 32) random bytes.
    The result is the ephemeral public key. *)
Definition setOptions (g : byte) (options : Options) (v : values) (r : RNG)
    : values * Element * RNG :=
  let '(esk, r1) :=
    if len (KeyShareSeed options) =? 0 then ScalarRandom g r
    else (KeyShareFromSeed g (KeyShareSeed options), r) in
  let '(n, r2) :=
    if len (Nonce options) =? 0 then
      RandomBytes (if NonceLength options =? 0 then Internal.NonceLength
                   else NonceLength options) r1
    else (Nonce options, r1) in
  ({| ephemeralSecretKey := Some esk; nonce := n |},
   Multiply (Base g) esk, r2).

(** [Server] exposes the server's AKE functions and holds its state. *)
Record Server : Type := {
  vals : values;
  clientMac : bytes;
  sessionSecret : bytes
}.

Definition NewServer : Server :=
  {| vals := {| ephemeralSecretKey := None; nonce := [] |};
     clientMac := [];
     sessionSecret := [] |}.

(** The input keying material of the server's response, as [Response]
    passes it to [k3dh]. *)
Definition responseIKM (ke1 : Message.KE1) (ephemeralSecretKey : Scalar)
    (serverSecretKey : Scalar) (clientPublicKey : Element) : bytes :=
  k3dh
    (Message.ClientPublicKeyshare ke1) ephemeralSecretKey
    (Message.ClientPublicKeyshare ke1) serverSecretKey
    clientPublicKey ephemeralSecretKey.

(** [Response] produces a 3DH server response message. The receiver [s]
    and the parameters [conf] are updated in place; the call panics where
    [core3DH] does, or on a nil ephemeral key. *)
Definition Response (s : Server) (conf : Internal.Configuration)
    (identities : Identities) (serverSecretKey : Scalar)
    (clientPublicKey : Element) (ke1 : Message.KE1)
    (response : Message.CredentialResponse) (options : Options) (r : RNG)
    : option (Message.KE2 * Server * Internal.Configuration * RNG) :=
  let '(v, epks, r') := setOptions (Internal.Group conf) options (vals s) r in
  esk <- ephemeralSecretKey v ;;
  let ke2 := {| Message.ke2CredentialResponse := response;
                Message.ServerNonce := nonce v;
                Message.ServerPublicKeyshare := epks;
                Message.ServerMac := [] |} in
  let ikm := responseIKM ke1 esk serverSecretKey clientPublicKey in
  '(conf', sessionSecret, serverMac, clientMac) <-
    core3DH conf ikm (ClientIdentity identities) (ServerIdentity identities)
      ke1 ke2 ;;
  Some ({| Message.ke2CredentialResponse := response;
           Message.ServerNonce := nonce v;
           Message.ServerPublicKeyshare := epks;
           Message.ServerMac := serverMac |},
        {| vals := v; clientMac := clientMac;
           sessionSecret := sessionSecret |},
        conf', r').

(** [Finalize] verifies the authentication tag contained in ke3. *)
Definition Finalize (s : Server) (ke3 : Message.KE3) : bool :=
  HMACEqual (clientMac s) (Message.ClientMac ke3).

Definition SessionKey (s : Server) : bytes := sessionSecret s.

Definition ExpectedMAC (s : Server) : bytes := clientMac s.

(** [SerializeState] returns the internal state of the server: a fresh
    buffer into which the client MAC, then the session secret are copied. *)
Definition SerializeState (s : Server) : bytes :=
  let state := make (len (clientMac s) + len (sessionSecret s)) in
  let '(state1, i) := copy state (clientMac s) in
  let '(tail, _) := copy (slice_from state1 i) (sessionSecret s) in
  slice_to state1 i ++ tail.

(** [SetState] sets the given client MAC and session secret, unless the
    state is not empty. *)
Definition SetState (s : Server) (clientMac' sessionSecret' : bytes)
    : option error * Server :=
  if negb (len (clientMac s) =? 0) || negb (len (sessionSecret s) =? 0)
  then (Some errStateNotEmpty, s)
  else (None, {| vals := vals s; clientMac := clientMac';
                 sessionSecret := sessionSecret' |}).

(** [Flush] sets all the session related values to nil. *)
Definition Flush (s : Server) : Server :=
  {| vals := {| ephemeralSecretKey := None; nonce := [] |};
     clientMac := [];
     sessionSecret := [] |}.

End Ake.
End AKE.

(** ** Package [opaque]: configuration *)

Module Opaque.
Section Definitions.
Context `{Primitives}.

(** Modelled from the spec: the group identifiers are constants of the ecc
    library; their values are those of the ciphersuite table. *)
Definition RistrettoSha512 : byte := x01.

(** Modelled from the spec: identifier of P-256 with SHA-256. *)
Definition P256Sha256 : byte := x03.

(** Modelled from the spec: identifier of P-384 with SHA-384. *)
Definition P384Sha512 : byte := x04.

(** Modelled from the spec: identifier of P-521 with SHA-512. *)
Definition P521Sha512 : byte := x05.

(** [Available] returns whether the Group byte is recognized in this
    implementation. *)
Definition Available (g : byte) : bool :=
  Byte.eqb g RistrettoSha512 ||
  Byte.eqb g P256Sha256 ||
  Byte.eqb g P384Sha512 ||
  Byte.eqb g P521Sha512.

Definition confIDsLength : Z := 6.

(** [Configuration] represents an OPAQUE configuration. [KDF], [MAC] and
    [Hash] are [crypto.Hash] numbers (unsigned machine integers), the other
    identifiers are bytes. *)
Record Configuration : Type := mkConfiguration {
  Context : bytes;
  KDF : N;
  MAC : N;
  Hash : N;
  KSF : byte;
  OPRF : byte;
  AKE : byte
}.

(** Modelled from the spec: [crypto.SHA512] is 7 and [ksf.Argon2id] is 1 in
    the identifier tables. *)
Definition DefaultConfiguration : Configuration :=
  {| OPRF := RistrettoSha512;
     AKE := RistrettoSha512;
     KSF := x01;
     KDF := 7%N;
     MAC := 7%N;
     Hash := 7%N;
     Context := [] |}.

(** [verify] returns an error on the first non-compliant parameter, nil
    otherwise. *)
Definition verify (c : Configuration) : option error :=
  if negb (Available (OPRF c)) || negb (OPRFAvailable (OPRF c)) then
    Some errInvalidOPRFid
  else if negb (Available (AKE c)) || negb (GroupAvailable (AKE c)) then
    Some errInvalidAKEid
  else if (25 <=? KDF c)%N || negb (HashAvailable (KDF c)) then
    Some errInvalidKDFid
  else if (25 <=? MAC c)%N || negb (HashAvailable (MAC c)) then
    Some errInvalidMACid
  else if (25 <=? Hash c)%N || negb (HashAvailable (Hash c)) then
    Some errInvalidHASHid
  else if negb (Byte.eqb (KSF c) x00) && negb (KSFAvailable (KSF c)) then
    Some errInvalidKSFid
  else None.

(** [toInternal] builds the internal representation of the configuration
    parameters. *)
Definition toInternal (c : Configuration) : result Internal.Configuration :=
  match verify c with
  | Some err => Err err
  | None =>
      let g := AKE c in
      let o := OPRF c in
      let mac := MAC c in
      Ok {| Internal.OPRF := o;
            Internal.Group := g;
            Internal.KSF := KSF c;
            Internal.KDF := KDF c;
            Internal.MAC := mac;
            Internal.Hash := Internal.NewHash (Hash c);
            Internal.NonceLen := Internal.NonceLength;
            Internal.EnvelopeSize := Internal.NonceLength + HashSize mac;
            Internal.Context := Context c |}
  end.

(** [Serialize] returns the byte encoding of the Configuration structure.
    It panics when the context does not fit a 2-byte length prefix. *)
Definition Serialize (c : Configuration) : option bytes :=
  let ids := [ OPRF c;
               AKE c;
               KSF c;
               byte_of_Z (Z.of_N (KDF c));
               byte_of_Z (Z.of_N (MAC c));
               byte_of_Z (Z.of_N (Hash c)) ] in
  v <- Encoding.EncodeVector (Context c) ;;
  Some (Encoding.Concatenate [ids; v]).

(** [encoded[i]] for an index the caller has checked to be in range. *)
Definition at_ (encoded : bytes) (i : nat) : byte := nth i encoded x00.

(** [DeserializeConfiguration] decodes the input and returns a
    Configuration. *)
Definition DeserializeConfiguration (encoded : bytes) : result Configuration :=
  if len encoded <? confIDsLength + 2 then Err ErrConfigurationInvalidLength
  else
    match Encoding.DecodeVector (slice_from encoded confIDsLength) with
    | Err err => Err (Wrapped "decoding the configuration context" err)
    | Ok (ctx, _) =>
        let c := {| OPRF := at_ encoded 0;
                    AKE := at_ encoded 1;
                    KSF := at_ encoded 2;
                    KDF := Byte.to_N (at_ encoded 3);
                    MAC := Byte.to_N (at_ encoded 4);
                    Hash := Byte.to_N (at_ encoded 5);
                    Context := ctx |} in
        match verify c with
        | Some err2 => Err err2
        | None => Ok c
        end
    end.

(** [ClientRecord] is a server-side structure enabling the storage of user
    relevant information. *)
Record ClientRecord : Type := {
  RegistrationRecord : Message.RegistrationRecord;
  CredentialIdentifier : bytes;
  ClientIdentity : bytes
}.

(** [GetFakeRecord] creates a fake Client record to be used when no existing
    client record exists, to defend against client enumeration techniques. *)
Definition GetFakeRecord (c : Configuration) (credentialIdentifier : bytes)
    (r : RNG) : result ClientRecord * RNG :=
  match toInternal c with
  | Err err => (Err err, r)
  | Ok i =>
      let '(scalar, r1) := ScalarRandom (Internal.Group i) r in
      let publicKey := Multiply (Base (Internal.Group i)) scalar in
      let '(maskingKey, r2) := RandomBytes (HashSize (Internal.KDF i)) r1 in
      let regRecord :=
        {| Message.PublicKey := publicKey;
           Message.MaskingKey := maskingKey;
           Message.Envelope :=
             make (Internal.NonceLength + HashSize (Internal.MAC i)) |} in
      (Ok {| CredentialIdentifier := credentialIdentifier;
             ClientIdentity := [];
             RegistrationRecord := regRecord |}, r2)
  end.

(** ** Package [opaque]: server *)

Record KeyMaterial : Type := {
  serverIdentity : bytes;
  serverSecretKey : Scalar;
  serverPublicKey : bytes;
  oprfSeed : bytes
}.

(** [Server] represents an OPAQUE Server, exposing its functions and holding
    its state. [keyMaterial] is [None] as long as the pointer is nil. *)
Record Server : Type := {
  conf : Internal.Configuration;
  Ake : AKE.Server;
  keyMaterial : option KeyMaterial
}.

(** [NewServer] returns a Server instantiation given the application
    Configuration ([None] for a nil pointer). *)
Definition NewServer (c : option Configuration) : result Server :=
  let c := match c with None => DefaultConfiguration | Some c' => c' end in
  match toInternal c with
  | Err err => Err err
  | Ok conf' =>
      Ok {| conf := conf'; Ake := AKE.NewServer; keyMaterial := None |}
  end.

Definition GetConf (s : Server) : Internal.Configuration := conf s.

Definition oprfResponse (s : Server) (element : Element)
    (oprfSeed' credentialIdentifier : bytes) : Element :=
  let seed := HKDFExpand (Internal.KDF (conf s))
                oprfSeed'
                (Encoding.SuffixString credentialIdentifier Tag.ExpandOPRF)
                SeedLength in
  let ku := OPRF.DeriveKey (Internal.OPRF (conf s)) seed
              (bytes_of_string Tag.DeriveKeyPair) in
  OPRF.Evaluate ku element.

(** [RegistrationResponse] returns a RegistrationResponse message to the
    input RegistrationRequest message and given identifiers. *)
Definition RegistrationResponse (s : Server)
    (req : Message.RegistrationRequest) (serverPublicKey' : Element)
    (credentialIdentifier oprfSeed' : bytes) : Message.RegistrationResponse :=
  let z := oprfResponse s (Message.reqBlindedMessage req) oprfSeed'
             credentialIdentifier in
  {| Message.EvaluatedMessage := z; Message.Pks := serverPublicKey' |}.

Definition credentialResponse (s : Server) (req : Message.CredentialRequest)
    (serverPublicKey' : bytes) (record : Message.RegistrationRecord)
    (credentialIdentifier oprfSeed' maskingNonce : bytes) (r : RNG)
    : Message.CredentialResponse * RNG :=
  let z := oprfResponse s (Message.BlindedMessage req) oprfSeed'
             credentialIdentifier in
  let '(maskingNonce', maskedResponse, r') :=
    Masking.Mask (conf s) maskingNonce (Message.MaskingKey record)
      serverPublicKey' (Message.Envelope record) r in
  (Message.NewCredentialResponse z maskingNonce' maskedResponse, r').

(** [GenerateKE2Options] enable setting optional values for the session,
    which default to secure random values if not set. *)
Record GenerateKE2Options : Type := {
  KeyShareSeed : bytes;
  AKENonce : bytes;
  MaskingNonce : bytes;
  AKENonceLength : Z
}.

Definition getGenerateKE2Options (options : list GenerateKE2Options)
    : AKE.Options * bytes :=
  match options with
  | [] =>
      ({| AKE.KeyShareSeed := []; AKE.Nonce := []; AKE.NonceLength := 0 |},
       [])
  | o :: _ =>
      ({| AKE.KeyShareSeed := KeyShareSeed o;
          AKE.Nonce := AKENonce o;
          AKE.NonceLength := AKENonceLength o |},
       MaskingNonce o)
  end.

(** [SetKeyMaterial] set the server's identity and mandatory key material to
    be used during GenerateKE2(). The result is the error ([None] for nil)
    and the server afterwards. *)
Definition SetKeyMaterial (s : Server)
    (serverIdentity' serverSecretKey' serverPublicKey' oprfSeed' : bytes)
    : option error * Server :=
  match ScalarDecode (Internal.Group (conf s)) serverSecretKey' with
  | Err err => (Some (Wrapped "invalid server AKE secret key" err), s)
  | Ok sks =>
      if IsZero sks then (Some ErrZeroSKS, s)
      else if negb (len oprfSeed' =?
                    HashSize (Internal.hashID (Internal.Hash (conf s))))
      then (Some ErrInvalidOPRFSeedLength, s)
      else if negb (len serverPublicKey' =?
                    ElementLength (Internal.Group (conf s)))
      then (Some ErrInvalidPksLength, s)
      else
        match ElementDecode (Internal.Group (conf s)) serverPublicKey' with
        | Err err => (Some (Wrapped "invalid server public key" err), s)
        | Ok _ =>
            (None,
             {| conf := conf s;
                Ake := Ake s;
                keyMaterial :=
                  Some {| serverIdentity := serverIdentity';
                          serverSecretKey := sks;
                          serverPublicKey := serverPublicKey';
                          oprfSeed := oprfSeed' |} |})
        end
  end.

(** [GenerateKE2] responds to a KE1 message with a KE2 message a client
    record. The result is [None] where the call panics, and otherwise the
    returned pair, the server afterwards and the CSPRNG afterwards. *)
Definition GenerateKE2 (s : Server) (ke1 : Message.KE1)
    (record : ClientRecord) (options : list GenerateKE2Options) (r : RNG)
    : option (result Message.KE2 * Server * RNG) :=
  match keyMaterial s with
  | None => Some (Err ErrNoServerKeyMaterial, s, r)
  | Some km =>
      if negb (len (Message.Envelope (RegistrationRecord record)) =?
               Internal.EnvelopeSize (conf s))
      then Some (Err ErrInvalidEnvelopeLength, s, r)
      else
        let '(op, maskingNonce) := getGenerateKE2Options options in
        let '(response, r1) :=
          credentialResponse s (Message.ke1CredentialRequest ke1)
            (serverPublicKey km) (RegistrationRecord record)
            (CredentialIdentifier record) (oprfSeed km) maskingNonce r in
        let identities :=
          AKE.SetIdentities
            {| AKE.ClientIdentity := ClientIdentity record;
               AKE.ServerIdentity := serverIdentity km |}
            (Message.PublicKey (RegistrationRecord record))
            (serverPublicKey km) in
        '(ke2, ake', conf', r2) <-
          AKE.Response (Ake s) (conf s) identities (serverSecretKey km)
            (Message.PublicKey (RegistrationRecord record)) ke1 response
            op r1 ;;
        Some (Ok ke2,
              {| conf := conf'; Ake := ake'; keyMaterial := keyMaterial s |},
              r2)
  end.

(** [LoginFinish] returns an error if the KE3 received from the client holds
    an invalid mac, and nil if correct. *)
Definition LoginFinish (s : Server) (ke3 : Message.KE3) : option error :=
  if negb (AKE.Finalize (Ake s) ke3) then Some ErrAkeInvalidClientMac
  else None.

Definition SessionKey (s : Server) : bytes := AKE.SessionKey (Ake s).

Definition ExpectedMAC (s : Server) : bytes := AKE.ExpectedMAC (Ake s).

(** [SetAKEState] sets the internal state of the AKE server from the given
    bytes. *)
Definition SetAKEState (s : Server) (state : bytes) : option error * Server :=
  if negb (len state =?
           HashSize (Internal.MAC (conf s)) + HashSize (Internal.KDF (conf s)))
  then (Some ErrInvalidState, s)
  else
    match AKE.SetState (Ake s)
            (slice_to state (HashSize (Internal.MAC (conf s))))
            (slice_from state (HashSize (Internal.MAC (conf s)))) with
    | (Some err, ake') =>
        (Some (Wrapped "setting AKE state" err),
         {| conf := conf s; Ake := ake'; keyMaterial := keyMaterial s |})
    | (None, ake') =>
        (None,
         {| conf := conf s; Ake := ake'; keyMaterial := keyMaterial s |})
    end.

(** [SerializeState] returns the internal state of the AKE server serialized
    to bytes. *)
Definition SerializeState (s : Server) : bytes := AKE.SerializeState (Ake s).

(** [GenerateOPRFSeed] returns a OPRF seed valid in the given
    configuration. *)
Definition GenerateOPRFSeed (c : Configuration) (r : RNG) : bytes * RNG :=
  RandomBytes (HashSize (Hash c)) r.

(** *** Histories of a server object *)

(** The servers a caller can hold: built by [NewServer], then driven through
    the mutating methods. [LoginFinish] and the getters leave the server as
    it is. *)
Inductive reachable : Server -> Prop :=
  | reach_NewServer c s :
      NewServer c = Ok s -> reachable s
  | reach_SetKeyMaterial s sid ssk spk seed :
      reachable s ->
      reachable (snd (SetKeyMaterial s sid ssk spk seed))
  | reach_GenerateKE2 s ke1 record options r res s' r' :
      reachable s ->
      GenerateKE2 s ke1 record options r = Some (res, s', r') ->
      reachable s'
  | reach_SetAKEState s state :
      reachable s ->
      reachable (snd (SetAKEState s state)).

(** The servers on which no call of [SetKeyMaterial] has succeeded. *)
Inductive unkeyed : Server -> Prop :=
  | unkeyed_NewServer c s :
      NewServer c = Ok s -> unkeyed s
  | unkeyed_SetKeyMaterial s sid ssk spk seed err s' :
      unkeyed s ->
      SetKeyMaterial s sid ssk spk seed = (Some err, s') ->
      unkeyed s'
  | unkeyed_GenerateKE2 s ke1 record options r res s' r' :
      unkeyed s ->
      GenerateKE2 s ke1 record options r = Some (res, s', r') ->
      unkeyed s'
  | unkeyed_SetAKEState s state :
      unkeyed s ->
      unkeyed (snd (SetAKEState s state)).

End Definitions.
End Opaque.

(** ** A small instance of the primitives

    A concrete, executable instance of [Primitives], on which the model can
    be run: the additive group of integers modulo the prime 251 with
    one-byte encodings, and checksum-based stand-ins for the hash, HKDF and
    HMAC with the output sizes of SHA-256, SHA-384 and SHA-512. It has no
    cryptographic strength; it only fixes the shapes and lengths. *)

Module Toy.

Definition q : Z := 251.

Definition checksum (b : bytes) : Z :=
  fold_left (fun acc x => (acc * 31 + unsigned x + 1) mod 65521) b 7.

Definition digest (n : Z) (data : bytes) : bytes :=
  map (fun i => byte_of_Z (checksum data + Z.of_nat i)) (seq 0 (Z.to_nat n)).

Definition size (h : N) : Z :=
  match h with
  | 5%N => 32
  | 6%N => 48
  | 7%N => 64
  | _ => 0
  end.

Definition hashKnown (h : N) : bool :=
  (h =? 5)%N || (h =? 6)%N || (h =? 7)%N.

Definition groupKnown (g : byte) : bool :=
  Byte.eqb g x01 || Byte.eqb g x03 || Byte.eqb g x04 || Byte.eqb g x05.

Definition ksfKnown (k : byte) : bool :=
  Byte.eqb k x01 || Byte.eqb k x02 || Byte.eqb k x03.

Definition decodeScalar (b : bytes) : result Z :=
  match b with
  | [x] => if unsigned x <? q then Ok (unsigned x)
           else Err (ErrExternal "scalar out of range")
  | _ => Err (ErrExternal "invalid scalar length")
  end.

Definition decodeElement (b : bytes) : result Z :=
  match b with
  | [x] => if (0 <? unsigned x) && (unsigned x <? q) then Ok (unsigned x)
           else Err (ErrExternal "invalid element")
  | _ => Err (ErrExternal "invalid element length")
  end.

Definition randomScalar (r : RNG) : Z * RNG :=
  let '(b, r') := RandomBytes 1 r in
  (1 + unsigned (hd x00 b) mod (q - 1), r').

Definition equalBytes (a b : bytes) : bool :=
  (len a =? len b) &&
  forallb (fun '(x, y) => Byte.eqb x y) (combine a b).

Definition primitives : Primitives :=
  {| Scalar := Z;
     Element := Z;
     GroupAvailable := groupKnown;
     Base := fun _ => 1;
     ElementLength := fun _ => 1;
     HashToScalar := fun _ input dst => checksum (input ++ dst) mod q;
     ScalarRandom := fun _ r => randomScalar r;
     ScalarDecode := fun _ b => decodeScalar b;
     ElementDecode := fun _ b => decodeElement b;
     IsZero := fun s => s =? 0;
     Multiply := fun e s => (e * s) mod q;
     SerializePoint := fun e => [byte_of_Z e];
     OPRFAvailable := groupKnown;
     HashAvailable := hashKnown;
     KSFAvailable := ksfKnown;
     HashSize := size;
     HashSum := fun h data => digest (size h) data;
     HKDFExtract := fun h salt ikm => digest (size h) (salt ++ x01 :: ikm);
     HKDFExpand := fun h prk info L => digest L (prk ++ x02 :: info);
     HMAC := fun h key msg => digest (size h) (key ++ x03 :: msg);
     HMACEqual := equalBytes;
     SeedLength := 32;
     KeyShareFromSeed := fun _ seed => 1 + checksum seed mod (q - 1) |}.

(** A CSPRNG state to run the model from. *)
Definition rng0 : RNG := mkRNG (fun n => byte_of_Z (Z.of_nat n * 7 + 3)) 0.

(** The internal form of the default configuration. *)
Definition conf0 : Internal.Configuration :=
  {| Internal.KDF := 7%N;
     Internal.MAC := 7%N;
     Internal.Hash := Internal.NewHash 7%N;
     Internal.KSF := x01;
     Internal.Context := [];
     Internal.NonceLen := 32;
     Internal.EnvelopeSize := 96;
     Internal.OPRF := x01;
     Internal.Group := x01 |}.

(** The server [NewServer] builds from the default configuration. *)
Definition server0 : @Opaque.Server primitives :=
  {| Opaque.conf := conf0;
     Opaque.Ake := @AKE.NewServer primitives;
     Opaque.keyMaterial := None |}.

(** A 64-byte OPRF seed [01 02 .. 40]. *)
Definition seed0 : bytes := map (fun i => byte_of_Z (Z.of_nat i)) (seq 1 64).

(** [server0] after [SetKeyMaterial] with secret key 2, public key 2 and
    the seed [seed0]. *)
Definition keyMaterial0 : @Opaque.KeyMaterial primitives :=
  {| Opaque.serverIdentity := [];
     Opaque.serverSecretKey := (2 : @Scalar primitives);
     Opaque.serverPublicKey := [x02];
     Opaque.oprfSeed := seed0 |}.

Definition server1 : @Opaque.Server primitives :=
  {| Opaque.conf := conf0;
     Opaque.Ake := @AKE.NewServer primitives;
     Opaque.keyMaterial := Some keyMaterial0 |}.

(** A client record with a well-formed envelope, a KE1 message and the
    options of a deterministic run. *)
Definition record0 : @Opaque.ClientRecord primitives :=
  {| Opaque.RegistrationRecord :=
       {| Message.PublicKey := (9 : @Element primitives);
          Message.MaskingKey := repeat x07 64;
          Message.Envelope := repeat x00 96 |};
     Opaque.CredentialIdentifier := bytes_of_string "alice@example";
     Opaque.ClientIdentity := [] |}.

Definition ke1_0 : @Message.KE1 primitives :=
  {| Message.ke1CredentialRequest :=
       {| Message.BlindedMessage := (4 : @Element primitives) |};
     Message.ClientNonce := repeat x0a 32;
     Message.ClientPublicKeyshare := (6 : @Element primitives) |}.

Definition ke2_0 : @Message.KE2 primitives :=
  {| Message.ke2CredentialResponse :=
       @Message.NewCredentialResponse primitives 8 (repeat x0b 32)
         (repeat x0c 97);
     Message.ServerNonce := repeat x0d 32;
     Message.ServerPublicKeyshare := (3 : @Element primitives);
     Message.ServerMac := [] |}.

End Toy.

(** * Properties *)
(** ** Facts about the encoding *)

Lemma unsigned_range (b : byte) : 0 <= unsigned b < 256.
Proof.
  unfold unsigned. pose proof (Byte.to_N_bounded b). lia.
Qed.

Lemma unsigned_byte_of_Z (z : Z) : unsigned (byte_of_Z z) = z mod 256.
Proof.
  unfold unsigned, byte_of_Z.
  pose proof (Z.mod_pos_bound z 256 ltac:(lia)) as Hb.
  destruct (Byte.of_N (Z.to_N (z mod 256))) as [b|] eqn:E.
  - apply Byte.to_of_N in E. rewrite E. lia.
  - apply Byte.of_N_None_iff in E. lia.
Qed.

Lemma byte_of_Z_unsigned (b : byte) : byte_of_Z (unsigned b) = b.
Proof.
  unfold byte_of_Z, unsigned.
  rewrite Z.mod_small by (pose proof (Byte.to_N_bounded b); lia).
  rewrite N2Z.id, Byte.of_to_N. reflexivity.
Qed.

Lemma len_app (a b : bytes) : len (a ++ b) = len a + len b.
Proof. unfold len. rewrite length_app. lia. Qed.

Lemma len_nonneg (a : bytes) : 0 <= len a.
Proof. unfold len. lia. Qed.

Lemma length_be_bytes (L : nat) (n : Z) : length (Encoding.be_bytes L n) = L.
Proof.
  revert n. induction L as [|k IH]; intros n; simpl.
  - reflexivity.
  - rewrite length_app, IH. simpl. lia.
Qed.

Lemma OS2IP_app (a : bytes) (x : byte) :
  Encoding.OS2IP (a ++ [x]) = Encoding.OS2IP a * 256 + unsigned x.
Proof. unfold Encoding.OS2IP. rewrite fold_left_app. reflexivity. Qed.

Lemma OS2IP_be_bytes (L : nat) (n : Z) :
  0 <= n < 256 ^ Z.of_nat L -> Encoding.OS2IP (Encoding.be_bytes L n) = n.
Proof.
  revert n. induction L as [|k IH]; intros n Hn.
  - simpl in *. unfold Encoding.OS2IP. simpl. lia.
  - cbn [Encoding.be_bytes]. rewrite OS2IP_app, unsigned_byte_of_Z.
    rewrite IH.
    + rewrite Z.mod_mod by lia. symmetry. rewrite Z.mul_comm. apply Z.div_mod. lia.
    + rewrite Nat2Z.inj_succ, Z.pow_succ_r in Hn by lia.
      split.
      * apply Z.div_pos; lia.
      * apply Z.div_lt_upper_bound; lia.
Qed.

Lemma I2OSP_length (n : Z) (L : nat) (h : bytes) :
  Encoding.I2OSP n L = Some h -> length h = L.
Proof.
  unfold Encoding.I2OSP. destruct (_ && _); intros E; inversion E.
  apply length_be_bytes.
Qed.

Lemma EncodeVector_some (v : bytes) :
  len v <= 65535 ->
  Encoding.EncodeVector v = Some (Encoding.be_bytes 2 (len v) ++ v).
Proof.
  intros Hv. unfold Encoding.EncodeVector, Encoding.EncodeVectorLen, Encoding.I2OSP.
  pose proof (len_nonneg v).
  replace (0 <=? len v) with true by (symmetry; apply Z.leb_le; lia).
  replace (len v <? 256 ^ Z.of_nat 2) with true
    by (symmetry; apply Z.ltb_lt; change (256 ^ Z.of_nat 2) with 65536; lia).
  reflexivity.
Qed.

Lemma EncodeVector_none (v : bytes) :
  65535 < len v -> Encoding.EncodeVector v = None.
Proof.
  intros Hv. unfold Encoding.EncodeVector, Encoding.EncodeVectorLen, Encoding.I2OSP.
  replace (len v <? 256 ^ Z.of_nat 2) with false
    by (symmetry; apply Z.ltb_ge; change (256 ^ Z.of_nat 2) with 65536; lia).
  rewrite andb_false_r. reflexivity.
Qed.

Lemma firstn_length_app {A} (a b : list A) : firstn (length a) (a ++ b) = a.
Proof. induction a as [|x a IH]; simpl; [reflexivity | now rewrite IH]. Qed.

Lemma skipn_length_app {A} (a b : list A) : skipn (length a) (a ++ b) = b.
Proof. induction a as [|x a IH]; simpl; [reflexivity | exact IH]. Qed.

(** Decoding an encoded vector followed by arbitrary bytes gives the vector
    back, and the offset of the first byte after it. *)
Lemma DecodeVector_EncodeVector (v enc rest : bytes) :
  Encoding.EncodeVector v = Some enc ->
  Encoding.DecodeVector (enc ++ rest) = Ok (v, 2 + len v).
Proof.
  intros E.
  destruct (Z.le_gt_cases (len v) 65535) as [Hv|Hv].
  2:{ rewrite EncodeVector_none in E by lia. discriminate. }
  rewrite EncodeVector_some in E by exact Hv.
  assert (Henc : enc = Encoding.be_bytes 2 (len v) ++ v) by congruence.
  subst enc; clear E.
  pose proof (len_nonneg v) as Hn.
  unfold Encoding.DecodeVector, Encoding.decodeVectorLen.
  pose proof (length_be_bytes 2 (len v)) as Hh.
  pose proof (OS2IP_be_bytes 2 (len v)) as Hos.
  change (256 ^ Z.of_nat 2) with 65536 in Hos.
  remember (Encoding.be_bytes 2 (len v)) as h eqn:Eh. clear Eh.
  assert (Hl : len ((h ++ v) ++ rest) = 2 + len v + len rest).
  { rewrite !len_app. unfold len at 1. rewrite Hh. lia. }
  pose proof (len_nonneg rest) as Hr.
  replace (len ((h ++ v) ++ rest) <? 2) with false
    by (symmetry; apply Z.ltb_ge; lia).
  assert (Hs : slice_to ((h ++ v) ++ rest) 2 = h).
  { unfold slice_to. rewrite <- app_assoc.
    change (Z.to_nat 2) with 2%nat. rewrite <- Hh.
    apply firstn_length_app. }
  rewrite Hs, Hos by lia.
  replace (len ((h ++ v) ++ rest) <? 2 + len v) with false
    by (symmetry; apply Z.ltb_ge; lia).
  f_equal. f_equal.
  unfold slice_from, slice_to. rewrite <- app_assoc.
  change (Z.to_nat 2) with 2%nat. rewrite <- Hh.
  rewrite skipn_length_app.
  unfold len. rewrite Nat2Z.id. apply firstn_length_app.
Qed.

(** ** Configuration wire format *)

Section ConfigurationProperties.
Context `{Primitives}.

Lemma hash_id_roundtrip (k : N) :
  (k < 25)%N -> Byte.to_N (byte_of_Z (Z.of_N k)) = k.
Proof.
  intros Hk. apply N2Z.inj.
  change (Z.of_N (Byte.to_N (byte_of_Z (Z.of_N k))))
    with (unsigned (byte_of_Z (Z.of_N k))).
  rewrite unsigned_byte_of_Z. apply Z.mod_small. lia.
Qed.

(** A configuration that passes [verify] has hash identifiers below 25. *)
Lemma verify_hash_bounds (c : Opaque.Configuration) :
  Opaque.verify c = None ->
  (Opaque.KDF c < 25 /\ Opaque.MAC c < 25 /\ Opaque.Hash c < 25)%N.
Proof.
  unfold Opaque.verify. intros V.
  destruct (negb (Opaque.Available (Opaque.OPRF c)) || _); [discriminate|].
  destruct (negb (Opaque.Available (Opaque.AKE c)) || _); [discriminate|].
  destruct (25 <=? Opaque.KDF c)%N eqn:E1; [discriminate|].
  destruct (negb (HashAvailable (Opaque.KDF c))); [discriminate|].
  destruct (25 <=? Opaque.MAC c)%N eqn:E2; [discriminate|].
  destruct (negb (HashAvailable (Opaque.MAC c))); [discriminate|].
  destruct (25 <=? Opaque.Hash c)%N eqn:E3; [discriminate|].
  apply N.leb_gt in E1, E2, E3. auto.
Qed.

(** The identifier bytes [Serialize] writes. *)
Local Abbreviation ids_of c :=
  [ Opaque.OPRF c; Opaque.AKE c; Opaque.KSF c;
    byte_of_Z (Z.of_N (Opaque.KDF c));
    byte_of_Z (Z.of_N (Opaque.MAC c));
    byte_of_Z (Z.of_N (Opaque.Hash c)) ].

Lemma Serialize_inv (c : Opaque.Configuration) (enc : bytes) :
  Opaque.Serialize c = Some enc ->
  exists v, Encoding.EncodeVector (Opaque.Context c) = Some v
            /\ enc = ids_of c ++ v.
Proof.
  unfold Opaque.Serialize, bind.
  destruct (Encoding.EncodeVector (Opaque.Context c)) as [v|]; [|discriminate].
  intros E. exists v. split; [reflexivity|].
  unfold Encoding.Concatenate in E. simpl in E. rewrite app_nil_r in E.
  injection E as <-. reflexivity.
Qed.

Lemma EncodeVector_len (v enc : bytes) :
  Encoding.EncodeVector v = Some enc -> len enc = 2 + len v.
Proof.
  intros E.
  destruct (Z.le_gt_cases (len v) 65535) as [Hv|Hv].
  - rewrite EncodeVector_some in E by exact Hv.
    assert (Henc : enc = Encoding.be_bytes 2 (len v) ++ v) by congruence.
    rewrite Henc, len_app. unfold len at 1. rewrite length_be_bytes. lia.
  - rewrite EncodeVector_none in E by lia. discriminate.
Qed.

(** Deserializing a serialized configuration followed by any bytes gives
    the configuration back: the bytes after the context vector are not
    looked at. *)
Lemma Deserialize_Serialize_app (c : Opaque.Configuration) (enc rest : bytes) :
  Opaque.verify c = None ->
  Opaque.Serialize c = Some enc ->
  Opaque.DeserializeConfiguration (enc ++ rest) = Ok c.
Proof.
  intros V S.
  destruct (Serialize_inv c enc S) as (v & Ev & ->).
  pose proof (EncodeVector_len _ _ Ev) as Lv.
  pose proof (len_nonneg (Opaque.Context c)) as Lc.
  pose proof (len_nonneg rest) as Lr.
  unfold Opaque.DeserializeConfiguration.
  assert (Hlen : len ((ids_of c ++ v) ++ rest) = 6 + len v + len rest).
  { rewrite !len_app. reflexivity. }
  replace (len ((ids_of c ++ v) ++ rest) <? Opaque.confIDsLength + 2) with false
    by (symmetry; apply Z.ltb_ge; unfold Opaque.confIDsLength; lia).
  assert (Hs : slice_from ((ids_of c ++ v) ++ rest) Opaque.confIDsLength
               = v ++ rest).
  { rewrite <- app_assoc. reflexivity. }
  rewrite Hs, (DecodeVector_EncodeVector _ _ rest Ev).
  destruct (verify_hash_bounds c V) as (B1 & B2 & B3).
  assert (Hc : {| Opaque.Context := Opaque.Context c;
                  Opaque.KDF := Byte.to_N (Opaque.at_ ((ids_of c ++ v) ++ rest) 3);
                  Opaque.MAC := Byte.to_N (Opaque.at_ ((ids_of c ++ v) ++ rest) 4);
                  Opaque.Hash := Byte.to_N (Opaque.at_ ((ids_of c ++ v) ++ rest) 5);
                  Opaque.KSF := Opaque.at_ ((ids_of c ++ v) ++ rest) 2;
                  Opaque.OPRF := Opaque.at_ ((ids_of c ++ v) ++ rest) 0;
                  Opaque.AKE := Opaque.at_ ((ids_of c ++ v) ++ rest) 1 |} = c).
  { rewrite <- app_assoc. unfold Opaque.at_. cbn [nth app].
    rewrite !hash_id_roundtrip by assumption. destruct c; reflexivity. }
  rewrite Hc, V. reflexivity.
Qed.

Lemma Deserialize_short (encoded : bytes) :
  len encoded < 8 ->
  Opaque.DeserializeConfiguration encoded = Err ErrConfigurationInvalidLength.
Proof.
  intros Hl. unfold Opaque.DeserializeConfiguration.
  replace (len encoded <? Opaque.confIDsLength + 2) with true
    by (symmetry; apply Z.ltb_lt; unfold Opaque.confIDsLength; lia).
  reflexivity.
Qed.

(** C8. For every configuration that passes [verify] and whose context fits
    the 2-byte length prefix, [Serialize] returns the six identifier bytes
    OPRF, AKE, KSF, KDF, MAC, Hash followed by [EncodeVector(context)];
    [DeserializeConfiguration] of that encoding returns the configuration
    itself; and [DeserializeConfiguration] fails on every input shorter
    than 8 bytes. *)
Theorem Serialize_Deserialize_roundtrip (c : Opaque.Configuration) :
  Opaque.verify c = None ->
  len (Opaque.Context c) <= 65535 ->
  exists v,
    Encoding.EncodeVector (Opaque.Context c) = Some v
    /\ Opaque.Serialize c
       = Some ([ Opaque.OPRF c; Opaque.AKE c; Opaque.KSF c;
                 byte_of_Z (Z.of_N (Opaque.KDF c));
                 byte_of_Z (Z.of_N (Opaque.MAC c));
                 byte_of_Z (Z.of_N (Opaque.Hash c)) ] ++ v)
    /\ Opaque.DeserializeConfiguration
         ([ Opaque.OPRF c; Opaque.AKE c; Opaque.KSF c;
            byte_of_Z (Z.of_N (Opaque.KDF c));
            byte_of_Z (Z.of_N (Opaque.MAC c));
            byte_of_Z (Z.of_N (Opaque.Hash c)) ] ++ v) = Ok c
    /\ (forall encoded, len encoded < 8 ->
          exists err, Opaque.DeserializeConfiguration encoded = Err err).
Proof.
  intros V Hc.
  pose proof (EncodeVector_some _ Hc) as Ev.
  exists (Encoding.be_bytes 2 (len (Opaque.Context c)) ++ Opaque.Context c).
  assert (S : Opaque.Serialize c
              = Some (ids_of c ++ Encoding.be_bytes 2 (len (Opaque.Context c))
                        ++ Opaque.Context c)).
  { unfold Opaque.Serialize. rewrite Ev. unfold bind, Encoding.Concatenate.
    simpl concat. rewrite app_nil_r. reflexivity. }
  split; [exact Ev|]. split; [exact S|]. split.
  - pose proof (Deserialize_Serialize_app c _ [] V S) as D.
    rewrite app_nil_r in D. exact D.
  - intros encoded Hl. eexists. apply Deserialize_short. exact Hl.
Qed.

(** C9, as amended. [DeserializeConfiguration] does not reject over-long
    inputs: on a well-formed serialized configuration followed by any
    trailing bytes it returns the configuration of the prefix, the trailing
    bytes being ignored. *)
Theorem DeserializeConfiguration_ignores_trailing
    (c : Opaque.Configuration) (enc rest : bytes) :
  Opaque.verify c = None ->
  Opaque.Serialize c = Some enc ->
  Opaque.DeserializeConfiguration (enc ++ rest) = Ok c.
Proof. apply Deserialize_Serialize_app. Qed.

End ConfigurationProperties.

(** C8, on the default configuration: its encoding is
    [01 01 01 07 07 07 00 00]. *)
Lemma Serialize_Deserialize_roundtrip_witness :
  exists v,
    Encoding.EncodeVector [] = Some v
    /\ @Opaque.Serialize Opaque.DefaultConfiguration
       = Some ([x01; x01; x01; x07; x07; x07] ++ v)
    /\ @Opaque.DeserializeConfiguration Toy.primitives
         ([x01; x01; x01; x07; x07; x07] ++ v) = Ok Opaque.DefaultConfiguration
    /\ (forall encoded, len encoded < 8 ->
          exists err,
            @Opaque.DeserializeConfiguration Toy.primitives encoded = Err err).
Proof.
  apply (@Serialize_Deserialize_roundtrip Toy.primitives
           Opaque.DefaultConfiguration).
  - reflexivity.
  - vm_compute. discriminate.
Defined.

(** C9, counterexample: the encoding of the default configuration followed
    by the extra byte [ff] is accepted. *)
Lemma DeserializeConfiguration_accepts_trailing_byte :
  @Opaque.verify Toy.primitives Opaque.DefaultConfiguration = None
  /\ Opaque.Serialize Opaque.DefaultConfiguration
     = Some [x01; x01; x01; x07; x07; x07; x00; x00]
  /\ @Opaque.DeserializeConfiguration Toy.primitives
       ([x01; x01; x01; x07; x07; x07; x00; x00] ++ [xff])
     = Ok Opaque.DefaultConfiguration.
Proof. repeat split; vm_compute; reflexivity. Qed.

(** C9 as amended, on the default configuration followed by three more
    bytes. *)
Lemma DeserializeConfiguration_ignores_trailing_witness :
  @Opaque.DeserializeConfiguration Toy.primitives
    ([x01; x01; x01; x07; x07; x07; x00; x00] ++ [xff; x00; x2a])
  = Ok Opaque.DefaultConfiguration.
Proof.
  apply (@DeserializeConfiguration_ignores_trailing Toy.primitives
           Opaque.DefaultConfiguration).
  - reflexivity.
  - reflexivity.
Defined.

(** ** Key derivation *)

Section KeyDerivationProperties.
Context `{Primitives}.

(** C3. The client's long-term key pair is
    [client_sk = HashToScalar(KDF.Expand(randomizedPwd, envelope_nonce ‖
    "PrivateKey", SeedLen), "OPAQUE-DeriveAuthKeyPair")] and
    [client_pk = Base · client_sk]; the public key that goes into the
    record ([getPubkey]) and the pair recovered at login ([recoverKeys])
    are the same values. *)
Theorem deriveAuthKeyPair_derivation
    (conf : Internal.Configuration) (randomizedPwd envelope_nonce : bytes) :
  let seed := HKDFExpand (Internal.KDF conf) randomizedPwd
                (envelope_nonce ++ bytes_of_string "PrivateKey") SeedLength in
  let client_sk := HashToScalar (Internal.Group conf) seed
                     (bytes_of_string "OPAQUE-DeriveAuthKeyPair") in
  let client_pk := Multiply (Base (Internal.Group conf)) client_sk in
  KeyRecovery.deriveAuthKeyPair conf randomizedPwd envelope_nonce
    = (client_sk, client_pk)
  /\ KeyRecovery.getPubkey conf randomizedPwd envelope_nonce = client_pk
  /\ KeyRecovery.recoverKeys conf randomizedPwd envelope_nonce
     = (client_sk, client_pk).
Proof.
  cbv zeta.
  unfold KeyRecovery.getPubkey, KeyRecovery.recoverKeys,
    KeyRecovery.deriveAuthKeyPair, OPRF.DeriveKey, Encoding.SuffixString,
    Tag.ExpandPrivateKey, Tag.DerivePrivateKey.
  repeat split.
Qed.

(** The per-user OPRF key of a server with configuration [conf]. *)
Local Abbreviation oprf_key conf oprf_seed credential_identifier :=
  (OPRF.DeriveKey (Internal.OPRF conf)
     (HKDFExpand (Internal.KDF conf) oprf_seed
        (credential_identifier ++ bytes_of_string "OprfKey") SeedLength)
     (bytes_of_string "OPAQUE-DeriveKeyPair")).

Lemma oprfResponse_key (s : Opaque.Server) (element : Element)
    (oprf_seed credential_identifier : bytes) :
  Opaque.oprfResponse s element oprf_seed credential_identifier
  = OPRF.Evaluate (oprf_key (Opaque.conf s) oprf_seed credential_identifier)
      element.
Proof. reflexivity. Qed.

Lemma credentialResponse_evaluated (s : Opaque.Server)
    (req : Message.CredentialRequest) (spk : bytes)
    (record : Message.RegistrationRecord)
    (credential_identifier oprf_seed masking_nonce : bytes) (r : RNG) :
  Message.crEvaluatedMessage
    (fst (Opaque.credentialResponse s req spk record credential_identifier
            oprf_seed masking_nonce r))
  = Opaque.oprfResponse s (Message.BlindedMessage req) oprf_seed
      credential_identifier.
Proof.
  unfold Opaque.credentialResponse.
  destruct (Masking.Mask _ _ _ _ _ _) as [[n m] r']. reflexivity.
Qed.

(** The KE2 of a successful [Response] carries the credential response it
    was given. *)
Lemma Response_credentialResponse (a : AKE.Server)
    (conf : Internal.Configuration) (ids : AKE.Identities) (ssk : Scalar)
    (cpk : Element) (ke1 : Message.KE1) (resp : Message.CredentialResponse)
    (op : AKE.Options) (r : RNG) ke2 a' conf' r' :
  AKE.Response a conf ids ssk cpk ke1 resp op r = Some (ke2, a', conf', r') ->
  Message.ke2CredentialResponse ke2 = resp.
Proof.
  unfold AKE.Response.
  destruct (AKE.setOptions _ _ _ _) as [[v epks] r1].
  destruct (AKE.ephemeralSecretKey v) as [esk|]; [|discriminate].
  cbn [bind].
  destruct (AKE.core3DH _ _ _ _ _ _) as [[[[c1 ss] ms] mc]|]; [|discriminate].
  cbn [bind]. intros E. injection E as <- _ _ _. reflexivity.
Qed.

(** C2. The server's OPRF response evaluates the blinded element under the
    key [DeriveKey(KDF.Expand(oprf_seed, credential_identifier ‖ "OprfKey",
    SeedLen), "OPAQUE-DeriveKeyPair")], in [RegistrationResponse], in the
    login credential response, and in the KE2 that [GenerateKE2] returns
    (with the seed of the key material and the identifier of the record).
    The key is a function of the seed and the identifier alone, for a given
    server configuration. *)
Theorem oprf_response_key (s : Opaque.Server)
    (oprf_seed credential_identifier : bytes) :
  let ku := oprf_key (Opaque.conf s) oprf_seed credential_identifier in
  (forall req server_public_key,
     Message.EvaluatedMessage
       (Opaque.RegistrationResponse s req server_public_key
          credential_identifier oprf_seed)
     = OPRF.Evaluate ku (Message.reqBlindedMessage req))
  /\ (forall req spk record masking_nonce r,
        Message.crEvaluatedMessage
          (fst (Opaque.credentialResponse s req spk record
                  credential_identifier oprf_seed masking_nonce r))
        = OPRF.Evaluate ku (Message.BlindedMessage req))
  /\ (forall km ke1 record options r ke2 s' r',
        Opaque.keyMaterial s = Some km ->
        Opaque.oprfSeed km = oprf_seed ->
        Opaque.CredentialIdentifier record = credential_identifier ->
        Opaque.GenerateKE2 s ke1 record options r = Some (Ok ke2, s', r') ->
        Message.crEvaluatedMessage (Message.ke2CredentialResponse ke2)
        = OPRF.Evaluate ku
            (Message.BlindedMessage (Message.ke1CredentialRequest ke1))).
Proof.
  cbv zeta. split; [|split].
  - intros req spk. reflexivity.
  - intros req spk record mn r.
    rewrite credentialResponse_evaluated. reflexivity.
  - intros km ke1 record options r ke2 s' r' Hkm Hseed Hcid.
    unfold Opaque.GenerateKE2. rewrite Hkm.
    destruct (negb _); [discriminate|].
    destruct (Opaque.getGenerateKE2Options options) as [op mn].
    pose proof (credentialResponse_evaluated s
                  (Message.ke1CredentialRequest ke1) (Opaque.serverPublicKey km)
                  (Opaque.RegistrationRecord record)
                  (Opaque.CredentialIdentifier record) (Opaque.oprfSeed km)
                  mn r) as Hz.
    destruct (Opaque.credentialResponse _ _ _ _ _ _ _ _) as [resp r1].
    cbn [fst] in Hz.
    destruct (AKE.Response _ _ _ _ _ _ _ _ _)
      as [[[[k a'] c'] r2]|] eqn:R; [|discriminate].
    cbn [bind]. intros E. injection E as <- _ _.
    rewrite (Response_credentialResponse _ _ _ _ _ _ _ _ _ _ _ _ _ R).
    rewrite Hz, Hseed, Hcid. reflexivity.
Qed.

End KeyDerivationProperties.

(** A call that ran to completion and returned a value with a nil error. *)
Lemma returns_ok_inv {A B C : Type} (x : option (result A * B * C)) :
  match x with Some (Ok _, _, _) => true | _ => false end = true ->
  exists a b c, x = Some (Ok a, b, c).
Proof.
  destruct x as [[[[a|e] b] c]|]; intros E; try discriminate E.
  exists a, b, c. reflexivity.
Defined.

(** C2, on the small instance: the KE2 that the keyed server returns for
    the record of "alice@example" carries the blinded element 4 evaluated
    under the key derived from the seed and that identifier. *)
Lemma oprf_response_key_witness :
  exists ke2 s' r',
    @Opaque.GenerateKE2 Toy.primitives Toy.server1 Toy.ke1_0 Toy.record0 []
      Toy.rng0 = Some (Ok ke2, s', r')
    /\ @Message.crEvaluatedMessage Toy.primitives
         (Message.ke2CredentialResponse ke2)
       = @OPRF.Evaluate Toy.primitives
           (@OPRF.DeriveKey Toy.primitives
              (Internal.OPRF (Opaque.conf Toy.server1))
              (@HKDFExpand Toy.primitives
                 (Internal.KDF (Opaque.conf Toy.server1)) Toy.seed0
                 (bytes_of_string "alice@example" ++ bytes_of_string "OprfKey")
                 (@SeedLength Toy.primitives))
              (bytes_of_string "OPAQUE-DeriveKeyPair"))
           (Message.BlindedMessage (Message.ke1CredentialRequest Toy.ke1_0)).
Proof.
  assert (G : exists ke2 s' r',
             @Opaque.GenerateKE2 Toy.primitives Toy.server1 Toy.ke1_0
               Toy.record0 [] Toy.rng0 = Some (Ok ke2, s', r')).
  { apply returns_ok_inv. vm_compute. reflexivity. }
  destruct G as (ke2 & s' & r' & G).
  exists ke2, s', r'. split; [exact G|].
  exact (proj2 (proj2 (@oprf_response_key Toy.primitives Toy.server1
                         Toy.seed0 (bytes_of_string "alice@example")))
           Toy.keyMaterial0 Toy.ke1_0 Toy.record0 [] Toy.rng0 ke2 s' r'
           eq_refl eq_refl eq_refl G).
Defined.

(** ** The 3DH key schedule *)

Section AkeProperties.
Context `{Primitives}.

Lemma I2OSP_some (n : Z) (L : nat) :
  0 <= n < 256 ^ Z.of_nat L ->
  Encoding.I2OSP n L = Some (Encoding.be_bytes L n).
Proof.
  intros [H0 H1]. unfold Encoding.I2OSP.
  apply Z.leb_le in H0. apply Z.ltb_lt in H1. rewrite H0, H1. reflexivity.
Qed.

Lemma EncodeVectorLen1_some (v : bytes) :
  len v <= 255 ->
  Encoding.EncodeVectorLen v 1 = Some (Encoding.be_bytes 1 (len v) ++ v).
Proof.
  intros Hv. unfold Encoding.EncodeVectorLen.
  rewrite I2OSP_some; [reflexivity|].
  pose proof (len_nonneg v). change (256 ^ Z.of_nat 1) with 256. lia.
Qed.

(** The label of the key schedule, when lengths are in range:
    [I2OSP(L,2) ‖ EncVec1("OPAQUE-" ‖ label) ‖ EncVec1(context)]. *)
Lemma buildLabel_some (length : Z) (label context : bytes) :
  0 <= length <= 65535 -> len label <= 248 -> len context <= 255 ->
  AKE.buildLabel length label context
  = Some (Encoding.be_bytes 2 length
          ++ (Encoding.be_bytes 1 (7 + len label)
              ++ bytes_of_string "OPAQUE-" ++ label)
          ++ Encoding.be_bytes 1 (len context) ++ context).
Proof.
  intros Hl Hlab Hc. unfold AKE.buildLabel.
  rewrite I2OSP_some by (change (256 ^ Z.of_nat 2) with 65536; lia).
  cbn [bind].
  assert (Hp : len (bytes_of_string Tag.LabelPrefix ++ label) = 7 + len label).
  { rewrite len_app. reflexivity. }
  rewrite EncodeVectorLen1_some by (rewrite Hp; lia).
  cbn [bind]. rewrite Hp.
  rewrite EncodeVectorLen1_some by exact Hc.
  cbn [bind]. unfold Encoding.Concat3, Tag.LabelPrefix.
  rewrite <- !app_assoc. reflexivity.
Qed.

Lemma expandLabel_some (h : N) (secret label context : bytes) :
  0 <= HashSize h <= 65535 -> len label <= 248 -> len context <= 255 ->
  exists out, AKE.expandLabel h secret label context = Some out.
Proof.
  intros Hh Hl Hc. unfold AKE.expandLabel.
  rewrite (buildLabel_some _ _ _ Hh Hl Hc). cbn [bind]. eexists. reflexivity.
Qed.

(** What [initTranscript] writes, when the vectors are in range. *)
Lemma initTranscript_some (p : Internal.Configuration) (idc ids : bytes)
    (ke1 : Message.KE1) (ke2 : Message.KE2) :
  len idc <= 65535 -> len ids <= 65535 -> len (Internal.Context p) <= 65535 ->
  exists sidc sids ctx,
    Encoding.EncodeVector idc = Some sidc
    /\ Encoding.EncodeVector ids = Some sids
    /\ Encoding.EncodeVector (Internal.Context p) = Some ctx
    /\ AKE.initTranscript p idc ids ke1 ke2
       = Some (Internal.writeHash p
                 (bytes_of_string "OPAQUEv1-" ++ ctx
                  ++ sidc ++ Message.KE1_Serialize ke1
                  ++ sids
                  ++ Message.CredentialResponse_Serialize
                       (Message.ke2CredentialResponse ke2)
                  ++ Message.ServerNonce ke2
                  ++ SerializePoint (Message.ServerPublicKeyshare ke2))).
Proof.
  intros H1 H2 H3. unfold AKE.initTranscript.
  rewrite (EncodeVector_some _ H1), (EncodeVector_some _ H2),
    (EncodeVector_some _ H3).
  do 3 eexists. repeat split. cbn [bind]. unfold Encoding.Concatenate.
  cbn [concat]. rewrite app_nil_r. reflexivity.
Qed.

(** C4. In the 3DH core, with [preamble = H(transcript)] the hash of
    everything written to the transcript hasher: the handshake secret and
    the session key are derived from [prk = Extract(nil, ikm)] with the
    preamble as context; [Km2] and [Km3] are Expand-Label of the handshake
    secret under "ServerMAC" and "ClientMAC"; [server_mac = MAC(Km2,
    preamble)]; the server MAC is then written to the hasher, and
    [client_mac = MAC(Km3, H(transcript ‖ server_mac))]. The call returns
    these values whenever the identities, the context and the hash sizes
    fit their length prefixes. *)
Theorem core3DH_mac_chain (p : Internal.Configuration) (ikm idu ids : bytes)
    (ke1 : Message.KE1) (ke2 : Message.KE2) :
  len idu <= 65535 -> len ids <= 65535 -> len (Internal.Context p) <= 65535 ->
  0 <= HashSize (Internal.KDF p) <= 65535 ->
  (forall data,
     len (HashSum (Internal.hashID (Internal.Hash p)) data) <= 255) ->
  exists p1 handshake_secret session_key Km2 Km3,
    AKE.initTranscript p idu ids ke1 ke2 = Some p1
    /\ let kdf := Internal.KDF p in
       let h := Internal.hashID (Internal.Hash p) in
       let transcript := Internal.written (Internal.Hash p1) in
       let preamble := HashSum h transcript in
       let prk := HKDFExtract kdf [] ikm in
       AKE.deriveSecret kdf prk (bytes_of_string "HandshakeSecret") preamble
         = Some handshake_secret
       /\ AKE.deriveSecret kdf prk (bytes_of_string "SessionKey") preamble
          = Some session_key
       /\ AKE.expandLabel kdf handshake_secret (bytes_of_string "ServerMAC") []
          = Some Km2
       /\ AKE.expandLabel kdf handshake_secret (bytes_of_string "ClientMAC") []
          = Some Km3
       /\ let server_mac := HMAC (Internal.MAC p) Km2 preamble in
          let client_mac :=
            HMAC (Internal.MAC p) Km3 (HashSum h (transcript ++ server_mac)) in
          AKE.core3DH p ikm idu ids ke1 ke2
          = Some (Internal.writeHash p1 server_mac,
                  session_key, server_mac, client_mac)
          /\ Internal.written
               (Internal.Hash (Internal.writeHash p1 server_mac))
             = transcript ++ server_mac.
Proof.
  intros Hu Hs Hc Hk Hh.
  destruct (initTranscript_some p idu ids ke1 ke2 Hu Hs Hc)
    as (sidc & sids & ctx & _ & _ & _ & Hinit).
  set (p1 := Internal.writeHash p _) in Hinit.
  set (preamble := HashSum (Internal.hashID (Internal.Hash p))
                     (Internal.written (Internal.Hash p1))).
  set (prk := HKDFExtract (Internal.KDF p) [] ikm).
  assert (Hlab : forall l, In l ["HandshakeSecret"; "SessionKey"; "ServerMAC";
                                  "ClientMAC"]%string ->
                           len (bytes_of_string l) <= 248).
  { intros l Hin. simpl in Hin.
    destruct Hin as [<-|[<-|[<-|[<-|[]]]]]; vm_compute; discriminate. }
  assert (Hnil : len (@nil byte) <= 255) by (vm_compute; discriminate).
  destruct (expandLabel_some (Internal.KDF p) prk
              (bytes_of_string "HandshakeSecret") preamble Hk
              (Hlab _ (or_introl eq_refl)) (Hh _)) as [hs Ehs].
  destruct (expandLabel_some (Internal.KDF p) prk
              (bytes_of_string "SessionKey") preamble Hk
              (Hlab _ (or_intror (or_introl eq_refl))) (Hh _)) as [sk Esk].
  destruct (expandLabel_some (Internal.KDF p) hs
              (bytes_of_string "ServerMAC") [] Hk
              (Hlab _ (or_intror (or_intror (or_introl eq_refl)))) Hnil)
    as [km2 E2].
  destruct (expandLabel_some (Internal.KDF p) hs
              (bytes_of_string "ClientMAC") [] Hk
              (Hlab _ (or_intror (or_intror (or_intror (or_introl eq_refl)))))
              Hnil) as [km3 E3].
  exists p1, hs, sk, km2, km3.
  split; [exact Hinit|]. cbv zeta. fold preamble prk.
  unfold AKE.deriveSecret.
  split; [exact Ehs|]. split; [exact Esk|].
  split; [exact E2|]. split; [exact E3|].
  split; [|reflexivity].
  unfold AKE.core3DH. rewrite Hinit. cbn [bind].
  unfold AKE.deriveKeys, AKE.deriveSecret, Internal.Sum.
  change (Internal.KDF p1) with (Internal.KDF p).
  change (Internal.hashID (Internal.Hash p1))
    with (Internal.hashID (Internal.Hash p)).
  fold preamble prk.
  unfold Tag.Handshake, Tag.SessionKey, Tag.MacServer, Tag.MacClient.
  rewrite Ehs. cbn [bind]. rewrite Esk. cbn [bind].
  rewrite E2. cbn [bind]. rewrite E3. cbn [bind].
  reflexivity.
Qed.

(** C1, as amended. In the server's 3DH response the IKM passed to the key
    schedule is the concatenation, in this order, of the serialized
    elements [xpk^ysk], [xpk^ssk] and [cpk^ysk], where [xpk] is the client
    ephemeral public key of KE1, [(ysk, ypk)] the server ephemeral pair,
    [cpk] the client long-term public key and [ssk] the server long-term
    secret key. *)
Theorem Response_ikm_order (s : AKE.Server) (conf : Internal.Configuration)
    (identities : AKE.Identities) (ssk : Scalar) (cpk : Element)
    (ke1 : Message.KE1) (response : Message.CredentialResponse)
    (options : AKE.Options) (r : RNG)
    (v : AKE.values) (ypk : Element) (r' : RNG) (ysk : Scalar) :
  AKE.setOptions (Internal.Group conf) options (AKE.vals s) r = (v, ypk, r') ->
  AKE.ephemeralSecretKey v = Some ysk ->
  let xpk := Message.ClientPublicKeyshare ke1 in
  let ikm := SerializePoint (Multiply xpk ysk)
             ++ SerializePoint (Multiply xpk ssk)
             ++ SerializePoint (Multiply cpk ysk) in
  AKE.responseIKM ke1 ysk ssk cpk = ikm
  /\ ypk = Multiply (Base (Internal.Group conf)) ysk
  /\ AKE.Response s conf identities ssk cpk ke1 response options r
     = ('(conf', sessionSecret, serverMac, clientMac) <-
          AKE.core3DH conf ikm (AKE.ClientIdentity identities)
            (AKE.ServerIdentity identities) ke1
            {| Message.ke2CredentialResponse := response;
               Message.ServerNonce := AKE.nonce v;
               Message.ServerPublicKeyshare := ypk;
               Message.ServerMac := [] |} ;;
        Some ({| Message.ke2CredentialResponse := response;
                 Message.ServerNonce := AKE.nonce v;
                 Message.ServerPublicKeyshare := ypk;
                 Message.ServerMac := serverMac |},
              {| AKE.vals := v; AKE.clientMac := clientMac;
                 AKE.sessionSecret := sessionSecret |},
              conf', r')).
Proof.
  intros Hset Hesk. cbv zeta. split; [reflexivity|]. split.
  - revert Hset Hesk. unfold AKE.setOptions.
    destruct (len (AKE.KeyShareSeed options) =? 0);
      [destruct (ScalarRandom _ r) as [e r1] | ];
      (match goal with
       | |- context [if ?b then _ else _] => destruct b
       end;
       [ match goal with
         | |- context [RandomBytes ?n ?x] =>
             destruct (RandomBytes n x) as [n0 r2]
         end | ];
       intros E Hv; injection E as <- <- _; cbn in Hv;
       injection Hv as <-; reflexivity).
  - unfold AKE.Response. rewrite Hset, Hesk. cbn [bind]. reflexivity.
Qed.

End AkeProperties.

Lemma Toy_digest_len (n : Z) (data : bytes) :
  0 <= n -> len (Toy.digest n data) = n.
Proof.
  intros Hn. unfold Toy.digest, len. rewrite length_map, length_seq. lia.
Qed.

(** C4, on the small instance, with a fresh hasher. *)
Lemma core3DH_mac_chain_witness :
  exists p' session_key Km2 Km3 transcript,
    @AKE.core3DH Toy.primitives Toy.conf0 [x2a] [x01] [x02] Toy.ke1_0 Toy.ke2_0
    = Some (p', session_key,
            @HMAC Toy.primitives 7%N Km2 (@HashSum Toy.primitives 7%N transcript),
            @HMAC Toy.primitives 7%N Km3
              (@HashSum Toy.primitives 7%N
                 (transcript
                  ++ @HMAC Toy.primitives 7%N Km2
                       (@HashSum Toy.primitives 7%N transcript)))).
Proof.
  destruct (@core3DH_mac_chain Toy.primitives Toy.conf0 [x2a] [x01] [x02]
              Toy.ke1_0 Toy.ke2_0)
    as (p1 & hs & sk & km2 & km3 & _ & _ & _ & _ & _ & Hcore & _).
  - vm_compute. discriminate.
  - vm_compute. discriminate.
  - vm_compute. discriminate.
  - vm_compute. split; discriminate.
  - intros data. change (len (Toy.digest 64 data) <= 255).
    rewrite Toy_digest_len; lia.
  - exists (Internal.writeHash p1
              (@HMAC Toy.primitives 7%N km2
                 (@HashSum Toy.primitives 7%N
                    (Internal.written (Internal.Hash p1))))),
      sk, km2, km3, (Internal.written (Internal.Hash p1)).
    exact Hcore.
Defined.

(** C1, counterexample: with client key share 6, server ephemeral secret 3,
    server long-term secret 2 and client long-term public key 9 in the
    group of integers modulo 251, [Response] passes [xpk^ysk ‖ xpk^ssk ‖
    cpk^ysk = 12 0c 1b] to the key schedule, not [cpk^ysk ‖ xpk^ssk ‖
    xpk^ysk = 1b 0c 12]. *)
Lemma Response_ikm_not_cpk_first :
  let xpk := @Message.ClientPublicKeyshare Toy.primitives Toy.ke1_0 in
  let ysk := 3 in
  let ssk := 2 in
  let cpk := 9 in
  @AKE.responseIKM Toy.primitives Toy.ke1_0 ysk ssk cpk = [x12; x0c; x1b]
  /\ @SerializePoint Toy.primitives (@Multiply Toy.primitives cpk ysk)
     ++ @SerializePoint Toy.primitives (@Multiply Toy.primitives xpk ssk)
     ++ @SerializePoint Toy.primitives (@Multiply Toy.primitives xpk ysk)
     = [x1b; x0c; x12]
  /\ @AKE.responseIKM Toy.primitives Toy.ke1_0 ysk ssk cpk
     <> @SerializePoint Toy.primitives (@Multiply Toy.primitives cpk ysk)
        ++ @SerializePoint Toy.primitives (@Multiply Toy.primitives xpk ssk)
        ++ @SerializePoint Toy.primitives (@Multiply Toy.primitives xpk ysk).
Proof.
  cbv zeta. split; [vm_compute; reflexivity|].
  split; [vm_compute; reflexivity|].
  vm_compute. discriminate.
Qed.

(** C1 as amended, on a deterministic run: key-share seed [01] gives the
    ephemeral secret 220. *)
Lemma Response_ikm_order_witness :
  @AKE.responseIKM Toy.primitives Toy.ke1_0 220 2 9
  = @SerializePoint Toy.primitives (@Multiply Toy.primitives 6 220)
    ++ @SerializePoint Toy.primitives (@Multiply Toy.primitives 6 2)
    ++ @SerializePoint Toy.primitives (@Multiply Toy.primitives 9 220).
Proof.
  refine (proj1 (@Response_ikm_order Toy.primitives
                   (@AKE.NewServer Toy.primitives) Toy.conf0
                   {| AKE.ClientIdentity := [x01]; AKE.ServerIdentity := [x02] |}
                   2 9 Toy.ke1_0 (Message.ke2CredentialResponse Toy.ke2_0)
                   {| AKE.KeyShareSeed := [x01]; AKE.Nonce := [x05];
                      AKE.NonceLength := 0 |}
                   Toy.rng0
                   (@AKE.Build_values Toy.primitives (Some 220) [x05])
                   220 Toy.rng0 220 _ _)).
  - reflexivity.
  - reflexivity.
Defined.

(** ** The server object *)

Section ServerProperties.
Context `{Primitives}.

(** A failing [SetKeyMaterial] leaves the server as it was. *)
Lemma SetKeyMaterial_error_unchanged (s : Opaque.Server)
    (sid ssk spk seed : bytes) (err : error) (s' : Opaque.Server) :
  Opaque.SetKeyMaterial s sid ssk spk seed = (Some err, s') -> s' = s.
Proof.
  unfold Opaque.SetKeyMaterial.
  destruct (ScalarDecode _ ssk) as [sks|e0]; [|intros E; congruence].
  destruct (IsZero sks); [intros E; congruence|].
  destruct (negb (len seed =? _)); [intros E; congruence|].
  destruct (negb (len spk =? _)); [intros E; congruence|].
  destruct (ElementDecode _ spk) as [pk|e1]; intros E; congruence.
Qed.

(** [SetKeyMaterial] never touches the configuration or the AKE state. *)
Lemma SetKeyMaterial_conf_Ake (s : Opaque.Server) (sid ssk spk seed : bytes) :
  Opaque.conf (snd (Opaque.SetKeyMaterial s sid ssk spk seed)) = Opaque.conf s
  /\ Opaque.Ake (snd (Opaque.SetKeyMaterial s sid ssk spk seed)) = Opaque.Ake s.
Proof.
  unfold Opaque.SetKeyMaterial.
  destruct (ScalarDecode _ ssk) as [sks|e0]; [|split; reflexivity].
  destruct (IsZero sks); [split; reflexivity|].
  destruct (negb (len seed =? _)); [split; reflexivity|].
  destruct (negb (len spk =? _)); [split; reflexivity|].
  destruct (ElementDecode _ spk) as [pk|e1]; split; reflexivity.
Qed.

(** C5. [SetKeyMaterial] fails with [ErrZeroSKS] when the server secret key
    decodes to the zero scalar; it fails with [ErrInvalidOPRFSeedLength]
    when the secret key decodes to a non-zero scalar and the length of the
    OPRF seed differs from the output size of the configured hash; with a
    seed of the wrong length the call fails whatever the other arguments
    are; and every failing call leaves the server, hence its key material,
    as it was: key material that was unset remains unset. *)
Theorem SetKeyMaterial_failures (s : Opaque.Server)
    (serverIdentity serverSecretKey serverPublicKey oprfSeed : bytes) :
  let size := HashSize (Internal.hashID (Internal.Hash (Opaque.conf s))) in
  let call := Opaque.SetKeyMaterial s serverIdentity serverSecretKey
                serverPublicKey oprfSeed in
  (forall sks,
     ScalarDecode (Internal.Group (Opaque.conf s)) serverSecretKey = Ok sks ->
     IsZero sks = true ->
     call = (Some ErrZeroSKS, s))
  /\ (forall sks,
        ScalarDecode (Internal.Group (Opaque.conf s)) serverSecretKey = Ok sks ->
        IsZero sks = false ->
        len oprfSeed <> size ->
        call = (Some ErrInvalidOPRFSeedLength, s))
  /\ (len oprfSeed <> size -> exists err, call = (Some err, s))
  /\ (forall err s',
        call = (Some err, s') ->
        s' = s
        /\ (Opaque.keyMaterial s = None -> Opaque.keyMaterial s' = None)).
Proof.
  cbv zeta. split; [|split; [|split]].
  - intros sks D Z0. unfold Opaque.SetKeyMaterial. rewrite D, Z0. reflexivity.
  - intros sks D Z0 L. unfold Opaque.SetKeyMaterial. rewrite D, Z0.
    apply Z.eqb_neq in L. rewrite L. reflexivity.
  - intros L. unfold Opaque.SetKeyMaterial.
    destruct (ScalarDecode _ _) as [sks|e0]; [|eexists; reflexivity].
    destruct (IsZero sks); [eexists; reflexivity|].
    apply Z.eqb_neq in L. rewrite L. eexists. reflexivity.
  - intros err s' E. apply SetKeyMaterial_error_unchanged in E. subst s'.
    split; [reflexivity | intros K; exact K].
Qed.

(** *** Invariants of the reachable servers *)

Lemma writeHash_params (p : Internal.Configuration) (b : bytes) :
  Internal.EnvelopeSize (Internal.writeHash p b) = Internal.EnvelopeSize p
  /\ Internal.MAC (Internal.writeHash p b) = Internal.MAC p
  /\ Internal.KDF (Internal.writeHash p b) = Internal.KDF p.
Proof. repeat split. Qed.

Lemma initTranscript_params (p p1 : Internal.Configuration) (idc ids : bytes)
    (ke1 : Message.KE1) (ke2 : Message.KE2) :
  AKE.initTranscript p idc ids ke1 ke2 = Some p1 ->
  Internal.EnvelopeSize p1 = Internal.EnvelopeSize p
  /\ Internal.MAC p1 = Internal.MAC p
  /\ Internal.KDF p1 = Internal.KDF p.
Proof.
  unfold AKE.initTranscript.
  destruct (Encoding.EncodeVector idc); [|discriminate].
  destruct (Encoding.EncodeVector ids); [|discriminate].
  destruct (Encoding.EncodeVector (Internal.Context p)); [|discriminate].
  cbn [bind]. intros E. injection E as <-. apply writeHash_params.
Qed.

(** The session secret the key schedule returns has the size of the KDF. *)
Lemma expandLabel_len (h : N) (secret label context out : bytes) :
  (forall prk info L, 0 <= L -> len (HKDFExpand h prk info L) = L) ->
  0 <= HashSize h ->
  AKE.expandLabel h secret label context = Some out ->
  len out = HashSize h.
Proof.
  intros Hexp Hs. unfold AKE.expandLabel.
  destruct (AKE.buildLabel _ _ _) as [l|]; [|discriminate].
  cbn [bind]. intros E. injection E as <-. unfold AKE.expand.
  apply Hexp. exact Hs.
Qed.

Lemma core3DH_result (p p' : Internal.Configuration) (ikm idu ids : bytes)
    (ke1 : Message.KE1) (ke2 : Message.KE2) (ss ms mc : bytes) :
  AKE.core3DH p ikm idu ids ke1 ke2 = Some (p', ss, ms, mc) ->
  (Internal.EnvelopeSize p' = Internal.EnvelopeSize p
   /\ Internal.MAC p' = Internal.MAC p
   /\ Internal.KDF p' = Internal.KDF p)
  /\ ((forall prk info L,
         0 <= L -> len (HKDFExpand (Internal.KDF p) prk info L) = L) ->
      0 <= HashSize (Internal.KDF p) ->
      len ss = HashSize (Internal.KDF p)).
Proof.
  unfold AKE.core3DH.
  destruct (AKE.initTranscript p idu ids ke1 ke2) as [p1|] eqn:I; [|discriminate].
  cbn [bind].
  destruct (initTranscript_params _ _ _ _ _ _ I) as (E1 & E2 & E3).
  unfold AKE.deriveKeys, AKE.deriveSecret.
  destruct (AKE.expandLabel (Internal.KDF p1) _ _ _) as [hs|]; [|discriminate].
  cbn [bind].
  destruct (AKE.expandLabel (Internal.KDF p1) _ _ _) as [sk|] eqn:S;
    [|discriminate].
  cbn [bind].
  destruct (AKE.expandLabel (Internal.KDF p1) hs _ _) as [k2|]; [|discriminate].
  cbn [bind].
  destruct (AKE.expandLabel (Internal.KDF p1) hs _ _) as [k3|]; [|discriminate].
  cbn [bind]. intros E. injection E as <- <- _ _.
  split.
  - cbn. auto.
  - intros Hexp Hs. rewrite E3 in S.
    eapply expandLabel_len; eauto.
Qed.

Lemma Response_result (a a' : AKE.Server) (conf conf' : Internal.Configuration)
    (ids : AKE.Identities) (ssk : Scalar) (cpk : Element) (ke1 : Message.KE1)
    (resp : Message.CredentialResponse) (op : AKE.Options) (r r' : RNG)
    (ke2 : Message.KE2) :
  AKE.Response a conf ids ssk cpk ke1 resp op r = Some (ke2, a', conf', r') ->
  (Internal.EnvelopeSize conf' = Internal.EnvelopeSize conf
   /\ Internal.MAC conf' = Internal.MAC conf
   /\ Internal.KDF conf' = Internal.KDF conf)
  /\ ((forall prk info L,
         0 <= L -> len (HKDFExpand (Internal.KDF conf) prk info L) = L) ->
      0 <= HashSize (Internal.KDF conf) ->
      len (AKE.sessionSecret a') = HashSize (Internal.KDF conf)).
Proof.
  unfold AKE.Response.
  destruct (AKE.setOptions _ _ _ _) as [[v epks] r1].
  destruct (AKE.ephemeralSecretKey v) as [esk|]; [|discriminate].
  cbn [bind].
  destruct (AKE.core3DH _ _ _ _ _ _) as [[[[c1 ss] ms] mc]|] eqn:C;
    [|discriminate].
  cbn [bind]. intros E. injection E as _ <- <- _.
  apply core3DH_result in C. exact C.
Qed.

(** What a returning [GenerateKE2] does to the server. *)
Lemma GenerateKE2_result (s s' : Opaque.Server) (ke1 : Message.KE1)
    (record : Opaque.ClientRecord) (options : list Opaque.GenerateKE2Options)
    (r r' : RNG) (res : result Message.KE2) :
  Opaque.GenerateKE2 s ke1 record options r = Some (res, s', r') ->
  Opaque.keyMaterial s' = Opaque.keyMaterial s
  /\ Internal.EnvelopeSize (Opaque.conf s') = Internal.EnvelopeSize (Opaque.conf s)
  /\ Internal.MAC (Opaque.conf s') = Internal.MAC (Opaque.conf s)
  /\ Internal.KDF (Opaque.conf s') = Internal.KDF (Opaque.conf s)
  /\ (forall e, res = Err e -> s' = s /\ r' = r)
  /\ (forall ke2, res = Ok ke2 ->
        (forall prk info L,
           0 <= L ->
           len (HKDFExpand (Internal.KDF (Opaque.conf s)) prk info L) = L) ->
        0 <= HashSize (Internal.KDF (Opaque.conf s)) ->
        len (AKE.sessionSecret (Opaque.Ake s'))
        = HashSize (Internal.KDF (Opaque.conf s))).
Proof.
  unfold Opaque.GenerateKE2.
  destruct (Opaque.keyMaterial s) as [km|] eqn:K.
  2:{ intros E. injection E as <- <- <-. rewrite K.
      repeat split; try reflexivity; discriminate. }
  destruct (negb _).
  { intros E. injection E as <- <- <-. rewrite K.
    repeat split; try reflexivity; discriminate. }
  destruct (Opaque.getGenerateKE2Options options) as [op mn].
  destruct (Opaque.credentialResponse _ _ _ _ _ _ _ _) as [resp r1].
  destruct (AKE.Response _ _ _ _ _ _ _ _ _) as [[[[k a'] c'] r2]|] eqn:R;
    [|discriminate].
  cbn [bind]. intros E. injection E as <- <- <-.
  apply Response_result in R. destruct R as ((E1 & E2 & E3) & Hlen).
  cbn. repeat split; try assumption; try discriminate.
  intros ke2 _ Hexp Hs. apply Hlen; assumption.
Qed.

Lemma SetAKEState_conf_keyMaterial (s : Opaque.Server) (state : bytes) :
  Opaque.conf (snd (Opaque.SetAKEState s state)) = Opaque.conf s
  /\ Opaque.keyMaterial (snd (Opaque.SetAKEState s state))
     = Opaque.keyMaterial s.
Proof.
  unfold Opaque.SetAKEState.
  destruct (negb _); [split; reflexivity|].
  destruct (AKE.SetState _ _ _) as [[e|] a']; split; reflexivity.
Qed.

Lemma NewServer_fresh (c : option Opaque.Configuration) (s : Opaque.Server) :
  Opaque.NewServer c = Ok s ->
  Opaque.keyMaterial s = None
  /\ Opaque.Ake s = AKE.NewServer
  /\ Internal.EnvelopeSize (Opaque.conf s)
     = Internal.NonceLength + HashSize (Internal.MAC (Opaque.conf s)).
Proof.
  unfold Opaque.NewServer, Opaque.toInternal.
  destruct (Opaque.verify _); [discriminate|].
  intros E. injection E as <-. repeat split.
Qed.

(** On every reachable server the envelope size of the configuration is
    [NonceLen + MAC.Size()]. *)
Lemma reachable_EnvelopeSize (s : Opaque.Server) :
  Opaque.reachable s ->
  Internal.EnvelopeSize (Opaque.conf s)
  = Internal.NonceLength + HashSize (Internal.MAC (Opaque.conf s)).
Proof.
  induction 1 as [c s N | s sid ssk spk seed _ IH
                  | s ke1 record options r res s' r' _ IH G
                  | s state _ IH].
  - apply NewServer_fresh in N. tauto.
  - destruct (SetKeyMaterial_conf_Ake s sid ssk spk seed) as [-> _]. exact IH.
  - apply GenerateKE2_result in G. destruct G as (_ & E1 & E2 & _).
    rewrite E1, E2. exact IH.
  - destruct (SetAKEState_conf_keyMaterial s state) as [-> _]. exact IH.
Qed.

(** As long as no call of [SetKeyMaterial] has succeeded, the key material
    is unset. *)
Lemma unkeyed_keyMaterial (s : Opaque.Server) :
  Opaque.unkeyed s -> Opaque.keyMaterial s = None.
Proof.
  induction 1 as [c s N | s sid ssk spk seed err s' _ IH S
                  | s ke1 record options r res s' r' _ IH G
                  | s state _ IH].
  - apply NewServer_fresh in N. tauto.
  - apply SetKeyMaterial_error_unchanged in S. subst s'. exact IH.
  - apply GenerateKE2_result in G. destruct G as (-> & _). exact IH.
  - destruct (SetAKEState_conf_keyMaterial s state) as [_ ->]. exact IH.
Qed.

(** C6. [GenerateKE2] fails with [ErrNoServerKeyMaterial] when no call of
    [SetKeyMaterial] has succeeded on the server; with key material set, it
    fails with [ErrInvalidEnvelopeLength] when the length of the record's
    envelope differs from [NonceLen + MAC.Size()]. In both cases no KE2 is
    returned and the server (session state included) and the CSPRNG are
    left as they were. *)
Theorem GenerateKE2_failures (s : Opaque.Server) (ke1 : Message.KE1)
    (record : Opaque.ClientRecord) (options : list Opaque.GenerateKE2Options)
    (r : RNG) :
  (Opaque.unkeyed s ->
   Opaque.GenerateKE2 s ke1 record options r
   = Some (Err ErrNoServerKeyMaterial, s, r))
  /\ (Opaque.reachable s ->
      Opaque.keyMaterial s <> None ->
      len (Message.Envelope (Opaque.RegistrationRecord record))
      <> Internal.NonceLength + HashSize (Internal.MAC (Opaque.conf s)) ->
      Opaque.GenerateKE2 s ke1 record options r
      = Some (Err ErrInvalidEnvelopeLength, s, r)).
Proof.
  split.
  - intros U. apply unkeyed_keyMaterial in U.
    unfold Opaque.GenerateKE2. rewrite U. reflexivity.
  - intros R K L. rewrite <- (reachable_EnvelopeSize s R) in L.
    unfold Opaque.GenerateKE2.
    destruct (Opaque.keyMaterial s) as [km|]; [|congruence].
    apply Z.eqb_neq in L. rewrite L. reflexivity.
Qed.

End ServerProperties.

(** The server [NewServer] builds from the default configuration, and that
    server after a successful [SetKeyMaterial]. *)
Lemma Toy_NewServer :
  @Opaque.NewServer Toy.primitives None = Ok Toy.server0.
Proof. reflexivity. Qed.

Lemma Toy_SetKeyMaterial :
  @Opaque.SetKeyMaterial Toy.primitives Toy.server0 [] [x02] [x02] Toy.seed0
  = (None, Toy.server1).
Proof. reflexivity. Qed.

Lemma Toy_server1_reachable : @Opaque.reachable Toy.primitives Toy.server1.
Proof.
  change Toy.server1 with (snd (None (A := error), Toy.server1)).
  rewrite <- Toy_SetKeyMaterial.
  apply Opaque.reach_SetKeyMaterial.
  apply (Opaque.reach_NewServer None). exact Toy_NewServer.
Qed.

(** C5, on the small instance: the secret key [00] is the zero scalar, and
    a one-byte OPRF seed has the wrong length. *)
Lemma SetKeyMaterial_failures_witness :
  @Opaque.SetKeyMaterial Toy.primitives Toy.server0 [] [x00] [x02] Toy.seed0
  = (Some ErrZeroSKS, Toy.server0)
  /\ @Opaque.SetKeyMaterial Toy.primitives Toy.server0 [] [x02] [x02] [x01]
     = (Some ErrInvalidOPRFSeedLength, Toy.server0).
Proof.
  split.
  - apply (proj1 (@SetKeyMaterial_failures Toy.primitives Toy.server0
                    [] [x00] [x02] Toy.seed0) 0).
    + reflexivity.
    + reflexivity.
  - apply (proj1 (proj2 (@SetKeyMaterial_failures Toy.primitives Toy.server0
                           [] [x02] [x02] [x01])) 2).
    + reflexivity.
    + reflexivity.
    + intros E. vm_compute in E. discriminate E.
Defined.

(** C6, on the small instance: a new server has no key material, and the
    keyed server refuses a record with an empty envelope. *)
Lemma GenerateKE2_failures_witness :
  @Opaque.GenerateKE2 Toy.primitives Toy.server0 Toy.ke1_0 Toy.record0 []
    Toy.rng0
  = Some (Err ErrNoServerKeyMaterial, Toy.server0, Toy.rng0)
  /\ @Opaque.GenerateKE2 Toy.primitives Toy.server1 Toy.ke1_0
       {| Opaque.RegistrationRecord :=
            @Message.Build_RegistrationRecord Toy.primitives 9
              (repeat x07 64) [];
          Opaque.CredentialIdentifier := [];
          Opaque.ClientIdentity := [] |} [] Toy.rng0
     = Some (Err ErrInvalidEnvelopeLength, Toy.server1, Toy.rng0).
Proof.
  split.
  - apply (proj1 (@GenerateKE2_failures Toy.primitives Toy.server0 Toy.ke1_0
                    Toy.record0 [] Toy.rng0)).
    apply (Opaque.unkeyed_NewServer None). exact Toy_NewServer.
  - apply (proj2 (@GenerateKE2_failures Toy.primitives Toy.server1 Toy.ke1_0
                    _ [] Toy.rng0)).
    + exact Toy_server1_reachable.
    + discriminate.
    + intros E. vm_compute in E. discriminate E.
Defined.

(** ** Fake records and the AKE state *)

Section RecordAndStateProperties.
Context `{Primitives}.

Lemma len_RandomBytes (n : Z) (r : RNG) :
  0 <= n -> len (fst (RandomBytes n r)) = n.
Proof.
  intros Hn. unfold RandomBytes, len. cbn [fst].
  rewrite length_map, length_seq. lia.
Qed.

Lemma len_make (n : Z) : 0 <= n -> len (make n) = n.
Proof. intros Hn. unfold make, len. rewrite repeat_length. lia. Qed.

Lemma make_zero (n : Z) : Forall (fun b => b = x00) (make n).
Proof.
  unfold make. induction (Z.to_nat n) as [|k IH]; simpl; constructor; auto.
Qed.

(** C7. For every credential identifier and every configuration that
    passes [verify], [GetFakeRecord] returns a record whose public key is
    a random scalar times the base point of the AKE group, whose masking
    key has length [KDF.Size()], and whose envelope consists of
    [NonceLen + MAC.Size()] zero bytes; a server built from the same
    configuration finds the envelope of the expected size. *)
Theorem GetFakeRecord_shape (c : Opaque.Configuration)
    (credentialIdentifier : bytes) (r : RNG) :
  Opaque.verify c = None ->
  0 <= HashSize (Opaque.KDF c) ->
  0 <= HashSize (Opaque.MAC c) ->
  exists scalar r1 r2 record,
    ScalarRandom (Opaque.AKE c) r = (scalar, r1)
    /\ Opaque.GetFakeRecord c credentialIdentifier r = (Ok record, r2)
    /\ Opaque.CredentialIdentifier record = credentialIdentifier
    /\ Message.PublicKey (Opaque.RegistrationRecord record)
       = Multiply (Base (Opaque.AKE c)) scalar
    /\ len (Message.MaskingKey (Opaque.RegistrationRecord record))
       = HashSize (Opaque.KDF c)
    /\ len (Message.Envelope (Opaque.RegistrationRecord record))
       = Internal.NonceLength + HashSize (Opaque.MAC c)
    /\ Forall (fun b => b = x00)
         (Message.Envelope (Opaque.RegistrationRecord record))
    /\ (forall s, Opaque.NewServer (Some c) = Ok s ->
          len (Message.Envelope (Opaque.RegistrationRecord record))
          = Internal.EnvelopeSize (Opaque.conf s)).
Proof.
  intros V Hk Hm.
  unfold Opaque.GetFakeRecord, Opaque.NewServer, Opaque.toInternal.
  rewrite V. cbn [Internal.Group Internal.KDF Internal.MAC].
  destruct (ScalarRandom (Opaque.AKE c) r) as [scalar r1].
  pose proof (len_RandomBytes (HashSize (Opaque.KDF c)) r1 Hk) as Lk.
  destruct (RandomBytes (HashSize (Opaque.KDF c)) r1) as [mk r2].
  cbn [fst] in Lk.
  assert (Le : len (make (Internal.NonceLength + HashSize (Opaque.MAC c)))
               = Internal.NonceLength + HashSize (Opaque.MAC c)).
  { apply len_make. unfold Internal.NonceLength. lia. }
  eexists scalar, r1, r2, _. split; [reflexivity|]. split; [reflexivity|].
  cbn. repeat split.
  - exact Lk.
  - exact Le.
  - apply make_zero.
  - intros s E. injection E as <-. cbn. exact Le.
Qed.

Lemma skipn_repeat_add {A} (x : A) (n m : nat) :
  skipn n (repeat x (n + m)) = repeat x m.
Proof. induction n as [|n IH]; simpl; [reflexivity | exact IH]. Qed.

(** [SerializeState] is the client MAC followed by the session secret. *)
Lemma SerializeState_concat (a : AKE.Server) :
  AKE.SerializeState a = AKE.clientMac a ++ AKE.sessionSecret a.
Proof.
  unfold AKE.SerializeState, copy, make, slice_to, slice_from, len.
  set (cm := AKE.clientMac a). set (ss := AKE.sessionSecret a).
  rewrite <- Nat2Z.inj_add, Nat2Z.id, repeat_length.
  replace (Z.to_nat (Z.min (Z.of_nat (length cm + length ss))
                       (Z.of_nat (length cm))))
    with (length cm) by lia.
  replace (firstn (length cm + length ss) cm) with cm
    by (symmetry; apply firstn_all2; lia).
  rewrite skipn_repeat_add.
  rewrite firstn_length_app, skipn_length_app.
  rewrite repeat_length, firstn_all.
  rewrite skipn_all2 by (rewrite repeat_length; lia).
  rewrite app_nil_r. reflexivity.
Qed.

Lemma len_slices (state : bytes) (n : Z) :
  len (slice_to state n) + len (slice_from state n) = len state.
Proof.
  rewrite <- len_app. unfold slice_to, slice_from.
  rewrite firstn_skipn. reflexivity.
Qed.

(** A failing [SetAKEState] leaves the server as it was. *)
Lemma SetAKEState_error_unchanged (s s' : Opaque.Server) (state : bytes)
    (err : error) :
  Opaque.SetAKEState s state = (Some err, s') -> s' = s.
Proof.
  unfold Opaque.SetAKEState, AKE.SetState.
  destruct (negb (len state =? _)); [intros E; congruence|].
  destruct (negb (len (AKE.clientMac (Opaque.Ake s)) =? 0) || _);
    intros E; [|discriminate].
  injection E as _ <-. destruct s; reflexivity.
Qed.

(** With a non-empty session state, [SetAKEState] fails. *)
Lemma SetAKEState_nonempty (s : Opaque.Server) (state : bytes) :
  0 < len (AKE.clientMac (Opaque.Ake s))
      + len (AKE.sessionSecret (Opaque.Ake s)) ->
  exists err, Opaque.SetAKEState s state = (Some err, s).
Proof.
  intros Hne. unfold Opaque.SetAKEState, AKE.SetState.
  destruct (negb (len state =? _)); [eexists; reflexivity|].
  pose proof (len_nonneg (AKE.clientMac (Opaque.Ake s))) as H1.
  pose proof (len_nonneg (AKE.sessionSecret (Opaque.Ake s))) as H2.
  assert (E : negb (len (AKE.clientMac (Opaque.Ake s)) =? 0)
              || negb (len (AKE.sessionSecret (Opaque.Ake s)) =? 0) = true).
  { destruct (Z.eqb_spec (len (AKE.clientMac (Opaque.Ake s))) 0);
      destruct (Z.eqb_spec (len (AKE.sessionSecret (Opaque.Ake s))) 0);
      try reflexivity; lia. }
  rewrite E. eexists. destruct s; reflexivity.
Qed.

(** C10. [SetAKEState] succeeds exactly when the expected client MAC and
    the session secret of the server are both empty and the supplied
    buffer has length [MAC.Size() + KDF.Size()]; after a successful call
    [SerializeState] returns the supplied bytes; a further call, or a call
    after a successful [GenerateKE2], fails; and a failing call leaves the
    server as it was. *)
Theorem SetAKEState_once (s : Opaque.Server) (state : bytes) :
  let macSize := HashSize (Internal.MAC (Opaque.conf s)) in
  let kdfSize := HashSize (Internal.KDF (Opaque.conf s)) in
  (* success only from the empty state, with a buffer of the exact length *)
  ((exists s', Opaque.SetAKEState s state = (None, s'))
   <-> (len (AKE.clientMac (Opaque.Ake s)) = 0
        /\ len (AKE.sessionSecret (Opaque.Ake s)) = 0
        /\ len state = macSize + kdfSize))
  (* after a success: the state is the supplied one, and a second call fails *)
  /\ (forall s',
        Opaque.SetAKEState s state = (None, s') ->
        Opaque.SerializeState s' = state
        /\ (0 < macSize + kdfSize ->
            forall state2,
              exists err, Opaque.SetAKEState s' state2 = (Some err, s')))
  (* a failure changes nothing *)
  /\ (forall err s', Opaque.SetAKEState s state = (Some err, s') -> s' = s)
  (* after a successful GenerateKE2 the call fails *)
  /\ (forall s0 ke1 record options r ke2 r',
        Opaque.GenerateKE2 s0 ke1 record options r = Some (Ok ke2, s, r') ->
        0 < kdfSize ->
        (forall prk info L,
           0 <= L ->
           len (HKDFExpand (Internal.KDF (Opaque.conf s)) prk info L) = L) ->
        exists err, Opaque.SetAKEState s state = (Some err, s)).
Proof.
  cbv zeta. split; [|split; [|split]].
  - unfold Opaque.SetAKEState, AKE.SetState. split.
    + intros [s' E]. revert E.
      destruct (Z.eqb_spec (len state)
                  (HashSize (Internal.MAC (Opaque.conf s))
                   + HashSize (Internal.KDF (Opaque.conf s)))) as [L|L];
        cbn [negb]; [|discriminate].
      destruct (Z.eqb_spec (len (AKE.clientMac (Opaque.Ake s))) 0) as [C|C];
        destruct (Z.eqb_spec (len (AKE.sessionSecret (Opaque.Ake s))) 0)
          as [S|S]; cbn [negb orb]; try discriminate.
      intros _. auto.
    + intros (C & S & L). apply Z.eqb_eq in L, C, S. rewrite L, C, S.
      cbn [negb orb]. eexists. reflexivity.
  - intros s' E.
    assert (A : AKE.clientMac (Opaque.Ake s')
                = slice_to state (HashSize (Internal.MAC (Opaque.conf s)))
                /\ AKE.sessionSecret (Opaque.Ake s')
                   = slice_from state (HashSize (Internal.MAC (Opaque.conf s)))
                /\ len state = HashSize (Internal.MAC (Opaque.conf s))
                               + HashSize (Internal.KDF (Opaque.conf s))).
    { revert E. unfold Opaque.SetAKEState, AKE.SetState.
      destruct (Z.eqb_spec (len state)
                  (HashSize (Internal.MAC (Opaque.conf s))
                   + HashSize (Internal.KDF (Opaque.conf s)))) as [L|L];
        cbn [negb]; [|discriminate].
      destruct (negb (len (AKE.clientMac (Opaque.Ake s)) =? 0) || _);
        [discriminate|].
      intros E. injection E as <-. cbn. auto. }
    destruct A as (A1 & A2 & L). split.
    + unfold Opaque.SerializeState. rewrite SerializeState_concat, A1, A2.
      apply firstn_skipn.
    + intros Hpos state2. apply SetAKEState_nonempty.
      rewrite A1, A2, len_slices. lia.
  - intros err s' E. eapply SetAKEState_error_unchanged. exact E.
  - intros s0 ke1 record options r ke2 r' G Hpos Hexp.
    apply SetAKEState_nonempty.
    apply GenerateKE2_result in G.
    destruct G as (_ & _ & _ & K & _ & Hlen).
    rewrite K in *.
    rewrite (Hlen ke2 eq_refl Hexp) by lia.
    pose proof (len_nonneg (AKE.clientMac (Opaque.Ake s))). lia.
Qed.

End RecordAndStateProperties.

(** C7, on the small instance: the fake record for "ghost" under the
    default configuration has a 64-byte masking key and a 96-byte
    envelope. *)
Lemma GetFakeRecord_shape_witness :
  exists record r2,
    @Opaque.GetFakeRecord Toy.primitives Opaque.DefaultConfiguration
      (bytes_of_string "ghost") Toy.rng0 = (Ok record, r2)
    /\ len (Message.MaskingKey (Opaque.RegistrationRecord record)) = 64
    /\ len (Message.Envelope (Opaque.RegistrationRecord record)) = 96.
Proof.
  destruct (@GetFakeRecord_shape Toy.primitives Opaque.DefaultConfiguration
              (bytes_of_string "ghost") Toy.rng0)
    as (scalar & r1 & r2 & record & _ & G & _ & _ & Lk & Le & _).
  - reflexivity.
  - intros E. vm_compute in E. discriminate E.
  - intros E. vm_compute in E. discriminate E.
  - exists record, r2. split; [exact G|]. split; [exact Lk | exact Le].
Defined.

(** C10, on the small instance: a 128-byte state is accepted once by a new
    server and read back unchanged, a second state is refused; and the
    state is refused after a successful [GenerateKE2]. *)
Lemma SetAKEState_once_witness :
  (exists s',
     @Opaque.SetAKEState Toy.primitives Toy.server0 (repeat x01 128)
     = (None, s')
     /\ Opaque.SerializeState s' = repeat x01 128
     /\ exists err,
          Opaque.SetAKEState s' (repeat x02 128) = (Some err, s'))
  /\ (exists ke2 s2 r2,
        @Opaque.GenerateKE2 Toy.primitives Toy.server1 Toy.ke1_0 Toy.record0
          [] Toy.rng0 = Some (Ok ke2, s2, r2)
        /\ exists err,
             Opaque.SetAKEState s2 (repeat x01 128) = (Some err, s2)).
Proof.
  split.
  - destruct (@SetAKEState_once Toy.primitives Toy.server0 (repeat x01 128))
      as (Hiff & Hafter & _ & _).
    destruct (proj2 Hiff) as [s' E].
    { split; [reflexivity|]. split; reflexivity. }
    destruct (Hafter s' E) as [S Hsecond].
    exists s'. split; [exact E|]. split; [exact S|].
    apply Hsecond. reflexivity.
  - assert (G : exists ke2 s2 r2,
               @Opaque.GenerateKE2 Toy.primitives Toy.server1 Toy.ke1_0
                 Toy.record0 [] Toy.rng0 = Some (Ok ke2, s2, r2)).
    { apply returns_ok_inv. vm_compute. reflexivity. }
    destruct G as (ke2 & s2 & r2 & G).
    exists ke2, s2, r2. split; [exact G|].
    destruct (GenerateKE2_result _ _ _ _ _ _ _ _ G) as (_ & _ & _ & K & _).
    refine (proj2 (proj2 (proj2 (@SetAKEState_once Toy.primitives s2
                                   (repeat x01 128))))
              Toy.server1 Toy.ke1_0 Toy.record0 [] Toy.rng0 ke2 r2 G _ _).
    + rewrite K. reflexivity.
    + intros prk info L HL.
      change (len (Toy.digest L (prk ++ x02 :: info)) = L).
      apply Toy_digest_len. exact HL.
Defined.

(** * Further properties *)

(** ** Configuration: what is accepted, and the inverse round trip *)

Section ConfigurationDecoding.
Context `{Primitives}.

Lemma Available_cases (g : byte) :
  Opaque.Available g = true ->
  g = x01 \/ g = x03 \/ g = x04 \/ g = x05.
Proof.
  unfold Opaque.Available, Opaque.RistrettoSha512, Opaque.P256Sha256,
    Opaque.P384Sha512, Opaque.P521Sha512.
  intros E. apply orb_prop in E. destruct E as [E|E].
  - apply orb_prop in E. destruct E as [E|E].
    + apply orb_prop in E. destruct E as [E|E].
      * left. apply Byte.byte_dec_bl. exact E.
      * right. left. apply Byte.byte_dec_bl. exact E.
    + right. right. left. apply Byte.byte_dec_bl. exact E.
  - right. right. right. apply Byte.byte_dec_bl. exact E.
Qed.

(** X1. Whatever the primitive libraries report as available, [verify]
    accepts a configuration only if its OPRF and AKE groups are among the
    four identifiers 1, 3, 4 and 5 and its three hash identifiers are
    below 25; and it accepts the KSF identifier 0 without asking the KSF
    library. *)
Theorem verify_allow_list (c : Opaque.Configuration) :
  (Opaque.verify c = None ->
   (Opaque.OPRF c = x01 \/ Opaque.OPRF c = x03
    \/ Opaque.OPRF c = x04 \/ Opaque.OPRF c = x05)
   /\ (Opaque.AKE c = x01 \/ Opaque.AKE c = x03
       \/ Opaque.AKE c = x04 \/ Opaque.AKE c = x05)
   /\ (Opaque.KDF c < 25 /\ Opaque.MAC c < 25 /\ Opaque.Hash c < 25)%N
   /\ OPRFAvailable (Opaque.OPRF c) = true
   /\ GroupAvailable (Opaque.AKE c) = true
   /\ HashAvailable (Opaque.KDF c) = true
   /\ HashAvailable (Opaque.MAC c) = true
   /\ HashAvailable (Opaque.Hash c) = true)
  /\ (Opaque.verify c = None ->
      Opaque.verify
        (Opaque.mkConfiguration (Opaque.Context c) (Opaque.KDF c)
           (Opaque.MAC c) (Opaque.Hash c) x00 (Opaque.OPRF c) (Opaque.AKE c))
      = None).
Proof.
  unfold Opaque.verify. cbn [Opaque.OPRF Opaque.AKE Opaque.KDF Opaque.MAC
                              Opaque.Hash Opaque.KSF].
  destruct (Opaque.Available (Opaque.OPRF c)) eqn:A1; cbn [negb orb];
    [|split; discriminate].
  destruct (OPRFAvailable (Opaque.OPRF c)) eqn:A2; cbn [negb];
    [|split; discriminate].
  destruct (Opaque.Available (Opaque.AKE c)) eqn:A3; cbn [negb orb];
    [|split; discriminate].
  destruct (GroupAvailable (Opaque.AKE c)) eqn:A4; cbn [negb];
    [|split; discriminate].
  destruct (25 <=? Opaque.KDF c)%N eqn:B1; cbn [orb]; [split; discriminate|].
  destruct (HashAvailable (Opaque.KDF c)) eqn:A5; cbn [negb];
    [|split; discriminate].
  destruct (25 <=? Opaque.MAC c)%N eqn:B2; cbn [orb]; [split; discriminate|].
  destruct (HashAvailable (Opaque.MAC c)) eqn:A6; cbn [negb];
    [|split; discriminate].
  destruct (25 <=? Opaque.Hash c)%N eqn:B3; cbn [orb]; [split; discriminate|].
  destruct (HashAvailable (Opaque.Hash c)) eqn:A7; cbn [negb];
    [|split; discriminate].
  apply N.leb_gt in B1, B2, B3.
  split.
  - intros _. repeat split; auto using Available_cases.
  - intros _. reflexivity.
Qed.

Lemma byte_of_to_N (b : byte) : byte_of_Z (Z.of_N (Byte.to_N b)) = b.
Proof. exact (byte_of_Z_unsigned b). Qed.

Lemma be_bytes_OS2IP_2 (h0 h1 : byte) :
  Encoding.be_bytes 2 (Encoding.OS2IP [h0; h1]) = [h0; h1]
  /\ 0 <= Encoding.OS2IP [h0; h1] <= 65535.
Proof.
  pose proof (unsigned_range h0) as R0. pose proof (unsigned_range h1) as R1.
  assert (E : Encoding.OS2IP [h0; h1] = unsigned h0 * 256 + unsigned h1).
  { unfold Encoding.OS2IP. cbn [fold_left]. lia. }
  rewrite E. split; [|lia].
  cbn [Encoding.be_bytes app].
  assert (D : (unsigned h0 * 256 + unsigned h1) / 256 = unsigned h0).
  { rewrite Z.div_add_l by lia. rewrite Z.div_small by lia. lia. }
  assert (M : (unsigned h0 * 256 + unsigned h1) mod 256 = unsigned h1).
  { rewrite Z.add_comm, Z.mod_add by lia. apply Z.mod_small. lia. }
  rewrite D, M.
  rewrite (Z.mod_small (unsigned h0)) by lia.
  rewrite !byte_of_Z_unsigned. reflexivity.
Qed.

Lemma len_firstn_le (n : nat) (b : bytes) :
  Z.of_nat n <= len b -> len (firstn n b) = Z.of_nat n.
Proof. unfold len. intros Hn. rewrite length_firstn. lia. Qed.

(** X2. Whatever [DeserializeConfiguration] accepts is a configuration that
    passes [verify], and serializing it gives back exactly the bytes that
    were consumed: the first [8 + len(context)] bytes of the input. *)
Theorem DeserializeConfiguration_sound (encoded : bytes)
    (c : Opaque.Configuration) :
  Opaque.DeserializeConfiguration encoded = Ok c ->
  Opaque.verify c = None
  /\ 8 + len (Opaque.Context c) <= len encoded
  /\ len (Opaque.Context c) <= 65535
  /\ Opaque.Serialize c
     = Some (slice_to encoded (8 + len (Opaque.Context c))).
Proof.
  unfold Opaque.DeserializeConfiguration, Opaque.confIDsLength.
  destruct (len encoded <? 6 + 2) eqn:L; [discriminate|].
  apply Z.ltb_ge in L.
  destruct encoded as [|a0 [|a1 [|a2 [|a3 [|a4 [|a5 [|h0 [|h1 body]]]]]]]];
    try (exfalso; unfold len in L; cbn [length] in L; lia).
  change (slice_from (a0 :: a1 :: a2 :: a3 :: a4 :: a5 :: h0 :: h1 :: body) 6)
    with (h0 :: h1 :: body).
  unfold Encoding.DecodeVector, Encoding.decodeVectorLen.
  destruct (len (h0 :: h1 :: body) <? 2); [discriminate|].
  change (slice_to (h0 :: h1 :: body) 2) with [h0; h1].
  change (slice_from (h0 :: h1 :: body) 2) with body.
  destruct (be_bytes_OS2IP_2 h0 h1) as [Hbe Hr].
  set (n := Encoding.OS2IP [h0; h1]) in *.
  destruct (len (h0 :: h1 :: body) <? 2 + n) eqn:T; [discriminate|].
  apply Z.ltb_ge in T.
  assert (Lb : n <= len body).
  { unfold len in T |- *. cbn [length] in T. lia. }
  assert (Lc : len (slice_to body n) = n).
  { unfold slice_to. rewrite len_firstn_le; lia. }
  unfold Opaque.at_. cbn [nth].
  destruct (Opaque.verify _) as [e|] eqn:V; [discriminate|].
  intros E. injection E as <-. split; [exact V|].
  cbn [Opaque.Context]. rewrite Lc.
  split; [unfold len in Lb |- *; cbn [length]; lia|].
  split; [lia|].
  unfold Opaque.Serialize.
  cbn [Opaque.Context Opaque.OPRF Opaque.AKE Opaque.KSF Opaque.KDF
         Opaque.MAC Opaque.Hash].
  rewrite !byte_of_to_N.
  rewrite EncodeVector_some by (rewrite Lc; lia).
  cbn [bind]. rewrite Lc, Hbe. unfold Encoding.Concatenate. cbn [concat].
  rewrite app_nil_r. f_equal.
  unfold slice_to at 2.
  replace (Z.to_nat (8 + n)) with (8 + Z.to_nat n)%nat by lia.
  reflexivity.
Qed.

(** X3. A truncated encoding is rejected: every strict prefix of the
    encoding of a configuration fails to deserialize, with the
    invalid-length error of the configuration when fewer than 8 bytes are
    left and with the total-length error of the context vector
    otherwise. *)
Theorem DeserializeConfiguration_truncated (c : Opaque.Configuration)
    (enc : bytes) (n : Z) :
  Opaque.Serialize c = Some enc ->
  0 <= n < len enc ->
  Opaque.DeserializeConfiguration (slice_to enc n)
  = Err (if n <? 8 then ErrConfigurationInvalidLength
         else Wrapped "decoding the configuration context" errTotalLength).
Proof.
  intros S Hn.
  destruct (Serialize_inv c enc S) as (v & Ev & ->).
  destruct (Z.le_gt_cases (len (Opaque.Context c)) 65535) as [Hc|Hc].
  2:{ rewrite EncodeVector_none in Ev by lia. discriminate. }
  rewrite EncodeVector_some in Ev by exact Hc.
  assert (Hv : v = Encoding.be_bytes 2 (len (Opaque.Context c))
                   ++ Opaque.Context c) by congruence.
  clear Ev. subst v.
  pose proof (length_be_bytes 2 (len (Opaque.Context c))) as Hh.
  pose proof (OS2IP_be_bytes 2 (len (Opaque.Context c))) as Hos.
  change (256 ^ Z.of_nat 2) with 65536 in Hos.
  pose proof (len_nonneg (Opaque.Context c)) as Hc0.
  remember (Encoding.be_bytes 2 (len (Opaque.Context c))) as h eqn:Eh.
  clear Eh.
  destruct h as [|h0 [|h1 [|]]]; try discriminate Hh. clear Hh.
  assert (Hl : len (slice_to
                      ([Opaque.OPRF c; Opaque.AKE c; Opaque.KSF c;
                        byte_of_Z (Z.of_N (Opaque.KDF c));
                        byte_of_Z (Z.of_N (Opaque.MAC c));
                        byte_of_Z (Z.of_N (Opaque.Hash c))]
                       ++ [h0; h1] ++ Opaque.Context c) n) = n).
  { unfold slice_to. apply eq_trans with (Z.of_nat (Z.to_nat n)); [|lia].
    apply len_firstn_le. lia. }
  unfold Opaque.DeserializeConfiguration, Opaque.confIDsLength.
  rewrite Hl. change (6 + 2) with 8.
  destruct (n <? 8) eqn:L; [reflexivity|].
  apply Z.ltb_ge in L.
  assert (Hs : slice_from
                 (slice_to
                    ([Opaque.OPRF c; Opaque.AKE c; Opaque.KSF c;
                      byte_of_Z (Z.of_N (Opaque.KDF c));
                      byte_of_Z (Z.of_N (Opaque.MAC c));
                      byte_of_Z (Z.of_N (Opaque.Hash c))]
                     ++ [h0; h1] ++ Opaque.Context c) n) 6
               = h0 :: h1 :: firstn (Z.to_nat (n - 8)) (Opaque.Context c)).
  { unfold slice_from, slice_to.
    replace (Z.to_nat n) with (8 + Z.to_nat (n - 8))%nat by lia.
    reflexivity. }
  rewrite Hs.
  unfold Encoding.DecodeVector, Encoding.decodeVectorLen.
  set (body := firstn (Z.to_nat (n - 8)) (Opaque.Context c)).
  assert (Lb : len body = n - 8).
  { unfold body. apply eq_trans with (Z.of_nat (Z.to_nat (n - 8))); [|lia].
    apply len_firstn_le.
    rewrite !len_app in Hn. unfold len in Hn |- *. cbn [length] in Hn. lia. }
  assert (L2 : len (h0 :: h1 :: body) = 2 + len body).
  { unfold len. cbn [length]. lia. }
  rewrite L2.
  replace (2 + len body <? 2) with false
    by (symmetry; apply Z.ltb_ge; pose proof (len_nonneg body); lia).
  change (slice_to (h0 :: h1 :: body) 2) with [h0; h1].
  rewrite Hos by lia.
  replace (2 + len body <? 2 + len (Opaque.Context c)) with true.
  - reflexivity.
  - symmetry. apply Z.ltb_lt.
    rewrite !len_app in Hn. unfold len in Hn at 1 2. cbn [length] in Hn. lia.
Qed.

Lemma hash_id_low_byte (k : N) :
  (k < 256)%N -> Byte.to_N (byte_of_Z (Z.of_N k)) = k.
Proof.
  intros Hk. apply N2Z.inj.
  change (Z.of_N (Byte.to_N (byte_of_Z (Z.of_N k))))
    with (unsigned (byte_of_Z (Z.of_N k))).
  rewrite unsigned_byte_of_Z. apply Z.mod_small. lia.
Qed.

(** X4. [Serialize] does not validate, [DeserializeConfiguration] does:
    for a configuration whose hash identifiers fit a byte,
    deserializing its encoding returns the configuration when [verify]
    accepts it and the error of [verify] otherwise. *)
Theorem Deserialize_Serialize_verify (c : Opaque.Configuration)
    (enc : bytes) :
  (Opaque.KDF c < 256 /\ Opaque.MAC c < 256 /\ Opaque.Hash c < 256)%N ->
  Opaque.Serialize c = Some enc ->
  Opaque.DeserializeConfiguration enc
  = match Opaque.verify c with
    | None => Ok c
    | Some err => Err err
    end.
Proof.
  intros (B1 & B2 & B3) S.
  destruct (Serialize_inv c enc S) as (v & Ev & ->).
  pose proof (EncodeVector_len _ _ Ev) as Lv.
  pose proof (len_nonneg (Opaque.Context c)) as Lc.
  unfold Opaque.DeserializeConfiguration.
  rewrite len_app.
  replace (len [Opaque.OPRF c; Opaque.AKE c; Opaque.KSF c;
                byte_of_Z (Z.of_N (Opaque.KDF c));
                byte_of_Z (Z.of_N (Opaque.MAC c));
                byte_of_Z (Z.of_N (Opaque.Hash c))] + len v
           <? Opaque.confIDsLength + 2) with false
    by (symmetry; apply Z.ltb_ge; unfold Opaque.confIDsLength;
        change (len [Opaque.OPRF c; Opaque.AKE c; Opaque.KSF c;
                     byte_of_Z (Z.of_N (Opaque.KDF c));
                     byte_of_Z (Z.of_N (Opaque.MAC c));
                     byte_of_Z (Z.of_N (Opaque.Hash c))]) with 6; lia).
  change (slice_from (_ ++ v) Opaque.confIDsLength) with v.
  pose proof (DecodeVector_EncodeVector _ _ [] Ev) as D.
  rewrite app_nil_r in D. rewrite D.
  unfold Opaque.at_. cbn [nth app].
  rewrite !hash_id_low_byte by assumption.
  destruct c; reflexivity.
Qed.

(** X5. [Serialize] keeps only the low byte of the three hash identifiers:
    a configuration and the one with these identifiers reduced modulo 256
    have the same encoding. *)
Theorem Serialize_low_byte (c : Opaque.Configuration) :
  Opaque.Serialize c
  = Opaque.Serialize
      (Opaque.mkConfiguration (Opaque.Context c)
         (Opaque.KDF c mod 256) (Opaque.MAC c mod 256)
         (Opaque.Hash c mod 256)
         (Opaque.KSF c) (Opaque.OPRF c) (Opaque.AKE c)).
Proof.
  assert (B : forall k : N,
             byte_of_Z (Z.of_N (k mod 256)) = byte_of_Z (Z.of_N k)).
  { intros k. unfold byte_of_Z. rewrite N2Z.inj_mod.
    change (Z.of_N 256) with 256. rewrite Z.mod_mod by lia. reflexivity. }
  unfold Opaque.Serialize.
  cbn [Opaque.Context Opaque.OPRF Opaque.AKE Opaque.KSF Opaque.KDF
         Opaque.MAC Opaque.Hash].
  rewrite !B. reflexivity.
Qed.

End ConfigurationDecoding.

(** ** The server: key material, KE2 generation and login *)

Section ServerSessions.
Context `{Primitives}.

(** X6. [SetKeyMaterial] succeeds exactly when the secret key decodes to a
    non-zero scalar, the seed has the size of the configured hash, the
    public key has the element length of the group and decodes. It then
    stores the identity, the decoded secret key, the public key bytes as
    given and the seed, replacing any earlier key material, and leaves the
    configuration and the AKE state alone. *)
Theorem SetKeyMaterial_success (s : Opaque.Server)
    (serverIdentity serverSecretKey serverPublicKey oprfSeed : bytes) :
  let g := Internal.Group (Opaque.conf s) in
  let call := Opaque.SetKeyMaterial s serverIdentity serverSecretKey
                serverPublicKey oprfSeed in
  ((exists s', call = (None, s'))
   <-> (exists sks pk,
          ScalarDecode g serverSecretKey = Ok sks
          /\ IsZero sks = false
          /\ len oprfSeed
             = HashSize (Internal.hashID (Internal.Hash (Opaque.conf s)))
          /\ len serverPublicKey = ElementLength g
          /\ ElementDecode g serverPublicKey = Ok pk))
  /\ (forall s',
        call = (None, s') ->
        Opaque.conf s' = Opaque.conf s
        /\ Opaque.Ake s' = Opaque.Ake s
        /\ exists sks,
             ScalarDecode g serverSecretKey = Ok sks
             /\ Opaque.keyMaterial s'
                = Some {| Opaque.serverIdentity := serverIdentity;
                          Opaque.serverSecretKey := sks;
                          Opaque.serverPublicKey := serverPublicKey;
                          Opaque.oprfSeed := oprfSeed |}).
Proof.
  cbv zeta. unfold Opaque.SetKeyMaterial.
  destruct (ScalarDecode _ serverSecretKey) as [sks|e0].
  2:{ split.
      - split; [intros [s' E]; discriminate E|].
        intros (sks & pk & D & _). discriminate D.
      - intros s' E. discriminate E. }
  destruct (IsZero sks) eqn:Z0.
  { split.
    - split; [intros [s' E]; discriminate E|].
      intros (sks' & pk & D & Z1 & _). congruence.
    - intros s' E. discriminate E. }
  destruct (Z.eqb_spec (len oprfSeed)
              (HashSize (Internal.hashID (Internal.Hash (Opaque.conf s)))))
    as [L1|L1]; cbn [negb].
  2:{ split.
      - split; [intros [s' E]; discriminate E|].
        intros (sks' & pk & _ & _ & L & _). contradiction.
      - intros s' E. discriminate E. }
  destruct (Z.eqb_spec (len serverPublicKey)
              (ElementLength (Internal.Group (Opaque.conf s))))
    as [L2|L2]; cbn [negb].
  2:{ split.
      - split; [intros [s' E]; discriminate E|].
        intros (sks' & pk & _ & _ & _ & L & _). contradiction.
      - intros s' E. discriminate E. }
  destruct (ElementDecode _ serverPublicKey) as [pk|e1].
  2:{ split.
      - split; [intros [s' E]; discriminate E|].
        intros (sks' & pk & _ & _ & _ & _ & D). discriminate D.
      - intros s' E. discriminate E. }
  split.
  - split; [|intros _; eexists; reflexivity].
    intros _. exists sks, pk. auto.
  - intros s' E. injection E as <-. cbn. repeat split. exists sks. auto.
Qed.

(** X7. The remaining failures of [SetKeyMaterial], in the order of its
    checks: an undecodable secret key gives the decoder's error wrapped as
    "invalid server AKE secret key", whatever the other arguments are; with
    a good secret key and seed, a public key of the wrong length gives
    [ErrInvalidPksLength], and one of the right length that does not
    decode gives the decoder's error wrapped as "invalid server public
    key". *)
Theorem SetKeyMaterial_key_errors (s : Opaque.Server)
    (serverIdentity serverSecretKey serverPublicKey oprfSeed : bytes) :
  let g := Internal.Group (Opaque.conf s) in
  let call := Opaque.SetKeyMaterial s serverIdentity serverSecretKey
                serverPublicKey oprfSeed in
  (forall err,
     ScalarDecode g serverSecretKey = Err err ->
     call = (Some (Wrapped "invalid server AKE secret key" err), s))
  /\ (forall sks,
        ScalarDecode g serverSecretKey = Ok sks ->
        IsZero sks = false ->
        len oprfSeed
        = HashSize (Internal.hashID (Internal.Hash (Opaque.conf s))) ->
        (len serverPublicKey <> ElementLength g ->
         call = (Some ErrInvalidPksLength, s))
        /\ (forall err,
              len serverPublicKey = ElementLength g ->
              ElementDecode g serverPublicKey = Err err ->
              call = (Some (Wrapped "invalid server public key" err), s))).
Proof.
  cbv zeta. unfold Opaque.SetKeyMaterial. split.
  - intros err D. rewrite D. reflexivity.
  - intros sks D Z0 L1. rewrite D, Z0.
    apply Z.eqb_eq in L1. rewrite L1. cbn [negb]. split.
    + intros L2. apply Z.eqb_neq in L2. rewrite L2. reflexivity.
    + intros err L2 D2. apply Z.eqb_eq in L2. rewrite L2, D2. reflexivity.
Qed.

(** The key schedule returns whenever the lengths fit their prefixes. *)
Lemma core3DH_returns (p : Internal.Configuration) (ikm idu ids : bytes)
    (ke1 : Message.KE1) (ke2 : Message.KE2) :
  len idu <= 65535 -> len ids <= 65535 -> len (Internal.Context p) <= 65535 ->
  0 <= HashSize (Internal.KDF p) <= 65535 ->
  (forall data,
     len (HashSum (Internal.hashID (Internal.Hash p)) data) <= 255) ->
  exists p' ss ms mc,
    AKE.core3DH p ikm idu ids ke1 ke2 = Some (p', ss, ms, mc).
Proof.
  intros Hu Hs Hc Hk Hh.
  destruct (initTranscript_some p idu ids ke1 ke2 Hu Hs Hc)
    as (sidc & sids & ctx & _ & _ & _ & Hinit).
  unfold AKE.core3DH. rewrite Hinit. cbn [bind].
  set (p1 := Internal.writeHash p _).
  change (Internal.KDF p1) with (Internal.KDF p).
  unfold AKE.deriveKeys, AKE.deriveSecret, Internal.Sum.
  change (Internal.hashID (Internal.Hash p1))
    with (Internal.hashID (Internal.Hash p)).
  assert (Hnil : len (@nil byte) <= 255) by (vm_compute; discriminate).
  destruct (expandLabel_some (Internal.KDF p)
              (HKDFExtract (Internal.KDF p) [] ikm)
              (bytes_of_string Tag.Handshake)
              (HashSum (Internal.hashID (Internal.Hash p))
                 (Internal.written (Internal.Hash p1))) Hk)
    as [hs ->]; [vm_compute; discriminate | apply Hh |].
  cbn [bind].
  destruct (expandLabel_some (Internal.KDF p)
              (HKDFExtract (Internal.KDF p) [] ikm)
              (bytes_of_string Tag.SessionKey)
              (HashSum (Internal.hashID (Internal.Hash p))
                 (Internal.written (Internal.Hash p1))) Hk)
    as [sk ->]; [vm_compute; discriminate | apply Hh |].
  cbn [bind].
  destruct (expandLabel_some (Internal.KDF p) hs
              (bytes_of_string Tag.MacServer) [] Hk)
    as [k2 ->]; [vm_compute; discriminate | exact Hnil |].
  cbn [bind].
  destruct (expandLabel_some (Internal.KDF p) hs
              (bytes_of_string Tag.MacClient) [] Hk)
    as [k3 ->]; [vm_compute; discriminate | exact Hnil |].
  cbn [bind]. do 4 eexists. reflexivity.
Qed.

Lemma SetIdentities_len (i : AKE.Identities) (cpk : Element) (spk : bytes) :
  len (AKE.ClientIdentity i) <= 65535 -> len (SerializePoint cpk) <= 65535 ->
  len (AKE.ServerIdentity i) <= 65535 -> len spk <= 65535 ->
  len (AKE.ClientIdentity (AKE.SetIdentities i cpk spk)) <= 65535
  /\ len (AKE.ServerIdentity (AKE.SetIdentities i cpk spk)) <= 65535.
Proof.
  intros H1 H2 H3 H4. unfold AKE.SetIdentities. cbn.
  destruct (len (AKE.ClientIdentity i) =? 0);
    destruct (len (AKE.ServerIdentity i) =? 0); auto.
Qed.

(** A keyed server given a well-formed record runs [GenerateKE2] to a KE2. *)
Lemma GenerateKE2_runs (s : Opaque.Server) (km : Opaque.KeyMaterial)
    (ke1 : Message.KE1) (record : Opaque.ClientRecord)
    (options : list Opaque.GenerateKE2Options) (r : RNG) :
  let pk := Message.PublicKey (Opaque.RegistrationRecord record) in
  let identities :=
    AKE.SetIdentities
      {| AKE.ClientIdentity := Opaque.ClientIdentity record;
         AKE.ServerIdentity := Opaque.serverIdentity km |}
      pk (Opaque.serverPublicKey km) in
  Opaque.keyMaterial s = Some km ->
  len (Message.Envelope (Opaque.RegistrationRecord record))
  = Internal.EnvelopeSize (Opaque.conf s) ->
  len (Opaque.ClientIdentity record) <= 65535 ->
  len (SerializePoint pk) <= 65535 ->
  len (Opaque.serverIdentity km) <= 65535 ->
  len (Opaque.serverPublicKey km) <= 65535 ->
  len (Internal.Context (Opaque.conf s)) <= 65535 ->
  0 <= HashSize (Internal.KDF (Opaque.conf s)) <= 65535 ->
  (forall data,
     len (HashSum (Internal.hashID (Internal.Hash (Opaque.conf s))) data)
     <= 255) ->
  exists ke2 s' r' esk,
    Opaque.GenerateKE2 s ke1 record options r = Some (Ok ke2, s', r')
    /\ Opaque.keyMaterial s' = Some km
    /\ AKE.ephemeralSecretKey (AKE.vals (Opaque.Ake s')) = Some esk
    /\ AKE.core3DH (Opaque.conf s)
         (AKE.responseIKM ke1 esk (Opaque.serverSecretKey km) pk)
         (AKE.ClientIdentity identities) (AKE.ServerIdentity identities) ke1
         {| Message.ke2CredentialResponse := Message.ke2CredentialResponse ke2;
            Message.ServerNonce := Message.ServerNonce ke2;
            Message.ServerPublicKeyshare := Message.ServerPublicKeyshare ke2;
            Message.ServerMac := [] |}
       = Some (Opaque.conf s', Opaque.SessionKey s', Message.ServerMac ke2,
               Opaque.ExpectedMAC s').
Proof.
  cbv zeta. intros K Le Hci Hpk Hsi Hsp Hc Hk Hh.
  unfold Opaque.GenerateKE2. rewrite K.
  apply Z.eqb_eq in Le. rewrite Le. cbn [negb].
  destruct (Opaque.getGenerateKE2Options options) as [op mn].
  destruct (Opaque.credentialResponse _ _ _ _ _ _ _ _) as [resp r1].
  destruct (SetIdentities_len
              {| AKE.ClientIdentity := Opaque.ClientIdentity record;
                 AKE.ServerIdentity := Opaque.serverIdentity km |}
              (Message.PublicKey (Opaque.RegistrationRecord record))
              (Opaque.serverPublicKey km) Hci Hpk Hsi Hsp) as [Hu Hs].
  set (identities := AKE.SetIdentities _ _ _) in *.
  unfold AKE.Response.
  destruct (AKE.setOptions _ _ _ _) as [[v epks] r2] eqn:SO.
  assert (Hv : exists esk, AKE.ephemeralSecretKey v = Some esk).
  { revert SO. unfold AKE.setOptions.
    destruct (if len (AKE.KeyShareSeed op) =? 0 then _ else _) as [e ra].
    destruct (if len (AKE.Nonce op) =? 0 then _ else _) as [n rb].
    intros E. injection E as <- _ _. eexists. reflexivity. }
  destruct Hv as [esk Hv]. rewrite Hv. cbn [bind].
  destruct (core3DH_returns (Opaque.conf s)
              (AKE.responseIKM ke1 esk (Opaque.serverSecretKey km)
                 (Message.PublicKey (Opaque.RegistrationRecord record)))
              (AKE.ClientIdentity identities) (AKE.ServerIdentity identities)
              ke1
              {| Message.ke2CredentialResponse := resp;
                 Message.ServerNonce := AKE.nonce v;
                 Message.ServerPublicKeyshare := epks;
                 Message.ServerMac := [] |} Hu Hs Hc Hk Hh)
    as (p' & ss & ms & mc & C).
  rewrite C. cbn [bind].
  do 3 eexists. exists esk. split; [reflexivity|]. cbn.
  split; [reflexivity|]. split; [exact Hv|]. exact C.
Qed.

(** X8. Once key material is set, [GenerateKE2] has no failure left but the
    envelope length: with an envelope of [conf.EnvelopeSize] bytes, and
    identities, public keys, context and hash sizes that fit their length
    prefixes, it returns a KE2 and a nil error without panicking, keeps
    the key material, and the server MAC of the KE2, the expected client
    MAC and the session key it stores are those [core3DH] computes for
    the pair (KE1, KE2). *)
Theorem GenerateKE2_returns (s : Opaque.Server) (km : Opaque.KeyMaterial)
    (ke1 : Message.KE1) (record : Opaque.ClientRecord)
    (options : list Opaque.GenerateKE2Options) (r : RNG) :
  let pk := Message.PublicKey (Opaque.RegistrationRecord record) in
  let identities :=
    AKE.SetIdentities
      {| AKE.ClientIdentity := Opaque.ClientIdentity record;
         AKE.ServerIdentity := Opaque.serverIdentity km |}
      pk (Opaque.serverPublicKey km) in
  Opaque.keyMaterial s = Some km ->
  len (Message.Envelope (Opaque.RegistrationRecord record))
  = Internal.EnvelopeSize (Opaque.conf s) ->
  len (Opaque.ClientIdentity record) <= 65535 ->
  len (SerializePoint pk) <= 65535 ->
  len (Opaque.serverIdentity km) <= 65535 ->
  len (Opaque.serverPublicKey km) <= 65535 ->
  len (Internal.Context (Opaque.conf s)) <= 65535 ->
  0 <= HashSize (Internal.KDF (Opaque.conf s)) <= 65535 ->
  (forall data,
     len (HashSum (Internal.hashID (Internal.Hash (Opaque.conf s))) data)
     <= 255) ->
  exists ke2 s' r' esk,
    Opaque.GenerateKE2 s ke1 record options r = Some (Ok ke2, s', r')
    /\ Opaque.keyMaterial s' = Some km
    /\ AKE.ephemeralSecretKey (AKE.vals (Opaque.Ake s')) = Some esk
    /\ AKE.core3DH (Opaque.conf s)
         (AKE.responseIKM ke1 esk (Opaque.serverSecretKey km) pk)
         (AKE.ClientIdentity identities) (AKE.ServerIdentity identities) ke1
         {| Message.ke2CredentialResponse := Message.ke2CredentialResponse ke2;
            Message.ServerNonce := Message.ServerNonce ke2;
            Message.ServerPublicKeyshare := Message.ServerPublicKeyshare ke2;
            Message.ServerMac := [] |}
       = Some (Opaque.conf s', Opaque.SessionKey s', Message.ServerMac ke2,
               Opaque.ExpectedMAC s').
Proof. exact (GenerateKE2_runs s km ke1 record options r). Qed.

End ServerSessions.

Section LoginAndState.
Context `{Primitives}.

(** The MACs the key schedule returns have the size of the MAC. *)
Lemma core3DH_mac_len (p p' : Internal.Configuration) (ikm idu ids : bytes)
    (ke1 : Message.KE1) (ke2 : Message.KE2) (ss ms mc : bytes) :
  (forall h k m, len (HMAC h k m) = HashSize h) ->
  AKE.core3DH p ikm idu ids ke1 ke2 = Some (p', ss, ms, mc) ->
  len ms = HashSize (Internal.MAC p) /\ len mc = HashSize (Internal.MAC p).
Proof.
  intros Hmac. unfold AKE.core3DH.
  destruct (AKE.initTranscript p idu ids ke1 ke2) as [p1|] eqn:I; [|discriminate].
  cbn [bind].
  destruct (initTranscript_params _ _ _ _ _ _ I) as (_ & E2 & _).
  destruct (AKE.deriveKeys _ _ _) as [[keys sk]|]; [|discriminate].
  cbn [bind]. intros E. injection E as _ _ <- <-.
  change (Internal.MAC (Internal.writeHash p1 _)) with (Internal.MAC p1).
  rewrite !Hmac, E2. split; reflexivity.
Qed.

(** After a returning [GenerateKE2] with a KE2, the expected client MAC has
    the size of the MAC and the session key the size of the KDF. *)
Lemma GenerateKE2_state_len (s s' : Opaque.Server) (ke1 : Message.KE1)
    (record : Opaque.ClientRecord) (options : list Opaque.GenerateKE2Options)
    (r r' : RNG) (ke2 : Message.KE2) :
  Opaque.GenerateKE2 s ke1 record options r = Some (Ok ke2, s', r') ->
  (forall h k m, len (HMAC h k m) = HashSize h) ->
  (forall h prk info L, 0 <= L -> len (HKDFExpand h prk info L) = L) ->
  0 <= HashSize (Internal.KDF (Opaque.conf s)) ->
  len (Opaque.ExpectedMAC s') = HashSize (Internal.MAC (Opaque.conf s))
  /\ len (Opaque.SessionKey s') = HashSize (Internal.KDF (Opaque.conf s)).
Proof.
  intros G Hmac Hexp Hk. split.
  - revert G. unfold Opaque.GenerateKE2.
    destruct (Opaque.keyMaterial s) as [km|]; [|discriminate].
    destruct (negb _); [discriminate|].
    destruct (Opaque.getGenerateKE2Options options) as [op mn].
    destruct (Opaque.credentialResponse _ _ _ _ _ _ _ _) as [resp r1].
    unfold AKE.Response.
    destruct (AKE.setOptions _ _ _ _) as [[v epks] r2].
    destruct (AKE.ephemeralSecretKey v) as [esk|]; [|discriminate].
    cbn [bind].
    destruct (AKE.core3DH _ _ _ _ _ _) as [[[[c1 ss] ms] mc]|] eqn:C;
      [|discriminate].
    cbn [bind]. intros E. injection E as _ <- _. cbn.
    apply (core3DH_mac_len _ _ _ _ _ _ _ _ _ _ Hmac) in C. tauto.
  - destruct (GenerateKE2_result _ _ _ _ _ _ _ _ G) as (_ & _ & _ & _ & _ & L).
    apply (L ke2 eq_refl); [intros; apply Hexp; assumption | exact Hk].
Qed.

(** X9. [LoginFinish] accepts a KE3 exactly when its client MAC is the
    expected one (for a MAC comparison that decides equality) and otherwise
    returns [ErrAkeInvalidClientMac]; after a [GenerateKE2] that returned a
    KE2 the expected MAC is not empty, so a KE3 with an empty MAC is
    refused. *)
Theorem LoginFinish_after_GenerateKE2 (s s' : Opaque.Server)
    (ke1 : Message.KE1) (record : Opaque.ClientRecord)
    (options : list Opaque.GenerateKE2Options) (r r' : RNG)
    (ke2 : Message.KE2) :
  Opaque.GenerateKE2 s ke1 record options r = Some (Ok ke2, s', r') ->
  (forall a b, HMACEqual a b = true <-> a = b) ->
  (forall h k m, len (HMAC h k m) = HashSize h) ->
  0 < HashSize (Internal.MAC (Opaque.conf s)) ->
  (forall ke3,
     (Opaque.LoginFinish s' ke3 = None
      <-> Message.ClientMac ke3 = Opaque.ExpectedMAC s')
     /\ (Message.ClientMac ke3 <> Opaque.ExpectedMAC s' ->
         Opaque.LoginFinish s' ke3 = Some ErrAkeInvalidClientMac))
  /\ Opaque.LoginFinish s' {| Message.ClientMac := [] |}
     = Some ErrAkeInvalidClientMac.
Proof.
  intros G Heq Hmac Hpos.
  assert (A : forall ke3,
             (Opaque.LoginFinish s' ke3 = None
              <-> Message.ClientMac ke3 = Opaque.ExpectedMAC s')
             /\ (Message.ClientMac ke3 <> Opaque.ExpectedMAC s' ->
                 Opaque.LoginFinish s' ke3 = Some ErrAkeInvalidClientMac)).
  { intros ke3. unfold Opaque.LoginFinish, AKE.Finalize, Opaque.ExpectedMAC,
      AKE.ExpectedMAC.
    destruct (HMACEqual (AKE.clientMac (Opaque.Ake s')) (Message.ClientMac ke3))
      eqn:E; cbn [negb].
    - apply Heq in E. split; [split; congruence | congruence].
    - split; [split; [discriminate|] | reflexivity].
      intros E'. symmetry in E'. apply Heq in E'. congruence. }
  split; [exact A|].
  apply (proj2 (A {| Message.ClientMac := [] |})). cbn [Message.ClientMac].
  intros E.
  assert (L : len (Opaque.ExpectedMAC s')
              = HashSize (Internal.MAC (Opaque.conf s))).
  { revert G. unfold Opaque.GenerateKE2.
    destruct (Opaque.keyMaterial s) as [km|]; [|discriminate].
    destruct (negb _); [discriminate|].
    destruct (Opaque.getGenerateKE2Options options) as [op mn].
    destruct (Opaque.credentialResponse _ _ _ _ _ _ _ _) as [resp r1].
    unfold AKE.Response.
    destruct (AKE.setOptions _ _ _ _) as [[v epks] r2].
    destruct (AKE.ephemeralSecretKey v) as [esk|]; [|discriminate].
    cbn [bind].
    destruct (AKE.core3DH _ _ _ _ _ _) as [[[[c1 ss] ms] mc]|] eqn:C;
      [|discriminate].
    cbn [bind]. intros E'. injection E' as _ <- _. cbn.
    apply (core3DH_mac_len _ _ _ _ _ _ _ _ _ _ Hmac) in C. tauto. }
  rewrite <- E in L. unfold len in L. cbn [length] in L. lia.
Qed.

(** X10. On a server that has no session yet - new, or new and keyed -
    the expected client MAC is empty, and [LoginFinish] accepts a KE3
    whose client MAC is empty (for a MAC comparison under which two empty
    strings are equal). *)
Theorem LoginFinish_without_session (c : option Opaque.Configuration)
    (s : Opaque.Server) (sid ssk spk seed : bytes) :
  Opaque.NewServer c = Ok s ->
  HMACEqual [] [] = true ->
  Opaque.ExpectedMAC s = []
  /\ Opaque.LoginFinish s {| Message.ClientMac := [] |} = None
  /\ Opaque.LoginFinish (snd (Opaque.SetKeyMaterial s sid ssk spk seed))
       {| Message.ClientMac := [] |} = None.
Proof.
  intros N Heq. apply NewServer_fresh in N. destruct N as (_ & A & _).
  destruct (SetKeyMaterial_conf_Ake s sid ssk spk seed) as [_ A'].
  unfold Opaque.LoginFinish, Opaque.ExpectedMAC, AKE.Finalize, AKE.ExpectedMAC.
  rewrite A', A. cbn. rewrite Heq. auto.
Qed.

(** X11. The AKE state moves between server objects: after a
    [GenerateKE2] that returned a KE2, [SerializeState] has
    [MAC.Size() + KDF.Size()] bytes, and a server of the same MAC and KDF
    whose AKE state is empty accepts it with [SetAKEState]; that server
    then has the same expected client MAC and session key, and
    [LoginFinish] answers on it as on the first. *)
Theorem AKE_state_transfer (s s' t : Opaque.Server) (ke1 : Message.KE1)
    (record : Opaque.ClientRecord) (options : list Opaque.GenerateKE2Options)
    (r r' : RNG) (ke2 : Message.KE2) :
  Opaque.GenerateKE2 s ke1 record options r = Some (Ok ke2, s', r') ->
  (forall h k m, len (HMAC h k m) = HashSize h) ->
  (forall h prk info L, 0 <= L -> len (HKDFExpand h prk info L) = L) ->
  0 <= HashSize (Internal.KDF (Opaque.conf s)) ->
  Internal.MAC (Opaque.conf t) = Internal.MAC (Opaque.conf s) ->
  Internal.KDF (Opaque.conf t) = Internal.KDF (Opaque.conf s) ->
  len (AKE.clientMac (Opaque.Ake t)) = 0 ->
  len (AKE.sessionSecret (Opaque.Ake t)) = 0 ->
  len (Opaque.SerializeState s')
  = HashSize (Internal.MAC (Opaque.conf s))
    + HashSize (Internal.KDF (Opaque.conf s))
  /\ exists t',
       Opaque.SetAKEState t (Opaque.SerializeState s') = (None, t')
       /\ Opaque.ExpectedMAC t' = Opaque.ExpectedMAC s'
       /\ Opaque.SessionKey t' = Opaque.SessionKey s'
       /\ Opaque.SerializeState t' = Opaque.SerializeState s'
       /\ forall ke3, Opaque.LoginFinish t' ke3 = Opaque.LoginFinish s' ke3.
Proof.
  intros G Hmac Hexp Hk Em Ek Tc Ts.
  destruct (GenerateKE2_state_len _ _ _ _ _ _ _ _ G Hmac Hexp Hk) as [Lm Lk].
  unfold Opaque.ExpectedMAC, AKE.ExpectedMAC in Lm.
  unfold Opaque.SessionKey, AKE.SessionKey in Lk.
  assert (S : Opaque.SerializeState s'
              = AKE.clientMac (Opaque.Ake s')
                ++ AKE.sessionSecret (Opaque.Ake s')).
  { apply SerializeState_concat. }
  assert (L : len (Opaque.SerializeState s')
              = HashSize (Internal.MAC (Opaque.conf s))
                + HashSize (Internal.KDF (Opaque.conf s))).
  { rewrite S, len_app, Lm, Lk. reflexivity. }
  split; [exact L|].
  unfold Opaque.SetAKEState, AKE.SetState. rewrite Em, Ek.
  apply Z.eqb_eq in L. rewrite L. cbn [negb].
  apply Z.eqb_eq in Tc, Ts. rewrite Tc, Ts. cbn [negb orb].
  eexists. split; [reflexivity|].
  assert (F : slice_to (Opaque.SerializeState s')
                (HashSize (Internal.MAC (Opaque.conf s)))
              = AKE.clientMac (Opaque.Ake s')
              /\ slice_from (Opaque.SerializeState s')
                   (HashSize (Internal.MAC (Opaque.conf s)))
                 = AKE.sessionSecret (Opaque.Ake s')).
  { rewrite S, <- Lm. unfold slice_to, slice_from, len. rewrite Nat2Z.id.
    split; [apply firstn_length_app | apply skipn_length_app]. }
  destruct F as [F1 F2].
  unfold Opaque.ExpectedMAC, Opaque.SessionKey, Opaque.LoginFinish,
    AKE.Finalize, AKE.ExpectedMAC, AKE.SessionKey.
  cbn [Opaque.Ake AKE.clientMac AKE.sessionSecret].
  rewrite F1, F2.
  split; [reflexivity|]. split; [reflexivity|]. split; [|reflexivity].
  unfold Opaque.SerializeState at 1. rewrite SerializeState_concat.
  cbn [Opaque.Ake AKE.clientMac AKE.sessionSecret]. symmetry. exact S.
Qed.

(** X12. [Flush] empties the AKE state: the serialized state is empty
    afterwards, and [SetState], which refuses a non-empty state, succeeds
    again and installs the given values. *)
Theorem Flush_then_SetState (a : AKE.Server) (clientMac sessionSecret : bytes) :
  AKE.SerializeState (AKE.Flush a) = []
  /\ AKE.ExpectedMAC (AKE.Flush a) = []
  /\ AKE.SessionKey (AKE.Flush a) = []
  /\ exists a',
       AKE.SetState (AKE.Flush a) clientMac sessionSecret = (None, a')
       /\ AKE.ExpectedMAC a' = clientMac
       /\ AKE.SessionKey a' = sessionSecret
       /\ AKE.SerializeState a' = clientMac ++ sessionSecret.
Proof.
  split; [rewrite SerializeState_concat; reflexivity|].
  split; [reflexivity|]. split; [reflexivity|].
  eexists. split; [reflexivity|]. split; [reflexivity|].
  split; [reflexivity|]. rewrite SerializeState_concat. reflexivity.
Qed.

(** X13. Of the variadic options of [GenerateKE2] only the first is used,
    and passing none is the same as passing one with every field
    zero-valued. *)
Theorem GenerateKE2_first_option (s : Opaque.Server) (ke1 : Message.KE1)
    (record : Opaque.ClientRecord) (o : Opaque.GenerateKE2Options)
    (rest : list Opaque.GenerateKE2Options) (r : RNG) :
  Opaque.GenerateKE2 s ke1 record (o :: rest) r
  = Opaque.GenerateKE2 s ke1 record [o] r
  /\ Opaque.GenerateKE2 s ke1 record [] r
     = Opaque.GenerateKE2 s ke1 record
         [ {| Opaque.KeyShareSeed := []; Opaque.AKENonce := [];
              Opaque.MaskingNonce := []; Opaque.AKENonceLength := 0 |} ] r.
Proof. split; reflexivity. Qed.

(** X14. A seed from [GenerateOPRFSeed] has the length [SetKeyMaterial]
    asks for: on a server built from the same configuration, with a secret
    key that decodes to a non-zero scalar and a public key that decodes,
    [SetKeyMaterial] succeeds with it. *)
Theorem GenerateOPRFSeed_accepted (c : Opaque.Configuration)
    (s : Opaque.Server) (sid ssk spk : bytes) (r : RNG)
    (sks : Scalar) (pk : Element) :
  Opaque.NewServer (Some c) = Ok s ->
  0 <= HashSize (Opaque.Hash c) ->
  ScalarDecode (Opaque.AKE c) ssk = Ok sks ->
  IsZero sks = false ->
  len spk = ElementLength (Opaque.AKE c) ->
  ElementDecode (Opaque.AKE c) spk = Ok pk ->
  len (fst (Opaque.GenerateOPRFSeed c r)) = HashSize (Opaque.Hash c)
  /\ exists s',
       Opaque.SetKeyMaterial s sid ssk spk (fst (Opaque.GenerateOPRFSeed c r))
       = (None, s').
Proof.
  intros N Hh D Z0 L2 D2.
  assert (L : len (fst (Opaque.GenerateOPRFSeed c r)) = HashSize (Opaque.Hash c)).
  { unfold Opaque.GenerateOPRFSeed. apply len_RandomBytes. exact Hh. }
  split; [exact L|].
  revert N. unfold Opaque.NewServer, Opaque.toInternal.
  destruct (Opaque.verify c); [discriminate|].
  intros E. injection E as <-.
  unfold Opaque.SetKeyMaterial.
  cbn [Opaque.conf Internal.Group Internal.Hash Internal.hashID
         Internal.NewHash].
  rewrite D, Z0. apply Z.eqb_eq in L, L2. rewrite L, L2. cbn [negb].
  rewrite D2. eexists. reflexivity.
Qed.

End LoginAndState.

(** ** Labels, context strings and the three products *)

Section LabelsAndProducts.
Context `{Primitives}.

Lemma I2OSP_defined (n : Z) (L : nat) (out : bytes) :
  Encoding.I2OSP n L = Some out ->
  0 <= n < 256 ^ Z.of_nat L /\ out = Encoding.be_bytes L n.
Proof.
  unfold Encoding.I2OSP.
  destruct (Z.leb_spec 0 n); destruct (Z.ltb_spec n (256 ^ Z.of_nat L));
    cbn [andb]; intros E; try discriminate E.
  injection E as <-. auto.
Qed.

Lemma EncodeVectorLen_defined (v : bytes) (L : nat) (out : bytes) :
  Encoding.EncodeVectorLen v L = Some out ->
  len v < 256 ^ Z.of_nat L /\ out = Encoding.be_bytes L (len v) ++ v.
Proof.
  unfold Encoding.EncodeVectorLen.
  destruct (Encoding.I2OSP (len v) L) as [h|] eqn:E; [|discriminate].
  apply I2OSP_defined in E. destruct E as [R ->].
  cbn [bind]. intros E. injection E as <-. split; [lia | reflexivity].
Qed.

Lemma len_be_bytes (L : nat) (n : Z) :
  len (Encoding.be_bytes L n) = Z.of_nat L.
Proof. unfold len. rewrite length_be_bytes. reflexivity. Qed.

Lemma buildLabel_bounds (length : Z) (label context l : bytes) :
  AKE.buildLabel length label context = Some l ->
  0 <= length <= 65535 /\ len label <= 248 /\ len context <= 255.
Proof.
  unfold AKE.buildLabel.
  destruct (Encoding.I2OSP length 2) as [a|] eqn:E1; [|discriminate].
  cbn [bind].
  destruct (Encoding.EncodeVectorLen _ 1) as [b|] eqn:E2; [|discriminate].
  cbn [bind].
  destruct (Encoding.EncodeVectorLen context 1) as [d|] eqn:E3;
    [|discriminate].
  intros _.
  apply I2OSP_defined in E1. apply EncodeVectorLen_defined in E2, E3.
  destruct E1 as [R1 _]. destruct E2 as [R2 _]. destruct E3 as [R3 _].
  change (256 ^ Z.of_nat 2) with 65536 in R1.
  change (256 ^ Z.of_nat 1) with 256 in R2, R3.
  rewrite len_app in R2.
  change (len (bytes_of_string Tag.LabelPrefix)) with 7 in R2. lia.
Qed.

(** X15. [buildLabel] returns exactly when the length fits two bytes, the
    label prefixed by "OPAQUE-" fits a one-byte length and the context
    fits a one-byte length; otherwise it panics. The label it returns is
    [11 + len(label) + len(context)] bytes long. *)
Theorem buildLabel_defined (length : Z) (label context : bytes) :
  ((exists l, AKE.buildLabel length label context = Some l)
   <-> (0 <= length <= 65535 /\ len label <= 248 /\ len context <= 255))
  /\ (forall l,
        AKE.buildLabel length label context = Some l ->
        len l = 11 + len label + len context).
Proof.
  split.
  - split.
    + intros [l E]. eapply buildLabel_bounds. exact E.
    + intros (R1 & R2 & R3). eexists. apply buildLabel_some; assumption.
  - intros l E.
    destruct (buildLabel_bounds _ _ _ _ E) as (R1 & R2 & R3).
    rewrite buildLabel_some in E by assumption.
    match type of E with
    | Some ?x = Some l => assert (El : l = x) by congruence
    end.
    rewrite El, !len_app, !len_be_bytes.
    change (len (bytes_of_string "OPAQUE-")) with 7. lia.
Qed.

Lemma app_eq_len {A} (a a' b b' : list A) :
  length a = length a' -> a ++ b = a' ++ b' -> a = a' /\ b = b'.
Proof.
  revert a'. induction a as [|x a IH]; intros [|x' a'] L E;
    try discriminate L.
  - auto.
  - cbn in E. injection E as -> E. injection L as L.
    destruct (IH a' L E) as [-> ->]. auto.
Qed.

Lemma be_bytes_inj (L : nat) (n m : Z) :
  0 <= n < 256 ^ Z.of_nat L -> 0 <= m < 256 ^ Z.of_nat L ->
  Encoding.be_bytes L n = Encoding.be_bytes L m -> n = m.
Proof.
  intros Hn Hm E. apply (f_equal Encoding.OS2IP) in E.
  rewrite !OS2IP_be_bytes in E by assumption. exact E.
Qed.

(** X16. Labels are unambiguous: when [buildLabel] returns the same bytes
    for two triples of length, label and context, the triples are
    equal. *)
Theorem buildLabel_injective (length length' : Z)
    (label label' context context' l : bytes) :
  AKE.buildLabel length label context = Some l ->
  AKE.buildLabel length' label' context' = Some l ->
  length = length' /\ label = label' /\ context = context'.
Proof.
  intros E E'.
  destruct (buildLabel_bounds _ _ _ _ E) as (R1 & R2 & R3).
  destruct (buildLabel_bounds _ _ _ _ E') as (R1' & R2' & R3').
  rewrite buildLabel_some in E by assumption.
  rewrite buildLabel_some in E' by assumption.
  match type of E with
  | Some ?x = Some l =>
      match type of E' with
      | Some ?y = Some l => assert (EE : x = y) by congruence
      end
  end.
  clear E E'. rename EE into E.
  pose proof (len_nonneg label) as N1. pose proof (len_nonneg label') as N1'.
  pose proof (len_nonneg context) as N2.
  pose proof (len_nonneg context') as N2'.
  apply app_eq_len in E; [|rewrite !length_be_bytes; reflexivity].
  destruct E as [E1 E].
  apply be_bytes_inj in E1;
    [|change (256 ^ Z.of_nat 2) with 65536; lia
     |change (256 ^ Z.of_nat 2) with 65536; lia].
  rewrite <- !app_assoc in E.
  apply app_eq_len in E; [|rewrite !length_be_bytes; reflexivity].
  destruct E as [E2 E].
  apply be_bytes_inj in E2;
    [|change (256 ^ Z.of_nat 1) with 256; lia
     |change (256 ^ Z.of_nat 1) with 256; lia].
  apply app_inv_head in E.
  apply app_eq_len in E; [|unfold len in E2; lia].
  destruct E as [E3 E].
  apply app_eq_len in E; [|rewrite !length_be_bytes; reflexivity].
  destruct E as [_ E4]. auto.
Qed.

(** X17. Key-schedule outputs have the size of the KDF: when [deriveKeys]
    returns, the session secret and both MAC keys are [KDF.Size()] bytes
    long (for an HKDF-Expand that returns the requested length). *)
Theorem deriveKeys_lengths (h : N) (ikm context : bytes)
    (keys : AKE.macKeys) (sessionSecret : bytes) :
  (forall prk info L, 0 <= L -> len (HKDFExpand h prk info L) = L) ->
  AKE.deriveKeys h ikm context = Some (keys, sessionSecret) ->
  0 <= HashSize h <= 65535
  /\ len context <= 255
  /\ len sessionSecret = HashSize h
  /\ len (AKE.serverMacKey keys) = HashSize h
  /\ len (AKE.clientMacKey keys) = HashSize h.
Proof.
  intros Hexp. unfold AKE.deriveKeys, AKE.deriveSecret.
  destruct (AKE.expandLabel h _ (bytes_of_string Tag.Handshake) context)
    as [hs|] eqn:E1; [|discriminate].
  cbn [bind].
  destruct (AKE.expandLabel h _ (bytes_of_string Tag.SessionKey) context)
    as [sk|] eqn:E2; [|discriminate].
  cbn [bind].
  destruct (AKE.expandLabel h hs (bytes_of_string Tag.MacServer) [])
    as [k2|] eqn:E3; [|discriminate].
  cbn [bind].
  destruct (AKE.expandLabel h hs (bytes_of_string Tag.MacClient) [])
    as [k3|] eqn:E4; [|discriminate].
  cbn [bind]. intros E. injection E as <- <-. cbn.
  assert (B : 0 <= HashSize h <= 65535 /\ len context <= 255).
  { revert E1. unfold AKE.expandLabel.
    destruct (AKE.buildLabel _ _ context) as [l|] eqn:B; [|discriminate].
    intros _.
    destruct (buildLabel_bounds _ _ _ _ B) as (R1 & _ & R3). auto. }
  destruct B as [B1 B2]. split; [exact B1|]. split; [exact B2|].
  repeat split; eapply expandLabel_len; eauto; lia.
Qed.


(** X19. The OPRF context string is defined exactly for suite identifiers
    that fit two bytes; it is "OPRFV1-", a zero byte for the base mode and
    the identifier on two bytes, ten bytes in all; and for a given prefix
    the domain separation tags of two suites coincide only for the same
    suite. *)
Theorem contextString_separates (id id' : Z) (cs cs' : bytes)
    (prefix : string) :
  OPRF.contextString id = Some cs ->
  OPRF.contextString id' = Some cs' ->
  0 <= id <= 65535
  /\ cs = bytes_of_string "OPRFV1-" ++ [x00] ++ Encoding.be_bytes 2 id
  /\ len cs = 10
  /\ len (OPRF.dst cs prefix) = len (bytes_of_string prefix) + 10
  /\ (OPRF.dst cs prefix = OPRF.dst cs' prefix -> id = id').
Proof.
  unfold OPRF.contextString, OPRF.base.
  change (Encoding.I2OSP 0 1) with (Some [x00]). cbn [bind].
  destruct (Encoding.I2OSP id 2) as [i|] eqn:E1; [|discriminate].
  destruct (Encoding.I2OSP id' 2) as [i'|] eqn:E2; [|discriminate].
  cbn [bind]. intros E E'.
  apply I2OSP_defined in E1, E2.
  destruct E1 as [R1 E1]. destruct E2 as [R2 E2].
  change (256 ^ Z.of_nat 2) with 65536 in R1, R2.
  assert (C : cs = bytes_of_string "OPRFV1-" ++ [x00]
                   ++ Encoding.be_bytes 2 id).
  { rewrite <- E1, app_assoc. unfold Tag.OPRF in E. congruence. }
  assert (C' : cs' = bytes_of_string "OPRFV1-" ++ [x00]
                     ++ Encoding.be_bytes 2 id').
  { rewrite <- E2, app_assoc. unfold Tag.OPRF in E'. congruence. }
  clear E E' E1 E2 i i'.
  assert (L : len cs = 10).
  { rewrite C, !len_app, len_be_bytes. reflexivity. }
  split; [lia|]. split; [exact C|]. split; [exact L|]. split.
  - unfold OPRF.dst. rewrite len_app, L. reflexivity.
  - unfold OPRF.dst. rewrite C, C'. intros E.
    apply app_inv_head in E. apply app_inv_head in E.
    apply app_inv_head in E.
    apply be_bytes_inj in E; [exact E | |];
      change (256 ^ Z.of_nat 2) with 65536; lia.
Qed.

End LabelsAndProducts.

(** ** Fake records at login, and the remaining error cases *)

Section FakeRecordLogin.
Context `{Primitives}.

(** X20. A fake record goes through [GenerateKE2] like a real one: for a
    configuration that passes [verify], the record [GetFakeRecord] returns
    is accepted by every reachable server with key material and the same
    MAC, which answers with a KE2 (the lengths being in range). *)
Theorem fake_record_accepted (c : Opaque.Configuration)
    (credentialIdentifier : bytes) (r : RNG) (s : Opaque.Server)
    (km : Opaque.KeyMaterial) (ke1 : Message.KE1)
    (options : list Opaque.GenerateKE2Options) :
  Opaque.verify c = None ->
  Opaque.reachable s ->
  Opaque.keyMaterial s = Some km ->
  Internal.MAC (Opaque.conf s) = Opaque.MAC c ->
  0 <= HashSize (Opaque.MAC c) ->
  (forall e, len (SerializePoint e) <= 65535) ->
  len (Opaque.serverIdentity km) <= 65535 ->
  len (Opaque.serverPublicKey km) <= 65535 ->
  len (Internal.Context (Opaque.conf s)) <= 65535 ->
  0 <= HashSize (Internal.KDF (Opaque.conf s)) <= 65535 ->
  (forall data,
     len (HashSum (Internal.hashID (Internal.Hash (Opaque.conf s))) data)
     <= 255) ->
  exists record r1,
    Opaque.GetFakeRecord c credentialIdentifier r = (Ok record, r1)
    /\ exists ke2 s' r',
         Opaque.GenerateKE2 s ke1 record options r1 = Some (Ok ke2, s', r').
Proof.
  intros V R K M Hm Hsp Hsi Hspk Hc Hk Hh.
  unfold Opaque.GetFakeRecord, Opaque.toInternal. rewrite V.
  cbn [Internal.Group Internal.KDF Internal.MAC].
  destruct (ScalarRandom (Opaque.AKE c) r) as [scalar ra].
  destruct (RandomBytes (HashSize (Opaque.KDF c)) ra) as [mk rb].
  eexists. exists rb. split; [reflexivity|].
  match goal with
  | |- context [Opaque.GenerateKE2 s ke1 ?rec options rb] =>
      destruct (GenerateKE2_runs s km ke1 rec options rb)
        as (ke2 & s' & r' & esk & G & _)
  end; try assumption.
  - cbn. rewrite (reachable_EnvelopeSize s R), M.
    apply len_make. unfold Internal.NonceLength. lia.
  - cbn. unfold len. cbn. lia.
  - apply Hsp.
  - exists ke2, s', r'. exact G.
Qed.

(** X21. The errors of [SetAKEState], in the order of its checks: a buffer
    whose length is not [MAC.Size() + KDF.Size()] gives [ErrInvalidState],
    whether the state is empty or not; a buffer of the right length on a
    non-empty state gives the AKE error wrapped as "setting AKE state". *)
Theorem SetAKEState_errors (s : Opaque.Server) (state : bytes) :
  let size := HashSize (Internal.MAC (Opaque.conf s))
              + HashSize (Internal.KDF (Opaque.conf s)) in
  (len state <> size ->
   Opaque.SetAKEState s state = (Some ErrInvalidState, s))
  /\ (len state = size ->
      0 < len (AKE.clientMac (Opaque.Ake s))
          + len (AKE.sessionSecret (Opaque.Ake s)) ->
      Opaque.SetAKEState s state
      = (Some (Wrapped "setting AKE state" errStateNotEmpty), s)).
Proof.
  cbv zeta. unfold Opaque.SetAKEState, AKE.SetState. split.
  - intros L. apply Z.eqb_neq in L. rewrite L. reflexivity.
  - intros L Hne. apply Z.eqb_eq in L. rewrite L. cbn [negb].
    pose proof (len_nonneg (AKE.clientMac (Opaque.Ake s))) as H1.
    pose proof (len_nonneg (AKE.sessionSecret (Opaque.Ake s))) as H2.
    assert (E : negb (len (AKE.clientMac (Opaque.Ake s)) =? 0)
                || negb (len (AKE.sessionSecret (Opaque.Ake s)) =? 0) = true).
    { destruct (Z.eqb_spec (len (AKE.clientMac (Opaque.Ake s))) 0);
        destruct (Z.eqb_spec (len (AKE.sessionSecret (Opaque.Ake s))) 0);
        try reflexivity; lia. }
    rewrite E. destruct s; reflexivity.
Qed.

(** X22. [Serialize] returns exactly when the context is at most 65,535
    bytes long and panics otherwise; the encoding is [8 + len(context)]
    bytes long, and on configurations that pass [verify] it is injective:
    two of them with the same encoding are equal. *)
Theorem Serialize_defined (c : Opaque.Configuration) :
  ((exists enc, Opaque.Serialize c = Some enc)
   <-> len (Opaque.Context c) <= 65535)
  /\ (forall enc,
        Opaque.Serialize c = Some enc ->
        len enc = 8 + len (Opaque.Context c))
  /\ (forall c' enc,
        Opaque.verify c = None -> Opaque.verify c' = None ->
        Opaque.Serialize c = Some enc -> Opaque.Serialize c' = Some enc ->
        c = c').
Proof.
  split; [|split].
  - split.
    + intros [enc S]. destruct (Serialize_inv c enc S) as (v & Ev & _).
      destruct (Z.le_gt_cases (len (Opaque.Context c)) 65535) as [L|L];
        [exact L|].
      rewrite EncodeVector_none in Ev by lia. discriminate.
    + intros L. unfold Opaque.Serialize.
      rewrite (EncodeVector_some _ L). cbn [bind]. eexists. reflexivity.
  - intros enc S. destruct (Serialize_inv c enc S) as (v & Ev & ->).
    rewrite len_app, (EncodeVector_len _ _ Ev). unfold len at 1. cbn [length].
    lia.
  - intros c' enc V V' S S'.
    pose proof (Deserialize_Serialize_app c enc [] V S) as D.
    pose proof (Deserialize_Serialize_app c' enc [] V' S') as D'.
    congruence.
Qed.

End FakeRecordLogin.

(** ** The properties on the small instance *)

(** The stand-ins of the small instance keep the contracts the properties
    above assume of the primitives. *)
Lemma Toy_size_nonneg (h : N) : 0 <= Toy.size h.
Proof.
  unfold Toy.size.
  destruct h as [|p]; [lia|].
  repeat (destruct p as [p|p|]; try lia).
Qed.

Lemma Toy_HMAC_len (h : N) (k m : bytes) :
  len (@HMAC Toy.primitives h k m) = @HashSize Toy.primitives h.
Proof. apply Toy_digest_len. apply Toy_size_nonneg. Qed.

Lemma Toy_Expand_len (h : N) (prk info : bytes) (L : Z) :
  0 <= L -> len (@HKDFExpand Toy.primitives h prk info L) = L.
Proof. apply Toy_digest_len. Qed.

Lemma Toy_HashSum_len (data : bytes) :
  len (@HashSum Toy.primitives 7%N data) <= 255.
Proof.
  change (len (Toy.digest 64 data) <= 255). rewrite Toy_digest_len; lia.
Qed.

Lemma Toy_equalBytes_refl (a : bytes) : Toy.equalBytes a a = true.
Proof.
  unfold Toy.equalBytes. rewrite Z.eqb_refl. cbn [andb].
  induction a as [|x a IH]; cbn [combine forallb]; [reflexivity|].
  rewrite IH, andb_true_r. apply Byte.byte_dec_lb. reflexivity.
Qed.

Lemma Toy_equalBytes (a b : bytes) : Toy.equalBytes a b = true <-> a = b.
Proof.
  split; [|intros ->; apply Toy_equalBytes_refl].
  unfold Toy.equalBytes. revert b.
  induction a as [|x a IH]; intros [|y b]; unfold len;
    cbn [length combine forallb]; intros E;
    apply andb_prop in E; destruct E as [E1 E2]; apply Z.eqb_eq in E1;
    try lia.
  - reflexivity.
  - apply andb_prop in E2. destruct E2 as [E2 E3].
    apply Byte.byte_dec_bl in E2. subst y. f_equal.
    apply IH. unfold len. rewrite E3, andb_true_r. apply Z.eqb_eq. lia.
Qed.


(** The keyed server of the small instance answers the KE1 and the record
    of the small instance with a KE2. *)
Lemma Toy_GenerateKE2 :
  exists ke2 s' r',
    @Opaque.GenerateKE2 Toy.primitives Toy.server1 Toy.ke1_0 Toy.record0 []
      Toy.rng0 = Some (Ok ke2, s', r').
Proof. apply returns_ok_inv. vm_compute. reflexivity. Defined.

(** X1, on the default configuration. *)
Lemma verify_allow_list_witness :
  (Opaque.OPRF Opaque.DefaultConfiguration = x01
   \/ Opaque.OPRF Opaque.DefaultConfiguration = x03
   \/ Opaque.OPRF Opaque.DefaultConfiguration = x04
   \/ Opaque.OPRF Opaque.DefaultConfiguration = x05)
  /\ (Opaque.KDF Opaque.DefaultConfiguration < 25)%N.
Proof.
  destruct (proj1 (@verify_allow_list Toy.primitives
                     Opaque.DefaultConfiguration) eq_refl)
    as (A & _ & (B & _) & _).
  split; [exact A | exact B].
Defined.

(** X2, on an encoding of the default configuration with context [2a] and
    one trailing byte. *)
Lemma DeserializeConfiguration_sound_witness :
  Opaque.Serialize
    (Opaque.mkConfiguration [x2a] 7%N 7%N 7%N x01 x01 x01)
  = Some (slice_to [x01; x01; x01; x07; x07; x07; x00; x01; x2a; xff]
            (8 + len [x2a])).
Proof.
  apply (@DeserializeConfiguration_sound Toy.primitives
           [x01; x01; x01; x07; x07; x07; x00; x01; x2a; xff]
           (Opaque.mkConfiguration [x2a] 7%N 7%N 7%N x01 x01 x01)).
  reflexivity.
Defined.

(** X3, on the encoding of the default configuration with context [2a],
    cut after 8 bytes. *)
Lemma DeserializeConfiguration_truncated_witness :
  @Opaque.DeserializeConfiguration Toy.primitives
    (slice_to [x01; x01; x01; x07; x07; x07; x00; x01; x2a] 8)
  = Err (if 8 <? 8 then ErrConfigurationInvalidLength
         else Wrapped "decoding the configuration context" errTotalLength).
Proof.
  apply (@DeserializeConfiguration_truncated Toy.primitives
           (Opaque.mkConfiguration [x2a] 7%N 7%N 7%N x01 x01 x01)).
  - reflexivity.
  - split; [intros E | ]; vm_compute; [discriminate E | reflexivity].
Defined.

(** X4, on a configuration with the unknown KDF identifier 9. *)
Lemma Deserialize_Serialize_verify_witness :
  @Opaque.DeserializeConfiguration Toy.primitives
    [x01; x01; x01; x09; x07; x07; x00; x00]
  = match @Opaque.verify Toy.primitives
            (Opaque.mkConfiguration [] 9%N 7%N 7%N x01 x01 x01) with
    | None => Ok (Opaque.mkConfiguration [] 9%N 7%N 7%N x01 x01 x01)
    | Some err => Err err
    end.
Proof.
  apply (@Deserialize_Serialize_verify Toy.primitives
           (Opaque.mkConfiguration [] 9%N 7%N 7%N x01 x01 x01)).
  - repeat split.
  - reflexivity.
Defined.

(** X6, on the new server of the small instance. *)
Lemma SetKeyMaterial_success_witness :
  exists s',
    @Opaque.SetKeyMaterial Toy.primitives Toy.server0 [] [x02] [x02] Toy.seed0
    = (None, s').
Proof.
  apply (proj1 (@SetKeyMaterial_success Toy.primitives Toy.server0
                  [] [x02] [x02] Toy.seed0)).
  exists 2, 2. repeat split.
Defined.

(** X7, on the new server: an empty secret key, and a public key of two
    bytes. *)
Lemma SetKeyMaterial_key_errors_witness :
  @Opaque.SetKeyMaterial Toy.primitives Toy.server0 [] [] [x02] Toy.seed0
  = (Some (Wrapped "invalid server AKE secret key"
             (ErrExternal "invalid scalar length")), Toy.server0)
  /\ @Opaque.SetKeyMaterial Toy.primitives Toy.server0 [] [x02] [x02; x02]
       Toy.seed0
     = (Some ErrInvalidPksLength, Toy.server0).
Proof.
  split.
  - apply (proj1 (@SetKeyMaterial_key_errors Toy.primitives Toy.server0
                    [] [] [x02] Toy.seed0)).
    reflexivity.
  - apply (proj1 (proj2 (@SetKeyMaterial_key_errors Toy.primitives Toy.server0
                           [] [x02] [x02; x02] Toy.seed0) 2
                    eq_refl eq_refl eq_refl)).
    intros E. vm_compute in E. discriminate E.
Defined.

(** X8, on the keyed server of the small instance. *)
Lemma GenerateKE2_returns_witness :
  exists ke2 s' r',
    @Opaque.GenerateKE2 Toy.primitives Toy.server1 Toy.ke1_0 Toy.record0 []
      Toy.rng0 = Some (Ok ke2, s', r')
    /\ Opaque.keyMaterial s' = Some Toy.keyMaterial0.
Proof.
  destruct (@GenerateKE2_returns Toy.primitives Toy.server1 Toy.keyMaterial0
              Toy.ke1_0 Toy.record0 [] Toy.rng0)
    as (ke2 & s' & r' & esk & G & K & _).
  - reflexivity.
  - reflexivity.
  - intros E. vm_compute in E. discriminate E.
  - intros E. vm_compute in E. discriminate E.
  - intros E. vm_compute in E. discriminate E.
  - intros E. vm_compute in E. discriminate E.
  - intros E. vm_compute in E. discriminate E.
  - split; intros E; vm_compute in E; discriminate E.
  - exact Toy_HashSum_len.
  - exists ke2, s', r'. split; [exact G | exact K].
Defined.

(** X9, on the keyed server: after the KE2, a KE3 with an empty MAC is
    refused and one with the expected MAC is accepted. *)
Lemma LoginFinish_after_GenerateKE2_witness :
  exists ke2 s' r',
    @Opaque.GenerateKE2 Toy.primitives Toy.server1 Toy.ke1_0 Toy.record0 []
      Toy.rng0 = Some (Ok ke2, s', r')
    /\ Opaque.LoginFinish s' {| Message.ClientMac := [] |}
       = Some ErrAkeInvalidClientMac
    /\ Opaque.LoginFinish s' {| Message.ClientMac := Opaque.ExpectedMAC s' |}
       = None.
Proof.
  destruct Toy_GenerateKE2 as (ke2 & s' & r' & G).
  exists ke2, s', r'. split; [exact G|].
  destruct (@LoginFinish_after_GenerateKE2 Toy.primitives Toy.server1 s'
              Toy.ke1_0 Toy.record0 [] Toy.rng0 r' ke2 G)
    as [A B].
  - exact Toy_equalBytes.
  - exact Toy_HMAC_len.
  - reflexivity.
  - split; [exact B|].
    apply (proj1 (A {| Message.ClientMac := Opaque.ExpectedMAC s' |})).
    reflexivity.
Defined.

(** X10, on the new server of the small instance. *)
Lemma LoginFinish_without_session_witness :
  @Opaque.LoginFinish Toy.primitives Toy.server0 {| Message.ClientMac := [] |}
  = None.
Proof.
  apply (@LoginFinish_without_session Toy.primitives None Toy.server0
           [] [] [] []).
  - reflexivity.
  - reflexivity.
Defined.

(** X11, on the small instance: the state after the KE2 is 128 bytes long
    and the new server takes it over. *)
Lemma AKE_state_transfer_witness :
  exists ke2 s' r' t',
    @Opaque.GenerateKE2 Toy.primitives Toy.server1 Toy.ke1_0 Toy.record0 []
      Toy.rng0 = Some (Ok ke2, s', r')
    /\ len (Opaque.SerializeState s') = 128
    /\ Opaque.SetAKEState Toy.server0 (Opaque.SerializeState s') = (None, t')
    /\ Opaque.SessionKey t' = Opaque.SessionKey s'.
Proof.
  destruct Toy_GenerateKE2 as (ke2 & s' & r' & G).
  destruct (@AKE_state_transfer Toy.primitives Toy.server1 s' Toy.server0
              Toy.ke1_0 Toy.record0 [] Toy.rng0 r' ke2 G)
    as (L & t' & S & _ & K & _).
  - exact Toy_HMAC_len.
  - exact Toy_Expand_len.
  - intros E. vm_compute in E. discriminate E.
  - reflexivity.
  - reflexivity.
  - reflexivity.
  - reflexivity.
  - exists ke2, s', r', t'. split; [exact G|]. split; [exact L|].
    split; [exact S | exact K].
Defined.

(** X14, on the default configuration. *)
Lemma GenerateOPRFSeed_accepted_witness :
  exists s',
    @Opaque.SetKeyMaterial Toy.primitives Toy.server0 [] [x02] [x02]
      (fst (@Opaque.GenerateOPRFSeed Toy.primitives
              Opaque.DefaultConfiguration Toy.rng0))
    = (None, s').
Proof.
  apply (@GenerateOPRFSeed_accepted Toy.primitives Opaque.DefaultConfiguration
           Toy.server0 [] [x02] [x02] Toy.rng0 2 2).
  - reflexivity.
  - intros E. vm_compute in E. discriminate E.
  - reflexivity.
  - reflexivity.
  - reflexivity.
  - reflexivity.
Defined.

(** X15, on the label of the server MAC key with a 64-byte KDF. *)
Lemma buildLabel_defined_witness :
  exists l, AKE.buildLabel 64 (bytes_of_string "ServerMAC") [] = Some l.
Proof.
  apply (proj1 (buildLabel_defined 64 (bytes_of_string "ServerMAC") [])).
  repeat split; intros E; vm_compute in E; discriminate E.
Defined.

(** X16, on two labels of the key schedule. *)
Lemma buildLabel_injective_witness :
  (64 : Z) = 64
  /\ bytes_of_string "ServerMAC" = bytes_of_string "ServerMAC"
  /\ @nil byte = [].
Proof.
  exact (buildLabel_injective 64 64 (bytes_of_string "ServerMAC")
           (bytes_of_string "ServerMAC") [] [] _ eq_refl eq_refl).
Defined.

(** X17, on the small instance with a 32-byte preamble. *)
Lemma deriveKeys_lengths_witness :
  exists keys sessionSecret,
    @AKE.deriveKeys Toy.primitives 7%N [x01] (repeat x00 32)
    = Some (keys, sessionSecret)
    /\ len sessionSecret = 64.
Proof.
  destruct (@AKE.deriveKeys Toy.primitives 7%N [x01] (repeat x00 32))
    as [[keys ss]|] eqn:D.
  - exists keys, ss. split; [reflexivity|].
    destruct (@deriveKeys_lengths Toy.primitives 7%N [x01] (repeat x00 32)
                keys ss (Toy_Expand_len 7%N) D) as (_ & _ & L & _).
    exact L.
  - exfalso. vm_compute in D. discriminate D.
Defined.


(** X19, on the suites 1 and 3. *)
Lemma contextString_separates_witness :
  OPRF.contextString 1
  = Some (bytes_of_string "OPRFV1-" ++ [x00] ++ Encoding.be_bytes 2 1)
  /\ OPRF.dst (bytes_of_string "OPRFV1-" ++ [x00; x00; x01]) "HashToGroup-"
     <> OPRF.dst (bytes_of_string "OPRFV1-" ++ [x00; x00; x03]) "HashToGroup-".
Proof.
  destruct (contextString_separates 1 3
              (bytes_of_string "OPRFV1-" ++ [x00; x00; x01])
              (bytes_of_string "OPRFV1-" ++ [x00; x00; x03])
              "HashToGroup-" eq_refl eq_refl) as (_ & C & _ & _ & I).
  split; [reflexivity|].
  intros E. apply I in E. discriminate E.
Defined.

(** X20, on the keyed server and the default configuration. *)
Lemma fake_record_accepted_witness :
  exists record r1 ke2 s' r',
    @Opaque.GetFakeRecord Toy.primitives Opaque.DefaultConfiguration
      (bytes_of_string "ghost") Toy.rng0 = (Ok record, r1)
    /\ Opaque.GenerateKE2 Toy.server1 Toy.ke1_0 record [] r1
       = Some (Ok ke2, s', r').
Proof.
  destruct (@fake_record_accepted Toy.primitives Opaque.DefaultConfiguration
              (bytes_of_string "ghost") Toy.rng0 Toy.server1 Toy.keyMaterial0
              Toy.ke1_0 [])
    as (record & r1 & F & ke2 & s' & r' & G).
  - reflexivity.
  - exact Toy_server1_reachable.
  - reflexivity.
  - reflexivity.
  - intros E. vm_compute in E. discriminate E.
  - intros e E. vm_compute in E. discriminate E.
  - intros E. vm_compute in E. discriminate E.
  - intros E. vm_compute in E. discriminate E.
  - intros E. vm_compute in E. discriminate E.
  - split; intros E; vm_compute in E; discriminate E.
  - exact Toy_HashSum_len.
  - exists record, r1, ke2, s', r'. split; [exact F | exact G].
Defined.

(** X21, on the new server: a three-byte state. *)
Lemma SetAKEState_errors_witness :
  @Opaque.SetAKEState Toy.primitives Toy.server0 [x01; x02; x03]
  = (Some ErrInvalidState, Toy.server0).
Proof.
  apply (proj1 (@SetAKEState_errors Toy.primitives Toy.server0
                  [x01; x02; x03])).
  intros E. vm_compute in E. discriminate E.
Defined.

(** X22, on the default configuration. *)
Lemma Serialize_defined_witness :
  exists enc, Opaque.Serialize Opaque.DefaultConfiguration = Some enc.
Proof.
  apply (proj2 (proj1 (@Serialize_defined Toy.primitives
                        Opaque.DefaultConfiguration))).
  intros E. vm_compute in E. discriminate E.
Defined.
